(** * The meta server of zeppelin: topology operations over the replicated store

    A shallow embedding of [src/meta/zp_meta_server.cc]: the protobuf
    messages of the topology, the floyd key-value store the server persists
    them in, and the operations [AddNode], [OffNode], [OnNode],
    [Distribute], [Reorganize] and the liveness map, each written after the
    C++ function of the same name. *)

From Stdlib Require Import ZArith String Ascii List Bool Lia Sorted Permutation.
From Stdlib Require OrderedTypeEx.
From stdpp Require Import gmap strings list.

Local Open Scope string_scope.
Local Open Scope Z_scope.

(** ** Machine integers *)

(** [int] is 32 bits wide and [int64_t] 64; the results of [+] are brought
    back into the range of the type, as two's complement hardware does. *)
Definition INT_MIN : Z := - 2 ^ 31.
Definition INT_MAX : Z := 2 ^ 31 - 1.
Definition INT64_MIN : Z := - 2 ^ 63.
Definition INT64_MAX : Z := 2 ^ 63 - 1.

Definition wrap32 (z : Z) : Z := (z + 2 ^ 31) mod 2 ^ 32 - 2 ^ 31.
Definition wrap64 (z : Z) : Z := (z + 2 ^ 63) mod 2 ^ 64 - 2 ^ 63.

Definition is_int (z : Z) : Prop := INT_MIN <= z <= INT_MAX.
Definition is_int64 (z : Z) : Prop := INT64_MIN <= z <= INT64_MAX.

(** ** [std::to_string] and [std::stoi] *)

Definition digit_char (d : Z) : ascii := ascii_of_N (48 + Z.to_N d).

Definition is_digit (c : ascii) : bool :=
  let n := Z.of_N (N_of_ascii c) in (48 <=? n) && (n <=? 57).

Definition digit_val (c : ascii) : Z := Z.of_N (N_of_ascii c) - 48.

(** The decimal digits of a non-negative number, most significant first,
    written in front of [acc]; [fuel] bounds the number of digits. *)
Fixpoint to_digits (fuel : nat) (n : Z) (acc : string) : string :=
  match fuel with
  | O => acc
  | S fuel' =>
      let acc' := String (digit_char (n mod 10)) acc in
      if n <? 10 then acc' else to_digits fuel' (n / 10) acc'
  end.

(** [std::to_string] of an integer: what [%d] prints. *)
Definition to_string (n : Z) : string :=
  if n <? 0 then String "-" (to_digits 20 (- n) "") else to_digits 20 n "".

Definition isspace (c : ascii) : bool :=
  let n := N_of_ascii c in ((9 <=? n) && (n <=? 13))%N || (n =? 32)%N.

Fixpoint skip_spaces (s : string) : string :=
  match s with
  | String c r => if isspace c then skip_spaces r else s
  | EmptyString => s
  end.

(** The value of the leading decimal digits of [s], continuing [acc]. *)
Fixpoint stoi_digits (s : string) (acc : Z) : Z :=
  match s with
  | String c r => if is_digit c then stoi_digits r (acc * 10 + digit_val c) else acc
  | EmptyString => acc
  end.

Definition starts_with_digit (s : string) : bool :=
  match s with
  | String c _ => is_digit c
  | EmptyString => false
  end.

(** An optional sign in front: whether it is a minus, and what follows. *)
Definition split_sign (s : string) : bool * string :=
  match s with
  | String "-" r => (true, r)
  | String "+" r => (false, r)
  | _ => (false, s)
  end.

(** [std::stoi(s, nullptr)]: leading white space, an optional sign, then
    decimal digits; what follows the digits is ignored. [None] stands for the
    exception the call throws: [std::invalid_argument] when no digit is
    found, [std::out_of_range] when the value does not fit an [int]. *)
Definition stoi (s : string) : option Z :=
  let '(neg, s2) := split_sign (skip_spaces s) in
  if starts_with_digit s2 then
    let v := stoi_digits s2 0 in
    let v := if neg then - v else v in
    if (INT_MIN <=? v) && (v <=? INT_MAX) then Some v else None
  else None.

(** ** The protobuf messages of [zp_meta.proto] *)

Record Node := { ip : string; port : Z }.

Record NodeStatus := { node : Node; status : Z }.

(** [ZPMeta::Nodes]: the repeated field [nodes]. *)
Definition Nodes := list NodeStatus.

Record Partitions := { id : Z; master : Node; slaves : list Node }.

Record Replicaset := { rs_id : Z; rs_node : list Node }.

(** [ZPMeta::MetaCmdResponse_Pull]: the partitions table. *)
Record MetaCmdResponse_Pull := { version : Z; info : list Partitions }.

(** [enum ZPNodeStatus { kNodeUp, kNodeDown }] *)
Definition kNodeUp : Z := 0.
Definition kNodeDown : Z := 1.

(** A message after [Clear()]. *)
Definition Node_default : Node := {| ip := ""; port := 0 |}.
Definition NodeStatus_default : NodeStatus := {| node := Node_default; status := 0 |}.

#[export] Instance Node_eq_dec : EqDecision Node.
Proof. solve_decision. Defined.
#[export] Instance NodeStatus_eq_dec : EqDecision NodeStatus.
Proof. solve_decision. Defined.
#[export] Instance Partitions_eq_dec : EqDecision Partitions.
Proof. solve_decision. Defined.

(** [push_back] of a vector, [add_...] of a repeated field. *)
Definition push_back {A} (v : list A) (x : A) : list A := app v [x].

(** ** [slash::Status] *)

Inductive Status :=
| OK
| NotFound (msg : string)
| Corruption (msg : string).

Definition ok (s : Status) : bool :=
  match s with OK => true | _ => false end.

Definition IsNotFound (s : Status) : bool :=
  match s with NotFound _ => true | _ => false end.

Definition IsCorruption (s : Status) : bool :=
  match s with Corruption _ => true | _ => false end.

(** ** [std::map] with string keys

    The entries are kept in the order of the keys, which is the order an
    iterator visits them in; [std::string] compares byte by byte. *)
Module StdMap.
Section WithValue.
Context {V : Type}.

Definition t := list (string * V).

Fixpoint find (k : string) (m : t) : option V :=
  match m with
  | [] => None
  | (k', v) :: m' => if String.eqb k k' then Some v else find k m'
  end.

(** [m[k] = v]: the entry is overwritten, or created in its place. *)
Fixpoint assign (k : string) (v : V) (m : t) : t :=
  match m with
  | [] => [(k, v)]
  | (k', v') :: m' =>
      if String.eqb k k' then (k, v) :: m'
      else if String.ltb k k' then (k, v) :: (k', v') :: m'
      else (k', v') :: assign k v m'
  end.

Fixpoint erase (k : string) (m : t) : t :=
  match m with
  | [] => []
  | (k', v') :: m' => if String.eqb k k' then m' else (k', v') :: erase k m'
  end.

Definition keys (m : t) : list string := map fst m.
End WithValue.
Arguments t : clear implicits.
End StdMap.

(** ** The floyd store

    [floyd::Floyd] is the replicated key-value store; only its interface is
    visible from the server. The values it keeps are the strings the server
    writes: the decimal string under [PN], serialized protobuf messages under
    the other keys. A serialized message is kept as the message itself, so
    that [ParseFromString] gives back what [SerializeToString] was given and
    fails on every other string. *)
Inductive Value :=
| Str (s : string)
| SerializedNodes (m : Nodes)
| SerializedReplicaset (m : Replicaset)
| SerializedPull (m : MetaCmdResponse_Pull).

Definition Nodes_ParseFromString (v : Value) : option Nodes :=
  match v with SerializedNodes m => Some m | _ => None end.

Definition Pull_ParseFromString (v : Value) : option MetaCmdResponse_Pull :=
  match v with SerializedPull m => Some m | _ => None end.

(** [value == ""] *)
Definition is_empty_string (v : Value) : bool :=
  match v with Str "" => true | _ => false end.

(** Modelled from the spec: the reserved keys [ND], [MT], [PN] and
    [PART:<id>]; the macros [ZP_META_KEY_ND], [ZP_META_KEY_MT],
    [ZP_META_KEY_PN] and [ZP_META_KEY_PREFIX] are defined in a header that is
    not part of the sources. *)
Definition ZP_META_KEY_ND : string := "ND".
Definition ZP_META_KEY_MT : string := "MT".
Definition ZP_META_KEY_PN : string := "PN".
Definition ZP_META_KEY_PREFIX : string := "PART:".

Inductive floyd_Status := floyd_Ok | floyd_NotFound | floyd_Error.

(** One call of [Floyd::Write]: the key, the value, and whether it was
    committed. *)
Record WriteCall := { w_key : string; w_value : Value; w_committed : bool }.

(** The store as the server sees it. [script] lists how the coming calls
    fare, [true] for a call that goes through and [false] for one that fails;
    when it is used up every call goes through. [journal] records the calls of
    [Write], the latest first. *)
Record Floyd := {
  kv : gmap string Value;
  script : list bool;
  journal : list WriteCall
}.

(** The outcome of the next call, and the store with the script after it. *)
Definition next_outcome (f : Floyd) : bool * Floyd :=
  (hd true (script f), {| kv := kv f; script := tl (script f); journal := journal f |}).

(** [Floyd::Write]: on success the value is stored; a failed write leaves the
    store as it was. *)
Definition Floyd_Write (key : string) (value : Value) (f : Floyd) : floyd_Status * Floyd :=
  let '(b, f) := next_outcome f in
  let call := {| w_key := key; w_value := value; w_committed := b |} in
  if b then
    (floyd_Ok, {| kv := <[key := value]> (kv f); script := script f; journal := call :: journal f |})
  else
    (floyd_Error, {| kv := kv f; script := script f; journal := call :: journal f |}).

(** [Floyd::DirtyRead]: [NotFound] for a key that was never written. *)
Definition Floyd_DirtyRead (key : string) (f : Floyd) : floyd_Status * Value * Floyd :=
  let '(b, f) := next_outcome f in
  if b then
    match kv f !! key with
    | Some v => (floyd_Ok, v, f)
    | None => (floyd_NotFound, Str "", f)
    end
  else (floyd_Error, Str "", f).

(** [Floyd::Read]. Modelled from the spec: on a fresh cluster the cached
    version is loaded from an empty read of [MT], the case [InitVersion]
    tests with [value == ""]; a key that was never written reads as the empty
    string. *)
Definition Floyd_Read (key : string) (f : Floyd) : floyd_Status * Value * Floyd :=
  let '(b, f) := next_outcome f in
  if b then
    match kv f !! key with
    | Some v => (floyd_Ok, v, f)
    | None => (floyd_Ok, Str "", f)
    end
  else (floyd_Error, Str "", f).

(** ** The server *)

Record timeval := { tv_sec : Z; tv_usec : Z }.

(** [enum ZPMetaUpdateOP] *)
Inductive ZPMetaUpdateOP := kOpAdd | kOpRemove.

(** The members of [ZPMetaServer] the topology operations use.
    [update_thread_] is the queue of [ZPMetaUpdateThread]: the tasks
    [ScheduleUpdate] was called with, the latest first. *)
Record ZPMetaServer := {
  floyd_ : Floyd;
  version_ : Z;
  node_alive_ : StdMap.t timeval;
  update_thread_ : list (string * ZPMetaUpdateOP)
}.

Definition with_floyd (f : Floyd) (st : ZPMetaServer) : ZPMetaServer :=
  {| floyd_ := f; version_ := version_ st;
     node_alive_ := node_alive_ st; update_thread_ := update_thread_ st |}.

Definition with_version (v : Z) (st : ZPMetaServer) : ZPMetaServer :=
  {| floyd_ := floyd_ st; version_ := v;
     node_alive_ := node_alive_ st; update_thread_ := update_thread_ st |}.

Definition with_node_alive (m : StdMap.t timeval) (st : ZPMetaServer) : ZPMetaServer :=
  {| floyd_ := floyd_ st; version_ := version_ st;
     node_alive_ := m; update_thread_ := update_thread_ st |}.

Definition ScheduleUpdate (ip_port : string) (op : ZPMetaUpdateOP) (st : ZPMetaServer) : ZPMetaServer :=
  {| floyd_ := floyd_ st; version_ := version_ st;
     node_alive_ := node_alive_ st; update_thread_ := (ip_port, op) :: update_thread_ st |}.

(** The server the constructor builds, over a given store. *)
Definition new_ZPMetaServer (f : Floyd) : ZPMetaServer :=
  {| floyd_ := f; version_ := -1; node_alive_ := []; update_thread_ := [] |}.

(** A store nothing was written to, whose calls all go through. *)
Definition empty_Floyd : Floyd := {| kv := ∅; script := []; journal := [] |}.

(** The functions of the server run in the state monad over
    [ZPMetaServer]. *)
Definition M (A : Type) : Type := ZPMetaServer -> A * ZPMetaServer.

Definition ret {A} (a : A) : M A := fun st => (a, st).

Definition bind {A B} (c : M A) (k : A -> M B) : M B :=
  fun st => let '(a, st') := c st in k a st'.

Notation "x <- c ;; k" := (bind c (fun x => k))
  (at level 100, c at next level, right associativity).

Definition get_version : M Z := fun st => (version_ st, st).
Definition set_version (v : Z) : M unit := fun st => (tt, with_version v st).

Definition floyd_Write (key : string) (value : Value) : M floyd_Status :=
  fun st => let '(fs, f) := Floyd_Write key value (floyd_ st) in (fs, with_floyd f st).

Definition floyd_DirtyRead (key : string) : M (floyd_Status * Value) :=
  fun st => let '(fs, v, f) := Floyd_DirtyRead key (floyd_ st) in ((fs, v), with_floyd f st).

Definition floyd_Read (key : string) : M (floyd_Status * Value) :=
  fun st => let '(fs, v, f) := Floyd_Read key (floyd_ st) in ((fs, v), with_floyd f st).

Definition floyd_ok (fs : floyd_Status) : bool :=
  match fs with floyd_Ok => true | _ => false end.

Definition floyd_IsNotFound (fs : floyd_Status) : bool :=
  match fs with floyd_NotFound => true | _ => false end.

(** [InitVersion]: the read is tried again until it goes through. Every
    failed read uses up one entry of the script, so the loop is a recursion
    on the script of the store, passed as [script0]; a read does not fail on
    the empty script, and the branch for it is never taken
    ([InitVersion_reads_once]). For a value that does not parse the source
    assigns the version the failed [ParseFromString] has left in the message,
    which protobuf determines and these sources do not; the version of the
    cleared message, 0, stands in its place, and no property below is taken
    from that branch. *)
Fixpoint InitVersion_loop (script0 : list bool) (st : ZPMetaServer) : Status * ZPMetaServer :=
  let '((fs, value), st') := floyd_Read ZP_META_KEY_MT st in
  if floyd_ok fs then
    if is_empty_string value then (OK, with_version (-1) st')
    else
      match Pull_ParseFromString value with
      | Some ms_info => (OK, with_version (version ms_info) st')
      | None => (OK, with_version 0 st')
      end
  else
    match script0 with
    | [] => (OK, st')
    | _ :: rest => InitVersion_loop rest st'
    end.

Definition InitVersion : M Status :=
  fun st => InitVersion_loop (script (floyd_ st)) st.

(** [Set]: a write whose failure becomes [Corruption]. *)
Definition Set' (key : string) (value : Value) : M Status :=
  fs <- floyd_Write key value ;;
  if floyd_ok fs then ret OK else ret (Corruption "floyd set error!").

Definition Get (key : string) : M (Status * Value) :=
  r <- floyd_DirtyRead key ;;
  let '(fs, value) := r in
  if floyd_ok fs then ret (OK, value)
  else if floyd_IsNotFound fs then ret (NotFound "not found from floyd", value)
  else ret (Corruption "floyd get error!", value).

(** ** Reading and writing the tables *)

Definition GetAllNode : M (Status * Nodes) :=
  r <- floyd_DirtyRead ZP_META_KEY_ND ;;
  let '(fs, value) := r in
  if floyd_ok fs then
    match Nodes_ParseFromString value with
    | None => ret (Corruption "Parse failed", [])
    | Some nodes => ret (OK, nodes)
    end
  else if floyd_IsNotFound fs then ret (NotFound "not found from floyd", [])
  else ret (Corruption "floyd get error!", []).

Definition GetAllAliveNode (nodes : Nodes) : list NodeStatus :=
  filter (fun node_status => status node_status = 0) nodes.

Definition same_endpoint (ip0 : string) (port0 : Z) (n : Node) : bool :=
  String.eqb ip0 (ip n) && (port0 =? port n).

Definition FindNode (nodes : Nodes) (ip0 : string) (port0 : Z) : bool :=
  existsb (fun node_status => same_endpoint ip0 port0 (node node_status)) nodes.

Definition GetMSInfo : M (Status * MetaCmdResponse_Pull) :=
  r <- floyd_DirtyRead ZP_META_KEY_MT ;;
  let '(fs, value) := r in
  let cleared := {| version := 0; info := [] |} in
  if floyd_ok fs then
    match Pull_ParseFromString value with
    | None => ret (Corruption "Parse failed", cleared)
    | Some ms_info => ret (OK, ms_info)
    end
  else ret (Corruption "Read full_meta failed!", cleared).

Definition PartitionId2Key (id0 : Z) : string :=
  ZP_META_KEY_PREFIX ++ to_string id0.

Definition SetReplicaset (partition_id : Z) (replicaset : Replicaset) : M Status :=
  Set' (PartitionId2Key partition_id) (SerializedReplicaset replicaset).

Definition SetMSInfo (cmd : MetaCmdResponse_Pull) : M Status :=
  Set' ZP_META_KEY_MT (SerializedPull cmd).

Definition set_table_version (v : Z) (ms_info : MetaCmdResponse_Pull) : MetaCmdResponse_Pull :=
  {| version := v; info := info ms_info |}.

(** ** OnNode *)

(** The index of the first slave that is the endpoint [ip0], [port0]. *)
Fixpoint find_slave (ip0 : string) (port0 : Z) (slaves0 : list Node) : option nat :=
  match slaves0 with
  | [] => None
  | s :: rest =>
      if String.eqb (ip s) ip0 && (port s =? port0) then Some 0%nat
      else S <$> find_slave ip0 port0 rest
  end.

Definition is_orphaned (p : Partitions) : bool :=
  String.eqb (ip (master p)) "" && (port (master p) =? 0).

(** The body of the loop over the partitions: a partition without master
    that has the endpoint among its slaves takes it as master; the last slave
    is copied into its slot and the last slot is removed. The flag tells
    whether the partition was rewritten. *)
Definition OnNode_partition (ip0 : string) (port0 : Z) (p : Partitions) : Partitions * bool :=
  if is_orphaned p then
    match find_slave ip0 port0 (slaves p) with
    | Some j =>
        let slaves_size := length (slaves p) in
        let new_master := default Node_default (slaves p !! j) in
        let last_slave := default Node_default (slaves p !! (slaves_size - 1)%nat) in
        ({| id := id p; master := new_master;
            slaves := removelast (<[j := last_slave]> (slaves p)) |}, true)
    | None => (p, false)
    end
  else (p, false).

Fixpoint OnNode_partitions (ip0 : string) (port0 : Z) (ps : list Partitions) : list Partitions * bool :=
  match ps with
  | [] => ([], false)
  | p :: rest =>
      let '(p', changed) := OnNode_partition ip0 port0 p in
      let '(rest', should_rewrite) := OnNode_partitions ip0 port0 rest in
      (p' :: rest', changed || should_rewrite)
  end.

Definition OnNode (ip0 : string) (port0 : Z) : M Status :=
  r <- GetMSInfo ;;
  let '(fs, ms_info) := r in
  if negb (ok fs) then ret fs
  else
    let '(info', should_rewrite) := OnNode_partitions ip0 port0 (info ms_info) in
    if negb should_rewrite then ret OK
    else
      v <- get_version ;;
      let ms_info := {| version := wrap64 (v + 1); info := info' |} in
      fs <- SetMSInfo ms_info ;;
      if ok fs then
        _ <- set_version (wrap64 (v + 1)) ;; ret fs
      else ret fs.

(** ** SetNodeStatus and AddNode *)

(** The nodes with the status of the first entry for [ip0], [port0] set;
    [None] when there is no such entry, [Some (nodes, false)] when the entry
    already has that status. *)
Fixpoint set_first_status (nodes : Nodes) (ip0 : string) (port0 : Z) (status0 : Z)
  : option (Nodes * bool) :=
  match nodes with
  | [] => None
  | node_status :: rest =>
      if same_endpoint ip0 port0 (node node_status) then
        if status node_status =? status0 then Some (nodes, false)
        else Some ({| node := node node_status; status := status0 |} :: rest, true)
      else
        match set_first_status rest ip0 port0 status0 with
        | Some (rest', changed) => Some (node_status :: rest', changed)
        | None => None
        end
  end.

Definition SetNodeStatus (nodes : Nodes) (ip0 : string) (port0 : Z) (status0 : Z) : M Status :=
  match set_first_status nodes ip0 port0 status0 with
  | None => ret (NotFound "not found this node")
  | Some (_, false) => ret OK
  | Some (nodes', true) =>
      fs <- floyd_Write ZP_META_KEY_ND (SerializedNodes nodes') ;;
      if floyd_ok fs then
        if status0 =? kNodeUp then
          s <- OnNode ip0 port0 ;;
          if negb (ok s) then ret (Corruption "OnNode error!") else ret OK
        else ret OK
      else ret (Corruption "floyd set error!")
  end.

Definition AddNode (ip0 : string) (port0 : Z) : M Status :=
  r <- GetAllNode ;;
  let '(s, nodes) := r in
  if ok s && FindNode nodes ip0 port0 then SetNodeStatus nodes ip0 port0 kNodeUp
  else
    let should_add := ok s in
    if IsNotFound s || should_add then
      let node_status := {| node := {| ip := ip0; port := port0 |}; status := kNodeUp |} in
      let nodes := push_back nodes node_status in
      fs <- floyd_Write ZP_META_KEY_ND (SerializedNodes nodes) ;;
      if floyd_ok fs then ret OK else ret (Corruption "floyd set error!")
    else ret s.

(** ** OffNode *)

Definition IsAlive (alive_nodes : list NodeStatus) (ip0 : string) (port0 : Z) : bool :=
  existsb (fun n => String.eqb (ip (node n)) ip0 && (port (node n) =? port0)) alive_nodes.

(** The index the loop over the slaves stops at: the first slave that is
    alive. *)
Fixpoint first_alive_slave (alive_nodes : list NodeStatus) (slaves0 : list Node) : option nat :=
  match slaves0 with
  | [] => None
  | s :: rest =>
      if IsAlive alive_nodes (ip s) (port s) then Some 0%nat
      else S <$> first_alive_slave alive_nodes rest
  end.

(** The body of the loop over the partitions: a partition whose master is
    the endpoint swaps it with its first alive slave, or, without one, appends
    it to the slaves and is left without master. *)
Definition OffNode_partition (alive_nodes : list NodeStatus) (ip0 : string) (port0 : Z)
    (p : Partitions) : Partitions * bool :=
  if negb (String.eqb ip0 (ip (master p))) || negb (port0 =? port (master p)) then (p, false)
  else
    let tmp := master p in
    match first_alive_slave alive_nodes (slaves p) with
    | Some j =>
        ({| id := id p; master := default Node_default (slaves p !! j);
            slaves := <[j := tmp]> (slaves p) |}, true)
    | None =>
        ({| id := id p; master := {| ip := ""; port := 0 |};
            slaves := push_back (slaves p) tmp |}, true)
    end.

Fixpoint OffNode_partitions (alive_nodes : list NodeStatus) (ip0 : string) (port0 : Z)
    (ps : list Partitions) : list Partitions * bool :=
  match ps with
  | [] => ([], false)
  | p :: rest =>
      let '(p', changed) := OffNode_partition alive_nodes ip0 port0 p in
      let '(rest', should_rewrite) := OffNode_partitions alive_nodes ip0 port0 rest in
      (p' :: rest', changed || should_rewrite)
  end.

Definition OffNode (ip0 : string) (port0 : Z) : M Status :=
  r <- GetAllNode ;;
  let '(s, nodes) := r in
  if negb (ok s) then ret s
  else
    let alive_nodes := GetAllAliveNode nodes in
    s <- SetNodeStatus nodes ip0 port0 kNodeDown ;;
    if negb (ok s) then ret s
    else
      r <- GetMSInfo ;;
      let '(s, ms_info) := r in
      if negb (ok s) then ret s
      else
        let '(info', should_rewrite) := OffNode_partitions alive_nodes ip0 port0 (info ms_info) in
        if negb should_rewrite then ret OK
        else
          v <- get_version ;;
          let ms_info := {| version := wrap64 (v + 1); info := info' |} in
          s <- SetMSInfo ms_info ;;
          if ok s then
            _ <- set_version (wrap64 (v + 1)) ;; ret s
          else ret s.

(** ** Reorganize *)

(** The first loop: a node joins the bucket of its ip, which is created
    when the ip is met for the first time. *)
Definition Reorganize_bucket (m : StdMap.t (list NodeStatus)) (n : NodeStatus)
  : StdMap.t (list NodeStatus) :=
  match StdMap.find (ip (node n)) m with
  | Some bucket => StdMap.assign (ip (node n)) (push_back bucket n) m
  | None => StdMap.assign (ip (node n)) [n] m
  end.

(** One run of the [for] loop over the buckets: an empty bucket is counted,
    the others give their last node. *)
Fixpoint Reorganize_pass (m : StdMap.t (list NodeStatus)) (empty_count : Z)
    (alive_nodes : list NodeStatus) : StdMap.t (list NodeStatus) * Z * list NodeStatus :=
  match m with
  | [] => ([], empty_count, alive_nodes)
  | (k, bucket) :: rest =>
      match last bucket with
      | None =>
          let '(rest', empty_count', alive_nodes') :=
            Reorganize_pass rest (wrap32 (empty_count + 1)) alive_nodes in
          ((k, bucket) :: rest', empty_count', alive_nodes')
      | Some back =>
          let '(rest', empty_count', alive_nodes') :=
            Reorganize_pass rest empty_count (push_back alive_nodes back) in
          ((k, removelast bucket) :: rest', empty_count', alive_nodes')
      end
  end.

(** The [while (true)] loop; [None] when it has not stopped after [fuel]
    rounds. *)
Fixpoint Reorganize_loop (fuel : nat) (m : StdMap.t (list NodeStatus)) (msize empty_count : Z)
    (alive_nodes : list NodeStatus) : option (list NodeStatus) :=
  if empty_count =? msize then Some alive_nodes
  else
    match fuel with
    | O => None
    | S fuel' =>
        let '(m', empty_count', alive_nodes') := Reorganize_pass m empty_count alive_nodes in
        Reorganize_loop fuel' m' msize empty_count' alive_nodes'
    end.

Definition Reorganize (fuel : nat) (t_alive_nodes alive_nodes : list NodeStatus)
  : option (list NodeStatus) :=
  let m := fold_left Reorganize_bucket t_alive_nodes [] in
  let msize := wrap32 (Z.of_nat (length m)) in
  Reorganize_loop fuel m msize 0 alive_nodes.

(** ** Distribute *)

(** What a call that may not return normally does: it returns a value and
    leaves a state, or throws, or is still running when the fuel of its loop
    is used up. *)
Inductive Outcome (A : Type) :=
| Returns (a : A) (st : ZPMetaServer)
| Throws
| Unfinished.
Arguments Returns {A} a st.
Arguments Throws {A}.
Arguments Unfinished {A}.

(** The bytes of a serialized message are not modelled; [std::stoi] of one
    counts as a failed conversion. *)
Definition PartitionNums (st : ZPMetaServer) : Outcome Z :=
  let '((fs, value), st) := floyd_DirtyRead ZP_META_KEY_PN st in
  if floyd_ok fs then
    match value with
    | Str s => match stoi s with Some n => Returns n st | None => Throws end
    | _ => Throws
    end
  else Returns 0 st.

(** [alive_nodes[k]]; outside the vector, where C++ leaves the result
    undefined, a cleared message. *)
Definition vector_at (alive_nodes : list NodeStatus) (k : Z) : NodeStatus :=
  nth (Z.to_nat k) alive_nodes NodeStatus_default.

(** The loop over the partitions, [count] iterations from [i] on. *)
Fixpoint Distribute_partitions (count : nat) (i : Z) (alive_nodes : list NodeStatus)
    (an_num : Z) (ms_info : MetaCmdResponse_Pull) : M (Status * MetaCmdResponse_Pull) :=
  match count with
  | O => ret (OK, ms_info)
  | S count' =>
      let n0 := node (vector_at alive_nodes (Z.rem i an_num)) in
      let n1 := node (vector_at alive_nodes (Z.rem (wrap32 (i + 1)) an_num)) in
      let n2 := node (vector_at alive_nodes (Z.rem (wrap32 (i + 2)) an_num)) in
      let replicaset := {| rs_id := i; rs_node := [n0; n1; n2] |} in
      let p := {| id := i; master := n0; slaves := [n1; n2] |} in
      let ms_info := {| version := version ms_info; info := push_back (info ms_info) p |} in
      s <- SetReplicaset i replicaset ;;
      if negb (ok s) then ret (s, ms_info)
      else Distribute_partitions count' (i + 1) alive_nodes an_num ms_info
  end.

(** What follows [Reorganize]. *)
Definition Distribute_place (num : Z) (alive_nodes : list NodeStatus) : M Status :=
  let an_num := wrap32 (Z.of_nat (length alive_nodes)) in
  let ms_info := {| version := 0; info := [] |} in
  r <- Distribute_partitions (Z.to_nat num) 0 alive_nodes an_num ms_info ;;
  let '(s, ms_info) := r in
  if negb (ok s) then ret s
  else
    v <- get_version ;;
    let ms_info := set_table_version (wrap64 (v + 1)) ms_info in
    s <- SetMSInfo ms_info ;;
    _ <- (if ok s then set_version (wrap64 (v + 1)) else ret tt) ;;
    fs <- floyd_Write ZP_META_KEY_PN (Str (to_string num)) ;;
    if floyd_ok fs then ret OK else ret (Corruption "floyd set error!").

(** From the read of the nodes on. *)
Definition Distribute_nodes (fuel : nat) (num : Z) (st : ZPMetaServer) : Outcome Status :=
  let '((s, nodes), st) := GetAllNode st in
  if negb (ok s) then Returns s st
  else
    let t_alive_nodes := GetAllAliveNode nodes in
    match t_alive_nodes with
    | [] => Returns (Corruption "no nodes") st
    | _ =>
        match Reorganize fuel t_alive_nodes [] with
        | None => Unfinished
        | Some alive_nodes =>
            let '(s, st) := Distribute_place num alive_nodes st in
            Returns s st
        end
    end.

Definition Distribute (fuel : nat) (num : Z) (st : ZPMetaServer) : Outcome Status :=
  match PartitionNums st with
  | Throws => Throws
  | Unfinished => Unfinished
  | Returns n st =>
      if negb (n =? 0) then Returns (Corruption "Already Distribute") st
      else Distribute_nodes fuel num st
  end.

(** ** The liveness map *)

(** Modelled from the spec: an endpoint of the liveness map is the string
    [ip:port]. [slash::IpPortString] and [slash::ParseIpPortString] belong to
    a library that is not part of the sources; the port is read as the
    decimal number [IpPortString] prints. *)
Definition IpPortString (ip0 : string) (port0 : Z) : string :=
  ip0 ++ ":" ++ to_string port0.

Fixpoint split_at_colon (s : string) : option (string * string) :=
  match s with
  | EmptyString => None
  | String c r =>
      if Ascii.eqb c ":" then Some ("", r)
      else
        match split_at_colon r with
        | Some (a, b) => Some (String c a, b)
        | None => None
        end
  end.

Definition ParseIpPortString (ip_port : string) : option (string * Z) :=
  match split_at_colon ip_port with
  | Some (ip0, port_str) =>
      match stoi port_str with
      | Some port0 => if String.eqb (to_string port0) port_str then Some (ip0, port0) else None
      | None => None
      end
  | None => None
  end.

Definition AddNodeAlive (ip_port : string) (now : timeval) : M Status :=
  fun st =>
    let st := with_node_alive (StdMap.assign ip_port now (node_alive_ st)) st in
    match ParseIpPortString ip_port with
    | None => (Corruption "parse ip_port error", st)
    | Some (ip0, port0) =>
        let '(s, st) := AddNode ip0 port0 st in
        if negb (ok s) then (s, st)
        else (OK, ScheduleUpdate ip_port kOpAdd st)
    end.

(** [kNodeMetaTimeoutM] is a constant of a header that is not part of the
    sources; it is an argument here. *)
Definition CheckNodeAlive (kNodeMetaTimeoutM : Z) (now : timeval) : M unit :=
  fun st =>
    let need_remove :=
      StdMap.keys (filter (fun e => bool_decide (tv_sec now - tv_sec (snd e) > kNodeMetaTimeoutM))
                          (node_alive_ st)) in
    (tt, fold_left (fun st rit =>
                      ScheduleUpdate rit kOpRemove
                        (with_node_alive (StdMap.erase rit (node_alive_ st)) st))
                   need_remove st).

Definition UpdateNodeAlive (ip_port : string) (now : timeval) : M bool :=
  fun st =>
    match StdMap.find ip_port (node_alive_ st) with
    | None => (false, st)
    | Some _ => (true, with_node_alive (StdMap.assign ip_port now (node_alive_ st)) st)
    end.

Definition RestoreNodeAlive (alive_nodes : list NodeStatus) (now : timeval) : M unit :=
  fun st =>
    (tt, with_node_alive
           (fold_left (fun m n => StdMap.assign (IpPortString (ip (node n)) (port (node n))) now m)
                      alive_nodes [])
           st).

Definition BecomeLeader (now : timeval) : M Status :=
  r <- GetAllNode ;;
  let '(s, nodes) := r in
  if negb (ok s) then ret s
  else
    let alive_nodes := GetAllAliveNode nodes in
    _ <- RestoreNodeAlive alive_nodes now ;;
    _ <- InitVersion ;;
    ret s.

(** ** The leader *)

(** The fields of [ZPOptions] the leader check reads. *)
Record ZPOptions := { local_ip : string; local_port : Z }.

(** [pink::PbCli], the connection to the leader: the address it was asked
    to connect to. The timeouts set on it are not modelled. *)
Record PbCli := { peer_ip : string; peer_port : Z }.

(** The members of [ZPMetaServer] that [leader_mutex_] guards, with the
    options and the flag [should_exit_]. [leader_cli_] is [None] for the
    null pointer. *)
Record Leader := {
  options_ : ZPOptions;
  should_exit_ : bool;
  leader_first_time_ : bool;
  leader_cli_ : option PbCli;
  leader_ip_ : string;
  leader_cmd_port_ : Z
}.

(** What the constructor sets. *)
Definition new_Leader (options : ZPOptions) : Leader :=
  {| options_ := options; should_exit_ := false; leader_first_time_ := true;
     leader_cli_ := None; leader_ip_ := ""; leader_cmd_port_ := 0 |}.

(** [CleanLeader]: the connection, if there is one, is closed and deleted,
    and the cached address is cleared. *)
Definition CleanLeader (l : Leader) : Leader :=
  {| options_ := options_ l; should_exit_ := should_exit_ l;
     leader_first_time_ := leader_first_time_ l;
     leader_cli_ := None; leader_ip_ := ""; leader_cmd_port_ := 0 |}.

(** [GetLeader]: [answer] is what [floyd_->GetLeader] gives, [None] when it
    returns false, else the ip and the floyd port of the leader.
    [kMetaPortShiftFY] is a constant of a header that is not part of the
    sources; it is an argument here, as [kMetaPortShiftCmd] is below. *)
Definition GetLeader (kMetaPortShiftFY : Z) (answer : option (string * Z))
  : option (string * Z) :=
  match answer with
  | Some (ip0, fy_port) => Some (ip0, wrap32 (fy_port - kMetaPortShiftFY))
  | None => None
  end.

(** The loop that waits for a leader when [should_exit_] is not set:
    [answers] lists what the coming calls of [floyd_->GetLeader] give; the
    result is [None] when the loop is still waiting after them. *)
Fixpoint wait_leader (kMetaPortShiftFY : Z) (answers : list (option (string * Z)))
  : option (string * Z) :=
  match answers with
  | [] => None
  | answer :: rest =>
      match GetLeader kMetaPortShiftFY answer with
      | Some leader => Some leader
      | None => wait_leader kMetaPortShiftFY rest
      end
  end.

(** [IsLeader]. [should_exit_] is set by [Stop] in another thread; it is
    read as it is when the call starts. [connect_ok] tells whether [Connect]
    succeeds and [now] is the time [BecomeLeader] reads. The result is [None]
    when the call is still waiting for a leader. *)
Definition IsLeader (kMetaPortShiftFY kMetaPortShiftCmd : Z)
    (answers : list (option (string * Z))) (connect_ok : bool) (now : timeval)
    (l : Leader) (st : ZPMetaServer) : option (bool * Leader * ZPMetaServer) :=
  if should_exit_ l then
    Some (false,
          {| options_ := options_ l; should_exit_ := should_exit_ l;
             leader_first_time_ := leader_first_time_ l;
             leader_cli_ := None; leader_ip_ := leader_ip_ l;
             leader_cmd_port_ := leader_cmd_port_ l |},
          st)
  else
    match wait_leader kMetaPortShiftFY answers with
    | None => None
    | Some (leader_ip, leader_port) =>
        let leader_cmd_port := wrap32 (leader_port + kMetaPortShiftCmd) in
        if String.eqb leader_ip (leader_ip_ l) && (leader_cmd_port =? leader_cmd_port_ l) then
          Some (false, l, st)
        else if String.eqb leader_ip (local_ip (options_ l)) &&
                (leader_port =? local_port (options_ l)) then
          if leader_first_time_ l then
            let l := CleanLeader
                       {| options_ := options_ l; should_exit_ := should_exit_ l;
                          leader_first_time_ := false;
                          leader_cli_ := leader_cli_ l; leader_ip_ := leader_ip_ l;
                          leader_cmd_port_ := leader_cmd_port_ l |} in
            let '(_, st) := BecomeLeader now st in
            Some (true, l, st)
          else Some (true, l, st)
        else
          let l := CleanLeader l in
          let l := {| options_ := options_ l; should_exit_ := should_exit_ l;
                      leader_first_time_ := true;
                      leader_cli_ := Some {| peer_ip := leader_ip; peer_port := leader_cmd_port |};
                      leader_ip_ := leader_ip; leader_cmd_port_ := leader_cmd_port |} in
          if connect_ok then Some (false, l, st)
          else Some (false, CleanLeader l, st)
    end.

(** [RedirectToLeader]. [send] and [recv] are what [Send] and [Recv] give:
    [None] for success, else the text of the failed [pink::Status]. The
    response is not modelled. *)
Definition RedirectToLeader (send recv : option string) (l : Leader) : Status * Leader :=
  match leader_cli_ l with
  | None => (Corruption "no leader connection", l)
  | Some _ =>
      match send with
      | Some msg => (Corruption msg, CleanLeader l)
      | None =>
          match recv with
          | Some msg => (Corruption msg, CleanLeader l)
          | None => (OK, l)
          end
      end
  end.

(** ** The query counters of a worker thread *)

Definition wrapu64 (z : Z) : Z := z mod 2 ^ 64.

(** The counters of [ZPDataWorkerThread], all [uint64_t]. *)
Record ZPDataWorkerThread := {
  thread_querynum_ : Z;
  last_thread_querynum_ : Z;
  last_time_us_ : Z;
  last_sec_thread_querynum_ : Z
}.

Definition thread_querynum (t : ZPDataWorkerThread) : Z := thread_querynum_ t.

Definition last_sec_thread_querynum (t : ZPDataWorkerThread) : Z :=
  last_sec_thread_querynum_ t.

Definition PlusThreadQuerynum (t : ZPDataWorkerThread) : ZPDataWorkerThread :=
  {| thread_querynum_ := wrapu64 (thread_querynum_ t + 1);
     last_thread_querynum_ := last_thread_querynum_ t;
     last_time_us_ := last_time_us_ t;
     last_sec_thread_querynum_ := last_sec_thread_querynum_ t |}.

(** [ResetLastSecQuerynum]; [cur_time_us] is what [slash::NowMicros] gives.
    The result is [None] when the divisor is zero, where C++ leaves the
    division undefined. *)
Definition ResetLastSecQuerynum (cur_time_us : Z) (t : ZPDataWorkerThread)
  : option ZPDataWorkerThread :=
  let divisor := wrapu64 (wrapu64 (cur_time_us - last_time_us_ t) + 1) in
  if divisor =? 0 then None
  else
    Some {| thread_querynum_ := thread_querynum_ t;
            last_thread_querynum_ := thread_querynum_ t;
            last_time_us_ := cur_time_us;
            last_sec_thread_querynum_ :=
              wrapu64 (wrapu64 (thread_querynum_ t - last_thread_querynum_ t) * 1000000)
              / divisor |}.

(** * Vocabulary of the properties *)

(** The calls of [Write] made on the way from [st] to [st'], the latest
    first. *)
Definition writes_between (st st' : ZPMetaServer) (calls : list WriteCall) : Prop :=
  journal (floyd_ st') = app calls (journal (floyd_ st)).

Definition committed_MT (c : WriteCall) : Prop :=
  w_key c = ZP_META_KEY_MT /\ w_committed c = true.

(** What a run from [st] to [st'] does to the version: a committed write of
    [MT] carries the cached version plus one and moves the cache there, and
    without one the cache stays. *)
Definition advances_with_MT (st st' : ZPMetaServer) : Prop :=
  exists calls,
    writes_between st st' calls /\
    Forall (fun c => committed_MT c ->
              (exists m, w_value c = SerializedPull m /\ version m = version_ st + 1) /\
              version_ st' = version_ st + 1) calls /\
    (Forall (fun c => ~ committed_MT c) calls -> version_ st' = version_ st).

(** A run that leaves the version alone and writes no table. *)
Definition quiet (st st' : ZPMetaServer) : Prop :=
  version_ st' = version_ st /\
  exists calls, writes_between st st' calls /\
                Forall (fun c => w_key c <> ZP_META_KEY_MT) calls.

(** The endpoint is a slave of a partition without master. *)
Definition orphaned_slave (ip0 : string) (port0 : Z) (p : Partitions) : Prop :=
  is_orphaned p = true /\ {| ip := ip0; port := port0 |} ∈ slaves p.

(** The table under [MT] and the cached version are what they were, and no
    call of [Write] was made for [MT]. *)
Definition MT_untouched (st st' : ZPMetaServer) : Prop :=
  kv (floyd_ st') !! ZP_META_KEY_MT = kv (floyd_ st) !! ZP_META_KEY_MT /\
  quiet st st'.

(** The endpoint has an entry of status UP in the nodes table. *)
Definition UP (nodes : Nodes) (n : Node) : Prop :=
  {| node := n; status := kNodeUp |} ∈ nodes.

(** Slot [j] holds the first slave that is up. *)
Definition first_UP_slave (nodes : Nodes) (slaves0 : list Node) (j : nat) (s : Node) : Prop :=
  slaves0 !! j = Some s /\ UP nodes s /\
  forall k s', (k < j)%nat -> slaves0 !! k = Some s' -> ~ UP nodes s'.

(** Slot [j] is the first one that holds the endpoint. *)
Definition first_slot_of (e : Node) (slaves0 : list Node) (j : nat) : Prop :=
  slaves0 !! j = Some e /\ forall k, (k < j)%nat -> slaves0 !! k <> Some e.

(** The state after a committed write, when the script is used up. *)
Definition stored (key : string) (value : Value) (st : ZPMetaServer) : ZPMetaServer :=
  with_floyd {| kv := <[key := value]> (kv (floyd_ st));
                script := [];
                journal := {| w_key := key; w_value := value; w_committed := true |}
                             :: journal (floyd_ st) |} st.

(** The partition and the replica set the loop of [Distribute] builds for
    [i]. *)
Definition partition_at (alive_nodes : list NodeStatus) (an_num i : Z) : Partitions :=
  {| id := i;
     master := node (vector_at alive_nodes (Z.rem i an_num));
     slaves := [ node (vector_at alive_nodes (Z.rem (wrap32 (i + 1)) an_num));
                 node (vector_at alive_nodes (Z.rem (wrap32 (i + 2)) an_num)) ] |}.

Definition replicaset_at (alive_nodes : list NodeStatus) (an_num i : Z) : Replicaset :=
  {| rs_id := i;
     rs_node := [ node (vector_at alive_nodes (Z.rem i an_num));
                  node (vector_at alive_nodes (Z.rem (wrap32 (i + 1)) an_num));
                  node (vector_at alive_nodes (Z.rem (wrap32 (i + 2)) an_num)) ] |}.

(** The partitions of [count] iterations from [i] on. *)
Fixpoint Distribute_layout (count : nat) (i : Z) (alive_nodes : list NodeStatus) (an_num : Z)
  : list Partitions :=
  match count with
  | O => []
  | S count' =>
      partition_at alive_nodes an_num i :: Distribute_layout count' (i + 1) alive_nodes an_num
  end.

(** The state after their replica sets have been stored. *)
Fixpoint Distribute_stored (count : nat) (i : Z) (alive_nodes : list NodeStatus) (an_num : Z)
    (st : ZPMetaServer) : ZPMetaServer :=
  match count with
  | O => st
  | S count' =>
      Distribute_stored count' (i + 1) alive_nodes an_num
        (stored (PartitionId2Key i) (SerializedReplicaset (replicaset_at alive_nodes an_num i)) st)
  end.

(** The state a call of [Distribute] that meets no failure leaves: the
    replica sets, then the table with the next version, then the partition
    number. *)
Definition placed (num : Z) (alive_nodes : list NodeStatus) (st : ZPMetaServer) : ZPMetaServer :=
  let an_num := wrap32 (Z.of_nat (length alive_nodes)) in
  let next := wrap64 (version_ st + 1) in
  let table := {| version := next;
                  info := Distribute_layout (Z.to_nat num) 0 alive_nodes an_num |} in
  stored ZP_META_KEY_PN (Str (to_string num))
    (with_version next
       (stored ZP_META_KEY_MT (SerializedPull table)
          (Distribute_stored (Z.to_nat num) 0 alive_nodes an_num st))).

(** Calls of [Distribute] one after the other, each with its fuel and its
    number of partitions, and the statuses they return. *)
Fixpoint Distribute_calls (calls : list (nat * Z)) (st : ZPMetaServer) : Outcome (list Status) :=
  match calls with
  | [] => Returns [] st
  | (fuel, num) :: rest =>
      match Distribute fuel num st with
      | Returns s st' =>
          match Distribute_calls rest st' with
          | Returns ss st'' => Returns (s :: ss) st''
          | Throws => Throws
          | Unfinished => Unfinished
          end
      | Throws => Throws
      | Unfinished => Unfinished
      end
  end.

Definition up (n : Node) : NodeStatus := {| node := n; status := kNodeUp |}.

(** A partition has a master and two slaves, all different, among [hosts]. *)
Definition spread_over (hosts : list Node) (p : Partitions) : Prop :=
  exists s1 s2,
    slaves p = [s1; s2] /\ NoDup [master p; s1; s2] /\
    Forall (fun n => n ∈ hosts) [master p; s1; s2].

(** Every endpoint of the liveness map reads as an ip and a port that have
    an entry of status UP in the persisted nodes table. *)
Definition liveness_backed (st : ZPMetaServer) : Prop :=
  forall ip_port, ip_port ∈ StdMap.keys (node_alive_ st) ->
    exists ip0 port0 nodes,
      ParseIpPortString ip_port = Some (ip0, port0) /\
      kv (floyd_ st) !! ZP_META_KEY_ND = Some (SerializedNodes nodes) /\
      UP nodes {| ip := ip0; port := port0 |}.

(** The script after the failures at its head and the call that goes
    through. *)
Fixpoint after_failures (script0 : list bool) : list bool :=
  match script0 with
  | false :: rest => after_failures rest
  | _ => tl script0
  end.

(** The ip has no colon, so that the endpoint string splits where it was
    joined. *)
Fixpoint no_colon (s : string) : bool :=
  match s with
  | EmptyString => true
  | String c r => negb (Ascii.eqb c ":") && no_colon r
  end.

(** A node whose endpoint string reads back as its ip and port. *)
Definition well_formed_endpoint (ns : NodeStatus) : Prop :=
  no_colon (ip (node ns)) = true /\ is_int (port (node ns)).

(** * Scenarios *)

(** The state an operation leaves. *)
Definition after {A} (c : M A) (st : ZPMetaServer) : ZPMetaServer := snd (c st).

(** A server just started on a fresh cluster. *)
Definition fresh : ZPMetaServer := after InitVersion (new_ZPMetaServer empty_Floyd).

(** Three nodes on three hosts have joined. *)
Definition three_hosts : ZPMetaServer :=
  after (AddNode "10.0.0.3" 5000)
    (after (AddNode "10.0.0.2" 5000)
       (after (AddNode "10.0.0.1" 5000) fresh)).

(** The state a call of [Distribute] returns with; the state it started from
    when it does not return. *)
Definition after_Distribute (fuel : nat) (num : Z) (st : ZPMetaServer) : ZPMetaServer :=
  match Distribute fuel num st with
  | Returns _ st' => st'
  | _ => st
  end.

(** Two partitions over the three hosts: the third host is master of
    none. *)
Definition two_partitions : ZPMetaServer := after_Distribute 3 2 three_hosts.

Definition host1 : Node := {| ip := "10.0.0.1"; port := 5000 |}.
Definition host2 : Node := {| ip := "10.0.0.2"; port := 5000 |}.
Definition host3 : Node := {| ip := "10.0.0.3"; port := 5000 |}.

Definition all_up : Nodes :=
  [ {| node := host1; status := kNodeUp |}; {| node := host2; status := kNodeUp |};
    {| node := host3; status := kNodeUp |} ].

(** Four partitions over the three hosts, as [Distribute] lays them out. *)
Definition four_partitions : ZPMetaServer := after_Distribute 3 4 three_hosts.

Definition four_partitions_table : MetaCmdResponse_Pull :=
  {| version := 0;
     info := [ {| id := 0; master := host1; slaves := [host2; host3] |};
               {| id := 1; master := host2; slaves := [host3; host1] |};
               {| id := 2; master := host3; slaves := [host1; host2] |};
               {| id := 3; master := host1; slaves := [host2; host3] |} ] |}.

(** A cluster of one node, and the single partition [Distribute] gives it:
    the node is master and both slaves. *)
Definition one_host : ZPMetaServer := after (AddNode "10.0.0.1" 5000) fresh.
Definition one_partition : ZPMetaServer := after_Distribute 2 1 one_host.

(** One partition over the three hosts; then the slaves and at last the
    master have been taken off, which leaves the partition without master and
    the former master in the last slot of the slaves. *)
Definition one_of_three : ZPMetaServer := after_Distribute 3 1 three_hosts.

Definition all_off : ZPMetaServer :=
  after (OffNode "10.0.0.1" 5000)
    (after (OffNode "10.0.0.3" 5000)
       (after (OffNode "10.0.0.2" 5000) one_of_three)).

Definition orphan : Partitions :=
  {| id := 0; master := {| ip := ""; port := 0 |}; slaves := [host2; host3; host1] |}.

Definition on_host (ip0 : string) (port0 : Z) : NodeStatus :=
  {| node := {| ip := ip0; port := port0 |}; status := kNodeUp |}.

(** Four nodes on one host and one node on another. *)
Definition uneven_hosts : list NodeStatus :=
  [ on_host "10.0.0.1" 5000; on_host "10.0.0.1" 5001; on_host "10.0.0.1" 5002;
    on_host "10.0.0.1" 5003; on_host "10.0.0.2" 5000 ].

(** The three hosts have joined; of the coming calls of floyd the fourth,
    the write of [MT] in [Distribute 1], fails. *)
Definition MT_write_fails : ZPMetaServer :=
  with_floyd {| kv := kv (floyd_ three_hosts);
                script := [true; true; true; false];
                journal := journal (floyd_ three_hosts) |} three_hosts.

(** One node has joined and has been taken off again before any
    [Distribute]. *)
Definition one_host_off : ZPMetaServer := after (OffNode "10.0.0.1" 5000) one_host.

Definition noon : timeval := {| tv_sec := 100; tv_usec := 0 |}.
Definition later : timeval := {| tv_sec := 200; tv_usec := 0 |}.

(** A node joins a fresh cluster, sends a ping, and is swept out when its
    time is up; then the leader of the three hosts is promoted. *)
Definition joined : ZPMetaServer := after (AddNodeAlive "10.0.0.1:5000" noon) fresh.
Definition pinged : ZPMetaServer := after (UpdateNodeAlive "10.0.0.1:5000" noon) joined.
Definition swept : ZPMetaServer := after (CheckNodeAlive 30 later) pinged.
Definition promoted : ZPMetaServer := after (BecomeLeader noon) three_hosts.

(** On a fresh cluster the write of the nodes table fails: the second call
    of floyd in [AddNode]. *)
Definition ND_write_fails : ZPMetaServer :=
  with_floyd {| kv := kv (floyd_ fresh); script := [true; false];
                journal := journal (floyd_ fresh) |} fresh.

(** Three nodes on one host and one node on each of three others. *)
Definition crowded_host : list NodeStatus :=
  [ on_host "10.0.0.1" 5000; on_host "10.0.0.1" 5001; on_host "10.0.0.1" 5002;
    on_host "10.0.0.2" 5000; on_host "10.0.0.3" 5000; on_host "10.0.0.4" 5000 ].

(** The four buckets once they are empty. *)
Definition emptied : StdMap.t (list NodeStatus) :=
  [ ("10.0.0.1", []); ("10.0.0.2", []); ("10.0.0.3", []); ("10.0.0.4", []) ].

(** The six nodes have joined a fresh cluster. *)
Definition crowded_cluster : ZPMetaServer :=
  after (AddNode "10.0.0.4" 5000)
    (after (AddNode "10.0.0.3" 5000)
       (after (AddNode "10.0.0.2" 5000)
          (after (AddNode "10.0.0.1" 5002)
             (after (AddNode "10.0.0.1" 5001)
                (after (AddNode "10.0.0.1" 5000) fresh))))).

(** ** Further vocabulary and scenarios *)

(** The nodes that are in the buckets. *)
Definition pool (m : StdMap.t (list NodeStatus)) : list NodeStatus :=
  concat (map snd m).

(** The buckets the first loop of [Reorganize] builds. *)
Definition buckets_of (t_alive_nodes : list NodeStatus) : StdMap.t (list NodeStatus) :=
  fold_left Reorganize_bucket t_alive_nodes [].

(** The keys of a map are in strictly increasing order, as [std::map]
    keeps them. *)
Definition sorted_keys {V} (m : StdMap.t V) : Prop :=
  StronglySorted (fun k k' => String.ltb k k' = true) (StdMap.keys m).

(** The nodes of a list that are on a host. *)
Definition nodes_on (host : string) (l : list NodeStatus) : list NodeStatus :=
  filter (fun n => ip (node n) = host) l.

(** Every host of the list has [s] nodes in it. *)
Definition evenly_spread (s : nat) (l : list NodeStatus) : Prop :=
  forall n, n ∈ l -> length (nodes_on (ip (node n)) l) = s.

(** Two hosts with two nodes each. *)
Definition two_by_two : list NodeStatus :=
  [ on_host "10.0.0.1" 5000; on_host "10.0.0.2" 5000;
    on_host "10.0.0.1" 5001; on_host "10.0.0.2" 5001 ].

(** One partition over the three hosts, whose two slaves have been taken
    off. *)
Definition slaves_off : ZPMetaServer :=
  after (OffNode "10.0.0.3" 5000) (after (OffNode "10.0.0.2" 5000) one_of_three).

Definition slaves_off_nodes : Nodes :=
  [ {| node := host1; status := kNodeUp |}; {| node := host2; status := kNodeDown |};
    {| node := host3; status := kNodeDown |} ].

Definition slaves_off_table : MetaCmdResponse_Pull :=
  {| version := 0; info := [ {| id := 0; master := host1; slaves := [host2; host3] |} ] |}.

(** The server the options name. *)
Definition self (l : Leader) : string * Z :=
  (local_ip (options_ l), local_port (options_ l)).

(** The leader whose command port is cached, with a connection to it. *)
Definition connected_to (leader_ip : string) (leader_cmd_port : Z) (l : Leader) : Prop :=
  leader_cli_ l = Some {| peer_ip := leader_ip; peer_port := leader_cmd_port |} /\
  leader_ip_ l = leader_ip /\ leader_cmd_port_ l = leader_cmd_port.

(** No connection and no cached leader. *)
Definition disconnected (l : Leader) : Prop :=
  leader_cli_ l = None /\ leader_ip_ l = "" /\ leader_cmd_port_ l = 0.

(** A server at 10.0.0.1:9000 that has just started, and the answers of
    floyd: no leader yet, then this server, or another one. *)
Definition started : Leader := new_Leader {| local_ip := "10.0.0.1"; local_port := 9000 |}.


Definition elects_other : list (option (string * Z)) := [None; Some ("10.0.0.2", 9100)].

(** The server once it follows the leader at 10.0.0.2, whose command port is
    9200. *)
Definition following : Leader :=
  {| options_ := options_ started; should_exit_ := false; leader_first_time_ := true;
     leader_cli_ := Some {| peer_ip := "10.0.0.2"; peer_port := 9200 |};
     leader_ip_ := "10.0.0.2"; leader_cmd_port_ := 9200 |}.

(** The values of a [uint64_t]. *)
Definition is_uint64 (z : Z) : Prop := 0 <= z < 2 ^ 64.

(** A worker thread whose counter is about to wrap around, just after a
    reset at time 5000000. *)
Definition busy_thread : ZPDataWorkerThread :=
  {| thread_querynum_ := 2 ^ 64 - 2; last_thread_querynum_ := 2 ^ 64 - 2;
     last_time_us_ := 5000000; last_sec_thread_querynum_ := 0 |}.

(** A restarted server of the cluster with four partitions, on a store
    whose next two calls fail. *)
Definition MT_read_fails_twice : ZPMetaServer :=
  with_version (-1)
    (with_floyd {| kv := kv (floyd_ four_partitions); script := [false; false; true];
                   journal := journal (floyd_ four_partitions) |} four_partitions).

(** The cluster with four partitions, on a store whose next call fails: the
    read of [PN]. *)
Definition PN_read_fails : ZPMetaServer :=
  with_floyd {| kv := kv (floyd_ four_partitions); script := [false];
                journal := journal (floyd_ four_partitions) |} four_partitions.

(** The three hosts have joined; of the coming calls of floyd the fifth,
    the write of [PN] in [Distribute 1], fails. *)
Definition PN_write_fails : ZPMetaServer :=
  with_floyd {| kv := kv (floyd_ three_hosts);
                script := [true; true; true; true; false];
                journal := journal (floyd_ three_hosts) |} three_hosts.

(** A leader is promoted on the cluster with four partitions. The second
    and the third node send their pings, the first does not and is swept out
    when its time is up; then it joins again, before the update thread has
    run the [kOpRemove] the sweep has queued. The update thread, which is not
    part of the sources, runs that task as [OffNode]; after it the first node
    sends a ping. *)
Definition leader_of_four : ZPMetaServer := after (BecomeLeader noon) four_partitions.
Definition two_pinged : ZPMetaServer :=
  after (UpdateNodeAlive "10.0.0.3:5000" later)
    (after (UpdateNodeAlive "10.0.0.2:5000" later) leader_of_four).
Definition lapsed : ZPMetaServer := after (CheckNodeAlive 30 later) two_pinged.
Definition rejoined : ZPMetaServer := after (AddNodeAlive "10.0.0.1:5000" later) lapsed.
Definition taken_off : ZPMetaServer := after (OffNode "10.0.0.1" 5000) rejoined.
Definition pinged_while_off : ZPMetaServer :=
  after (UpdateNodeAlive "10.0.0.1:5000" later) taken_off.

(** * Properties *)

(** ** Integers and keys *)

Lemma wrap64_in_range (z : Z) : is_int64 z -> wrap64 z = z.
Proof.
  unfold is_int64, INT64_MIN, INT64_MAX, wrap64. intros H.
  rewrite Z.mod_small; lia.
Qed.

Lemma wrap32_in_range (z : Z) : is_int z -> wrap32 z = z.
Proof.
  unfold is_int, INT_MIN, INT_MAX, wrap32. intros H.
  rewrite Z.mod_small; lia.
Qed.

Lemma wrap64_succ (v : Z) : INT64_MIN <= v < INT64_MAX -> wrap64 (v + 1) = v + 1.
Proof. intros H. apply wrap64_in_range. unfold is_int64. lia. Qed.

Lemma PartitionId2Key_not_MT (i : Z) : PartitionId2Key i <> ZP_META_KEY_MT.
Proof. unfold PartitionId2Key, ZP_META_KEY_PREFIX, ZP_META_KEY_MT. simpl. discriminate. Qed.

Lemma PartitionId2Key_not_PN (i : Z) : PartitionId2Key i <> ZP_META_KEY_PN.
Proof. unfold PartitionId2Key, ZP_META_KEY_PREFIX, ZP_META_KEY_PN. simpl. discriminate. Qed.

Lemma PartitionId2Key_not_ND (i : Z) : PartitionId2Key i <> ZP_META_KEY_ND.
Proof. unfold PartitionId2Key, ZP_META_KEY_PREFIX, ZP_META_KEY_ND. simpl. discriminate. Qed.

(** ** The journal of writes *)

Lemma writes_between_refl (st : ZPMetaServer) : writes_between st st [].
Proof. reflexivity. Qed.

Lemma writes_between_trans (st1 st2 st3 : ZPMetaServer) (c12 c23 : list WriteCall) :
  writes_between st1 st2 c12 -> writes_between st2 st3 c23 ->
  writes_between st1 st3 (app c23 c12).
Proof.
  unfold writes_between. intros H12 H23. rewrite H23, H12. apply app_assoc.
Qed.

(** The unfolding of the operations on the store. *)
Ltac unfold_store :=
  unfold GetAllNode, GetMSInfo, SetMSInfo, SetReplicaset, Set',
    floyd_DirtyRead, floyd_Write, floyd_Read,
    Floyd_DirtyRead, Floyd_Write, Floyd_Read, next_outcome,
    bind, ret, get_version, set_version, with_floyd, with_version in *.

(** Splits a state reached by writes into the calls and the state before. *)
Ltac journal_prefix l l0 :=
  lazymatch l with
  | l0 => constr:(@nil WriteCall)
  | ?c :: ?rest => let p := journal_prefix rest l0 in constr:(c :: p)
  end.

Ltac give_calls :=
  lazymatch goal with
  | |- exists calls, writes_between ?st ?st' calls /\ _ =>
      let l := eval cbn in (journal (floyd_ st')) in
      let l0 := eval cbn in (journal (floyd_ st)) in
      let p := journal_prefix l l0 in
      exists p; split; [reflexivity |]
  end.

(** ** Running an operation path by path *)

(** The term a run is stuck on: the innermost scrutinee at its head. *)
Ltac head_scrutinee t :=
  lazymatch t with
  | match ?x with _ => _ end =>
      match constr:(Set) with
      | _ => head_scrutinee x
      | _ => constr:(x)
      end
  | ?f _ => head_scrutinee f
  end.

Ltac reduce_run H :=
  cbv beta iota zeta in H;
  cbn [fst snd negb andb orb ok IsNotFound floyd_ok floyd_IsNotFound
       floyd_ version_ node_alive_ update_thread_ kv script journal] in H.

(** One step of the run in [H : run = (s, st')]: the test the run is at is
    decided both ways. *)
Ltac run_step H :=
  reduce_run H;
  lazymatch type of H with
  | ?lhs = _ => let s := head_scrutinee lhs in destruct s eqn:?
  end.

Ltac run_all H := repeat run_step H; reduce_run H.

(** ** InitVersion *)

(** [InitVersion] returns after exactly one read that goes through: the
    failures before it, and nothing else, are taken off the script. *)
Lemma InitVersion_reads_once (st : ZPMetaServer) :
  exists st', InitVersion st = (OK, st') /\
              script (floyd_ st') = after_failures (script (floyd_ st)) /\
              kv (floyd_ st') = kv (floyd_ st) /\
              journal (floyd_ st') = journal (floyd_ st).
Proof.
  unfold InitVersion.
  remember (script (floyd_ st)) as script0 eqn:Hsc.
  revert st Hsc. induction script0 as [| b rest IH]; intros st Hsc;
    destruct (InitVersion_loop _ st) as [s st'] eqn:H;
    cbn [InitVersion_loop] in H; unfold_store; rewrite <- Hsc in H; cbn [hd tl] in H.
  - run_all H; simplify_eq; eexists; (split; [reflexivity |]);
      cbn [floyd_ script kv journal]; repeat split.
  - destruct b; cbn [after_failures].
    + run_all H; simplify_eq; eexists; (split; [reflexivity |]);
        cbn [floyd_ script kv journal]; repeat split.
    + reduce_run H.
      match type of H with
      | InitVersion_loop rest ?st1 = _ =>
          destruct (IH st1) as (st2 & Hrun & Hscript & Hkv & Hj); [reflexivity |]
      end.
      rewrite Hrun in H. injection H as <- <-.
      exists st2. split; [reflexivity |].
      cbn [floyd_ script kv journal] in Hscript, Hkv, Hj.
      repeat split; assumption.
Qed.

(** ** The version a write of the table carries *)

Ltac solve_committed :=
  unfold committed_MT in *;
  cbn [floyd_ version_ journal kv script node_alive_ update_thread_
       w_key w_value w_committed fst snd] in *;
  repeat match goal with
  | H : _ /\ _ |- _ => destruct H
  end;
  try discriminate; try congruence.

Ltac split_Forall :=
  lazymatch goal with
  | |- Forall _ [] => apply Forall_nil_2
  | |- Forall _ (_ :: _) => apply Forall_cons_2; [ | split_Forall ]
  end.

(** Closes [advances_with_MT] once the run has been reduced to a state given
    by its writes. *)
Ltac solve_advances Hv :=
  cbn [floyd_ version_ journal kv script node_alive_ update_thread_
       w_key w_value w_committed fst snd] in *;
  rewrite ?(wrap64_succ _ Hv);
  unfold advances_with_MT; give_calls;
  cbn [floyd_ version_ journal kv script node_alive_ update_thread_
       w_key w_value w_committed fst snd];
  split;
  [ split_Forall; intros Hc; solve_committed;
    (split; [eexists; split; reflexivity | reflexivity])
  | intros HF; try reflexivity; exfalso;
    repeat match goal with
    | H : Forall _ (_ :: _) |- _ => inversion H; clear H; subst
    end;
    repeat match goal with
    | H : ~ committed_MT _ |- _ => try (apply H; split; reflexivity); clear H
    end ].

Lemma OnNode_advances (ip0 : string) (port0 : Z) (st st' : ZPMetaServer) (s : Status) :
  INT64_MIN <= version_ st < INT64_MAX ->
  OnNode ip0 port0 st = (s, st') ->
  advances_with_MT st st'.
Proof.
  intros Hv H. unfold OnNode in H. unfold_store.
  run_all H; simplify_eq; solve_advances Hv.
Qed.

Lemma OffNode_advances (ip0 : string) (port0 : Z) (st st' : ZPMetaServer) (s : Status) :
  INT64_MIN <= version_ st < INT64_MAX ->
  OffNode ip0 port0 st = (s, st') ->
  advances_with_MT st st'.
Proof.
  intros Hv H. unfold OffNode, SetNodeStatus in H. unfold_store.
  run_all H; simplify_eq; solve_advances Hv.
Qed.

Lemma quiet_refl (st : ZPMetaServer) : quiet st st.
Proof. split; [reflexivity |]. exists []. split; [reflexivity | constructor]. Qed.

Lemma quiet_trans (st1 st2 st3 : ZPMetaServer) :
  quiet st1 st2 -> quiet st2 st3 -> quiet st1 st3.
Proof.
  intros [Hv12 (c12 & Hw12 & Hf12)] [Hv23 (c23 & Hw23 & Hf23)].
  split; [congruence |].
  exists (app c23 c12). split.
  - eapply writes_between_trans; eassumption.
  - apply Forall_app. split; assumption.
Qed.

Lemma advances_after_quiet (st st1 st' : ZPMetaServer) :
  quiet st st1 -> advances_with_MT st1 st' -> advances_with_MT st st'.
Proof.
  intros [Hv (c1 & Hw1 & Hf1)] (c2 & Hw2 & Hf2 & Hn2).
  exists (app c2 c1). split; [eapply writes_between_trans; eassumption |]. split.
  - apply Forall_app. split.
    + rewrite <- Hv. exact Hf2.
    + eapply Forall_impl; [exact Hf1 |].
      intros c Hc [Hk _]. contradiction.
  - intros HF. apply Forall_app in HF as [HF2 _]. rewrite <- Hv. auto.
Qed.

Lemma Distribute_partitions_quiet (count : nat) :
  forall (i : Z) (alive_nodes : list NodeStatus) (an_num : Z) (ms_info ms_info' : MetaCmdResponse_Pull)
         (st st' : ZPMetaServer) (s : Status),
    Distribute_partitions count i alive_nodes an_num ms_info st = ((s, ms_info'), st') ->
    quiet st st'.
Proof.
  induction count as [| count IH]; intros i alive_nodes an_num ms_info ms_info' st st' s H.
  - cbn in H. unfold ret in H. simplify_eq. apply quiet_refl.
  - cbn [Distribute_partitions] in H. unfold_store.
    run_step H.
    + reduce_run H. apply IH in H. eapply quiet_trans; [| exact H].
      split; [reflexivity |]. eexists [_]. split; [reflexivity |].
      repeat constructor. apply PartitionId2Key_not_MT.
    + reduce_run H. simplify_eq.
      split; [reflexivity |]. eexists [_]. split; [reflexivity |].
      repeat constructor. apply PartitionId2Key_not_MT.
Qed.

Lemma Distribute_place_advances (num : Z) (alive_nodes : list NodeStatus)
    (st st' : ZPMetaServer) (s : Status) :
  INT64_MIN <= version_ st < INT64_MAX ->
  Distribute_place num alive_nodes st = (s, st') ->
  advances_with_MT st st'.
Proof.
  intros Hv H. unfold Distribute_place, bind in H.
  destruct (Distribute_partitions _ _ _ _ _ st) as [[s1 ms1] st1] eqn:Hloop.
  apply Distribute_partitions_quiet in Hloop.
  assert (Hv1 : INT64_MIN <= version_ st1 < INT64_MAX) by (destruct Hloop as [-> _]; exact Hv).
  eapply advances_after_quiet; [exact Hloop |].
  unfold set_table_version in H. unfold_store.
  run_all H; simplify_eq; solve_advances Hv1.
Qed.

Lemma Distribute_advances (fuel : nat) (num : Z) (st st' : ZPMetaServer) (s : Status) :
  INT64_MIN <= version_ st < INT64_MAX ->
  Distribute fuel num st = Returns s st' ->
  advances_with_MT st st'.
Proof.
  intros Hv H. unfold Distribute, Distribute_nodes, PartitionNums in H. unfold_store.
  run_all H; simplify_eq; try solve [solve_advances Hv].
  all: match goal with
       | Hp : Distribute_place _ _ _ = _ |- _ =>
           apply Distribute_place_advances in Hp; [| exact Hv];
           eapply advances_after_quiet; [| exact Hp]
       end.
  all: split; [reflexivity |]; exists []; split; [reflexivity | constructor].
Qed.

(** C1: every committed write of the partitions table under [MT] by
    [Distribute], [OffNode] or [OnNode] carries the cached version plus one,
    and the cached version is then advanced by exactly one; the cached
    version lies below the largest [int64_t], so that the increment does not
    overflow. *)
Theorem MT_write_carries_next_version (st : ZPMetaServer) :
  INT64_MIN <= version_ st < INT64_MAX ->
  (forall fuel num s st', Distribute fuel num st = Returns s st' -> advances_with_MT st st') /\
  (forall ip0 port0 s st', OffNode ip0 port0 st = (s, st') -> advances_with_MT st st') /\
  (forall ip0 port0 s st', OnNode ip0 port0 st = (s, st') -> advances_with_MT st st').
Proof.
  intros Hv. repeat split; intros.
  - eapply Distribute_advances; eassumption.
  - eapply OffNode_advances; eassumption.
  - eapply OnNode_advances; eassumption.
Qed.

Lemma MT_write_carries_next_version_witness :
  (INT64_MIN <= version_ three_hosts < INT64_MAX) /\
  advances_with_MT three_hosts (after_Distribute 3 4 three_hosts).
Proof.
  assert (Hv : INT64_MIN <= version_ three_hosts < INT64_MAX).
  { replace (version_ three_hosts) with (-1) by (vm_compute; reflexivity).
    unfold INT64_MIN, INT64_MAX. lia. }
  split; [exact Hv |].
  apply (proj1 (MT_write_carries_next_version three_hosts Hv) 3%nat 4 OK).
  vm_compute. reflexivity.
Defined.

(** ** Calls that find nothing to rewrite *)

Lemma OffNode_partition_other (alive_nodes : list NodeStatus) (ip0 : string) (port0 : Z)
    (p : Partitions) :
  master p <> {| ip := ip0; port := port0 |} ->
  OffNode_partition alive_nodes ip0 port0 p = (p, false).
Proof.
  intros Hne. unfold OffNode_partition.
  destruct (String.eqb_spec ip0 (ip (master p))) as [Hip | Hip]; [| reflexivity].
  destruct (Z.eqb_spec port0 (port (master p))) as [Hport | Hport]; [| reflexivity].
  exfalso. apply Hne. destruct (master p) as [mi mp]. cbn in *. congruence.
Qed.

Lemma OffNode_partitions_other (alive_nodes : list NodeStatus) (ip0 : string) (port0 : Z)
    (ps : list Partitions) :
  Forall (fun p => master p <> {| ip := ip0; port := port0 |}) ps ->
  OffNode_partitions alive_nodes ip0 port0 ps = (ps, false).
Proof.
  induction 1 as [| p ps Hp _ IH]; [reflexivity |].
  cbn [OffNode_partitions]. rewrite (OffNode_partition_other _ _ _ _ Hp), IH. reflexivity.
Qed.

Lemma find_slave_None (ip0 : string) (port0 : Z) (slaves0 : list Node) :
  {| ip := ip0; port := port0 |} ∉ slaves0 -> find_slave ip0 port0 slaves0 = None.
Proof.
  induction slaves0 as [| s rest IH]; intros Hnot; [reflexivity |].
  cbn [find_slave].
  destruct (String.eqb_spec (ip s) ip0) as [Hip | Hip];
    [destruct (Z.eqb_spec (port s) port0) as [Hport | Hport] |]; cbn [andb].
  - exfalso. apply Hnot. destruct s as [si sp]. cbn in *. subst. left.
  - rewrite IH; [reflexivity |]. intros Hin. apply Hnot. right. exact Hin.
  - rewrite IH; [reflexivity |]. intros Hin. apply Hnot. right. exact Hin.
Qed.

Lemma OnNode_partition_other (ip0 : string) (port0 : Z) (p : Partitions) :
  ~ orphaned_slave ip0 port0 p -> OnNode_partition ip0 port0 p = (p, false).
Proof.
  intros Hnot. unfold OnNode_partition.
  destruct (is_orphaned p) eqn:Ho; [| reflexivity].
  rewrite find_slave_None; [reflexivity |].
  intros Hin. apply Hnot. split; assumption.
Qed.

Lemma OnNode_partitions_other (ip0 : string) (port0 : Z) (ps : list Partitions) :
  Forall (fun p => ~ orphaned_slave ip0 port0 p) ps ->
  OnNode_partitions ip0 port0 ps = (ps, false).
Proof.
  induction 1 as [| p ps Hp _ IH]; [reflexivity |].
  cbn [OnNode_partitions]. rewrite (OnNode_partition_other _ _ _ Hp), IH. reflexivity.
Qed.

Ltac solve_untouched :=
  split;
  [ cbn [floyd_ kv]; rewrite ?lookup_insert_ne by discriminate; reflexivity
  | split; [reflexivity |]; give_calls; split_Forall; cbn [w_key]; discriminate ].

Lemma parsed_Pull (v : Value) (m : MetaCmdResponse_Pull) :
  Pull_ParseFromString v = Some m -> v = SerializedPull m.
Proof. destruct v; cbn; congruence. Qed.

Lemma parsed_Nodes (v : Value) (m : Nodes) :
  Nodes_ParseFromString v = Some m -> v = SerializedNodes m.
Proof. destruct v; cbn; congruence. Qed.

(** Brings a hypothesis [HT] on the table read from [MT] to the table the
    run has parsed. *)
Ltac use_table HT :=
  match goal with
  | Hp : Pull_ParseFromString _ = Some _ |- _ => apply parsed_Pull in Hp; subst
  end;
  first
    [ specialize (HT _ eq_refl)
    | match goal with
      | Hl : _ !! ZP_META_KEY_MT = Some _ |- _ =>
          rewrite ?lookup_insert_ne in Hl by discriminate; apply HT in Hl
      end ].

(** C8: [OffNode] of an endpoint that is master of no partition of the
    persisted table, and [OnNode] of an endpoint that is slave of no
    partition without master, issue no write of [MT] and leave the table and
    the cached version as they were. *)
Theorem no_rewrite_leaves_MT (st : ZPMetaServer) (ip0 : string) (port0 : Z) :
  ((forall T, kv (floyd_ st) !! ZP_META_KEY_MT = Some (SerializedPull T) ->
              Forall (fun p => master p <> {| ip := ip0; port := port0 |}) (info T)) ->
   forall s st', OffNode ip0 port0 st = (s, st') -> MT_untouched st st') /\
  ((forall T, kv (floyd_ st) !! ZP_META_KEY_MT = Some (SerializedPull T) ->
              Forall (fun p => ~ orphaned_slave ip0 port0 p) (info T)) ->
   forall s st', OnNode ip0 port0 st = (s, st') -> MT_untouched st st').
Proof.
  split; intros HT s st' H.
  - unfold OffNode, SetNodeStatus in H. unfold_store.
    run_all H; simplify_eq; try solve [solve_untouched].
    all: exfalso.
    all: use_table HT.
    all: match goal with
         | Hf : Forall _ (info _), Hr : OffNode_partitions _ _ _ _ = _ |- _ =>
             rewrite (OffNode_partitions_other _ _ _ _ Hf) in Hr; simplify_eq
         end.
    all: discriminate.
  - unfold OnNode in H. unfold_store.
    run_all H; simplify_eq; try solve [solve_untouched].
    all: exfalso.
    all: use_table HT.
    all: match goal with
         | Hf : Forall _ (info _), Hr : OnNode_partitions _ _ _ = _ |- _ =>
             rewrite (OnNode_partitions_other _ _ _ Hf) in Hr; simplify_eq
         end.
    all: discriminate.
Qed.

Lemma no_rewrite_leaves_MT_witness :
  MT_untouched two_partitions (after (OffNode "10.0.0.3" 5000) two_partitions) /\
  MT_untouched two_partitions (after (OnNode "10.0.0.3" 5000) two_partitions).
Proof.
  split.
  - apply (proj1 (no_rewrite_leaves_MT two_partitions "10.0.0.3" 5000))
      with (s := fst (OffNode "10.0.0.3" 5000 two_partitions)).
    + intros T HT. vm_compute in HT. injection HT as <-.
      repeat constructor; discriminate.
    + unfold after. destruct (OffNode "10.0.0.3" 5000 two_partitions). reflexivity.
  - apply (proj2 (no_rewrite_leaves_MT two_partitions "10.0.0.3" 5000))
      with (s := fst (OnNode "10.0.0.3" 5000 two_partitions)).
    + intros T HT. vm_compute in HT. injection HT as <-.
      repeat constructor; intros [Ho _]; vm_compute in Ho; discriminate.
    + unfold after. destruct (OnNode "10.0.0.3" 5000 two_partitions). reflexivity.
Defined.

(** ** What a call that returns [OK] has done *)

Lemma OffNode_OK (ip0 : string) (port0 : Z) (st st' : ZPMetaServer) :
  OffNode ip0 port0 st = (OK, st') ->
  exists nodes T info' should_rewrite,
    kv (floyd_ st) !! ZP_META_KEY_ND = Some (SerializedNodes nodes) /\
    kv (floyd_ st) !! ZP_META_KEY_MT = Some (SerializedPull T) /\
    OffNode_partitions (GetAllAliveNode nodes) ip0 port0 (info T) = (info', should_rewrite) /\
    if should_rewrite then
      kv (floyd_ st') !! ZP_META_KEY_MT =
        Some (SerializedPull {| version := wrap64 (version_ st + 1); info := info' |}) /\
      version_ st' = wrap64 (version_ st + 1)
    else
      kv (floyd_ st') !! ZP_META_KEY_MT = kv (floyd_ st) !! ZP_META_KEY_MT /\
      version_ st' = version_ st.
Proof.
  intros H. unfold OffNode, SetNodeStatus in H. unfold_store.
  run_all H; simplify_eq.
  all: repeat match goal with
       | Hp : Pull_ParseFromString _ = Some _ |- _ => apply parsed_Pull in Hp; subst
       | Hp : Nodes_ParseFromString _ = Some _ |- _ => apply parsed_Nodes in Hp; subst
       | Hl : <[_ := _]> _ !! ZP_META_KEY_MT = _ |- _ =>
           rewrite lookup_insert_ne in Hl by discriminate
       | Hb : negb ?b = _ |- _ => destruct b; cbn in Hb; try discriminate; clear Hb
       end.
  all: do 4 eexists; split; [first [eassumption | reflexivity] |];
    split; [first [eassumption | reflexivity] |];
    split; [eassumption |]; cbn [floyd_ kv version_].
  all: rewrite ?lookup_insert_eq, ?lookup_insert_ne by discriminate.
  all: split; first [reflexivity | assumption].
Qed.

(** ** The nodes that are up *)

Lemma same_node (a : Node) (ip0 : string) (port0 : Z) :
  String.eqb (ip a) ip0 && (port a =? port0) = true <-> a = {| ip := ip0; port := port0 |}.
Proof.
  destruct a as [ai ap]. cbn. rewrite andb_true_iff, String.eqb_eq, Z.eqb_eq.
  split; [intros [-> ->]; reflexivity | intros [= -> ->]; split; reflexivity].
Qed.

Lemma IsAlive_UP (nodes : Nodes) (n : Node) :
  IsAlive (GetAllAliveNode nodes) (ip n) (port n) = true <-> UP nodes n.
Proof.
  unfold IsAlive, GetAllAliveNode, UP. rewrite existsb_exists. split.
  - intros (ns & Hin & Heq). apply list_elem_of_In, list_elem_of_filter in Hin as [Hst Hin].
    apply same_node in Heq. destruct ns as [nn ns]. cbn in *. subst.
    destruct n; exact Hin.
  - intros Hin. exists {| node := n; status := kNodeUp |}. split.
    + apply list_elem_of_In, list_elem_of_filter. split; [reflexivity | exact Hin].
    + cbn. apply same_node. destruct n; reflexivity.
Qed.

Lemma IsAlive_not_UP (nodes : Nodes) (n : Node) :
  IsAlive (GetAllAliveNode nodes) (ip n) (port n) = false <-> ~ UP nodes n.
Proof.
  rewrite <- IsAlive_UP. destruct (IsAlive _ _ _); split; intros; congruence.
Qed.

(** ** OffNode on a partition of the endpoint *)

Lemma first_alive_slave_Some (nodes : Nodes) (slaves0 : list Node) (j : nat) :
  first_alive_slave (GetAllAliveNode nodes) slaves0 = Some j ->
  exists s, first_UP_slave nodes slaves0 j s.
Proof.
  revert j. induction slaves0 as [| s rest IH]; intros j H; [discriminate |].
  cbn [first_alive_slave] in H.
  destruct (IsAlive _ (ip s) (port s)) eqn:Ha.
  - injection H as <-. exists s. split; [reflexivity |]. split; [apply IsAlive_UP; exact Ha |].
    intros k s' Hk. lia.
  - destruct (first_alive_slave _ rest) as [j' |] eqn:Hr; [| discriminate].
    cbn in H. injection H as <-.
    destruct (IH j' eq_refl) as (s0 & Hl & Hup & Hbefore).
    exists s0. split; [exact Hl |]. split; [exact Hup |].
    intros [| k] s' Hk Hs'.
    + cbn in Hs'. injection Hs' as <-. apply IsAlive_not_UP. exact Ha.
    + cbn in Hs'. eapply Hbefore; [| exact Hs']. lia.
Qed.

Lemma first_alive_slave_None (nodes : Nodes) (slaves0 : list Node) :
  first_alive_slave (GetAllAliveNode nodes) slaves0 = None ->
  Forall (fun s => ~ UP nodes s) slaves0.
Proof.
  induction slaves0 as [| s rest IH]; intros H; [constructor |].
  cbn [first_alive_slave] in H.
  destruct (IsAlive _ (ip s) (port s)) eqn:Ha; [discriminate |].
  destruct (first_alive_slave _ rest); [discriminate |].
  constructor; [apply IsAlive_not_UP; exact Ha | apply IH; reflexivity].
Qed.

Lemma first_UP_slave_unique (nodes : Nodes) (slaves0 : list Node) (j j' : nat) (s s' : Node) :
  first_UP_slave nodes slaves0 j s -> first_UP_slave nodes slaves0 j' s' -> j = j' /\ s = s'.
Proof.
  intros (Hl & Hup & Hb) (Hl' & Hup' & Hb').
  assert (j = j') as <-.
  { destruct (Nat.lt_trichotomy j j') as [Hlt | [Heq | Hgt]]; [| exact Heq |].
    - exfalso. exact (Hb' _ _ Hlt Hl Hup).
    - exfalso. exact (Hb _ _ Hgt Hl' Hup'). }
  split; [reflexivity | congruence].
Qed.

Lemma OffNode_partitions_lookup (alive_nodes : list NodeStatus) (ip0 : string) (port0 : Z)
    (ps ps' : list Partitions) (should_rewrite : bool) (i : nat) (p : Partitions) :
  OffNode_partitions alive_nodes ip0 port0 ps = (ps', should_rewrite) ->
  ps !! i = Some p ->
  ps' !! i = Some (fst (OffNode_partition alive_nodes ip0 port0 p)) /\
  (snd (OffNode_partition alive_nodes ip0 port0 p) = true -> should_rewrite = true).
Proof.
  revert ps' should_rewrite i.
  induction ps as [| q rest IH]; intros ps' should_rewrite i H Hi; [discriminate |].
  cbn [OffNode_partitions] in H.
  destruct (OffNode_partition alive_nodes ip0 port0 q) as [q' changed] eqn:Hq.
  destruct (OffNode_partitions alive_nodes ip0 port0 rest) as [rest' b] eqn:Hrest.
  injection H as <- <-.
  destruct i as [| i]; cbn in Hi.
  - injection Hi as <-. rewrite Hq. cbn. split; [reflexivity |]. intros ->. reflexivity.
  - destruct (IH _ _ _ eq_refl Hi) as [Hl Hb]. split; [exact Hl |].
    intros Hs. rewrite (Hb Hs). apply orb_true_r.
Qed.

Lemma OffNode_partition_master (nodes : Nodes) (ip0 : string) (port0 : Z) (p : Partitions) :
  master p = {| ip := ip0; port := port0 |} ->
  exists p', OffNode_partition (GetAllAliveNode nodes) ip0 port0 p = (p', true) /\
    id p' = id p /\
    (forall j s, first_UP_slave nodes (slaves p) j s ->
       master p' = s /\ slaves p' = <[j := master p]> (slaves p)) /\
    (Forall (fun s => ~ UP nodes s) (slaves p) ->
       master p' = {| ip := ""; port := 0 |} /\ slaves p' = app (slaves p) [master p]).
Proof.
  intros Hm. unfold OffNode_partition. rewrite Hm. cbn [ip port].
  rewrite String.eqb_refl, Z.eqb_refl. cbn [negb orb].
  destruct (first_alive_slave _ (slaves p)) as [j |] eqn:Hf.
  - eexists. split; [reflexivity |]. cbn [id master slaves]. split; [reflexivity |].
    destruct (first_alive_slave_Some _ _ _ Hf) as (s & Hs). split.
    + intros j' s' Hs'. destruct (first_UP_slave_unique _ _ _ _ _ _ Hs Hs') as [<- <-].
      destruct Hs as [-> _]. split; reflexivity.
    + intros Hnone. exfalso. destruct Hs as (Hl & Hup & _).
      rewrite Forall_forall in Hnone. eapply Hnone; [| exact Hup].
      eapply list_elem_of_lookup_2. exact Hl.
  - eexists. split; [reflexivity |]. cbn [id master slaves]. split; [reflexivity |].
    apply first_alive_slave_None in Hf. split.
    + intros j s (Hl & Hup & _). exfalso. rewrite Forall_forall in Hf.
      eapply Hf; [| exact Hup]. eapply list_elem_of_lookup_2. exact Hl.
    + intros _. split; reflexivity.
Qed.

(** C2, as the code has it: [OffNode] of the master of a partition hands the
    partition to its first slave that is up in the nodes table, as read
    before the endpoint is marked down, and puts the former master in that
    slot; the new master differs from the former one when the former master
    is not also a slave of the partition, and is not the empty endpoint when
    that is not up. Without a slave that is up the former master is appended
    to the slaves and the master becomes the empty endpoint. *)
Theorem OffNode_master_handover (st st' : ZPMetaServer) (ip0 : string) (port0 : Z)
    (nodes : Nodes) (T : MetaCmdResponse_Pull) (i : nat) (P : Partitions) :
  kv (floyd_ st) !! ZP_META_KEY_ND = Some (SerializedNodes nodes) ->
  kv (floyd_ st) !! ZP_META_KEY_MT = Some (SerializedPull T) ->
  info T !! i = Some P ->
  master P = {| ip := ip0; port := port0 |} ->
  OffNode ip0 port0 st = (OK, st') ->
  exists T' P',
    kv (floyd_ st') !! ZP_META_KEY_MT = Some (SerializedPull T') /\
    info T' !! i = Some P' /\
    (forall j s, first_UP_slave nodes (slaves P) j s ->
       master P' = s /\ slaves P' = <[j := master P]> (slaves P) /\
       (master P ∉ slaves P -> master P' <> master P) /\
       (~ UP nodes {| ip := ""; port := 0 |} -> master P' <> {| ip := ""; port := 0 |})) /\
    (Forall (fun s => ~ UP nodes s) (slaves P) ->
       master P' = {| ip := ""; port := 0 |} /\ slaves P' = app (slaves P) [master P]).
Proof.
  intros Hnd Hmt Hi Hm H.
  apply OffNode_OK in H as (nodes' & T0 & info' & b & Hnd' & Hmt' & Hps & Hres).
  rewrite Hnd in Hnd'. injection Hnd' as <-.
  rewrite Hmt in Hmt'. injection Hmt' as <-.
  destruct (OffNode_partition_master nodes ip0 port0 P Hm) as (P' & HP' & _ & Hfirst & Hnone).
  destruct (OffNode_partitions_lookup _ _ _ _ _ _ _ _ Hps Hi) as [Hl Hb].
  rewrite HP' in Hl, Hb. cbn [fst snd] in Hl, Hb. rewrite (Hb eq_refl) in Hres.
  destruct Hres as [Hkv _].
  eexists _, P'. split; [exact Hkv |]. split; [exact Hl |]. split; [| exact Hnone].
  intros j s Hs. destruct (Hfirst j s Hs) as [Hmaster Hslaves].
  split; [exact Hmaster |]. split; [exact Hslaves |]. destruct Hs as (Hlook & Hup & _). split.
  - intros Hnot Heq. apply Hnot. rewrite <- Heq, Hmaster.
    eapply list_elem_of_lookup_2. exact Hlook.
  - intros Hempty Heq. apply Hempty. rewrite <- Heq, Hmaster. exact Hup.
Qed.

Lemma OffNode_master_handover_witness :
  exists T' P',
    kv (floyd_ (after (OffNode "10.0.0.1" 5000) four_partitions)) !! ZP_META_KEY_MT
      = Some (SerializedPull T') /\
    info T' !! 0%nat = Some P' /\
    (forall j s, first_UP_slave all_up [host2; host3] j s ->
       master P' = s /\ slaves P' = <[j := host1]> [host2; host3] /\
       (host1 ∉ [host2; host3] -> master P' <> host1) /\
       (~ UP all_up {| ip := ""; port := 0 |} -> master P' <> {| ip := ""; port := 0 |})) /\
    (Forall (fun s => ~ UP all_up s) [host2; host3] ->
       master P' = {| ip := ""; port := 0 |} /\ slaves P' = app [host2; host3] [host1]).
Proof.
  apply (OffNode_master_handover four_partitions
           (after (OffNode "10.0.0.1" 5000) four_partitions) "10.0.0.1" 5000
           all_up four_partitions_table 0
           {| id := 0; master := host1; slaves := [host2; host3] |}).
  - vm_compute. reflexivity.
  - vm_compute. reflexivity.
  - reflexivity.
  - reflexivity.
  - vm_compute. reflexivity.
Defined.

(** Against C2 as stated: [OffNode] of the only node. It is a slave of its
    own partition and still counts as up, so it is the master again. *)
Lemma OffNode_sole_node_stays_master :
  let nodes := [ {| node := host1; status := kNodeUp |} ] in
  let P := {| id := 0; master := host1; slaves := [host1; host1] |} in
  kv (floyd_ one_partition) !! ZP_META_KEY_ND = Some (SerializedNodes nodes) /\
  kv (floyd_ one_partition) !! ZP_META_KEY_MT
    = Some (SerializedPull {| version := 0; info := [P] |}) /\
  first_UP_slave nodes (slaves P) 0 host1 /\
  exists st' P',
    OffNode "10.0.0.1" 5000 one_partition = (OK, st') /\
    kv (floyd_ st') !! ZP_META_KEY_MT
      = Some (SerializedPull {| version := 1; info := [P'] |}) /\
    master P' = host1.
Proof.
  cbv zeta. split; [vm_compute; reflexivity |]. split; [vm_compute; reflexivity |]. split.
  - split; [reflexivity |]. split; [left |]. intros k s' Hk. lia.
  - exists (after (OffNode "10.0.0.1" 5000) one_partition),
      {| id := 0; master := host1; slaves := [host1; host1] |}.
    split; [vm_compute; reflexivity |]. split; [vm_compute; reflexivity | reflexivity].
Qed.

(** ** OnNode on a partition without master *)

Lemma OnNode_OK (ip0 : string) (port0 : Z) (st st' : ZPMetaServer) :
  OnNode ip0 port0 st = (OK, st') ->
  exists T info' should_rewrite,
    kv (floyd_ st) !! ZP_META_KEY_MT = Some (SerializedPull T) /\
    OnNode_partitions ip0 port0 (info T) = (info', should_rewrite) /\
    if should_rewrite then
      kv (floyd_ st') !! ZP_META_KEY_MT =
        Some (SerializedPull {| version := wrap64 (version_ st + 1); info := info' |}) /\
      version_ st' = wrap64 (version_ st + 1)
    else
      kv (floyd_ st') !! ZP_META_KEY_MT = kv (floyd_ st) !! ZP_META_KEY_MT /\
      version_ st' = version_ st.
Proof.
  intros H. unfold OnNode in H. unfold_store.
  run_all H; simplify_eq.
  all: repeat match goal with
       | Hp : Pull_ParseFromString _ = Some _ |- _ => apply parsed_Pull in Hp; subst
       | Hb : negb ?b = _ |- _ => destruct b; cbn in Hb; try discriminate; clear Hb
       end.
  all: do 3 eexists; split; [first [eassumption | reflexivity] |];
    split; [eassumption |]; cbn [floyd_ kv version_].
  all: rewrite ?lookup_insert_eq.
  all: split; first [reflexivity | assumption].
Qed.

Lemma OnNode_partitions_lookup (ip0 : string) (port0 : Z)
    (ps ps' : list Partitions) (should_rewrite : bool) (i : nat) (p : Partitions) :
  OnNode_partitions ip0 port0 ps = (ps', should_rewrite) ->
  ps !! i = Some p ->
  ps' !! i = Some (fst (OnNode_partition ip0 port0 p)) /\
  (snd (OnNode_partition ip0 port0 p) = true -> should_rewrite = true).
Proof.
  revert ps' should_rewrite i.
  induction ps as [| q rest IH]; intros ps' should_rewrite i H Hi; [discriminate |].
  cbn [OnNode_partitions] in H.
  destruct (OnNode_partition ip0 port0 q) as [q' changed] eqn:Hq.
  destruct (OnNode_partitions ip0 port0 rest) as [rest' b] eqn:Hrest.
  injection H as <- <-.
  destruct i as [| i]; cbn in Hi.
  - injection Hi as <-. rewrite Hq. cbn. split; [reflexivity |]. intros ->. reflexivity.
  - destruct (IH _ _ _ eq_refl Hi) as [Hl Hb]. split; [exact Hl |].
    intros Hs. rewrite (Hb Hs). apply orb_true_r.
Qed.

Lemma find_slave_Some (ip0 : string) (port0 : Z) (slaves0 : list Node) (j : nat) :
  find_slave ip0 port0 slaves0 = Some j <->
  first_slot_of {| ip := ip0; port := port0 |} slaves0 j.
Proof.
  revert j. induction slaves0 as [| s rest IH]; intros j.
  - split; [discriminate | intros [H _]; discriminate].
  - cbn [find_slave].
    destruct (String.eqb (ip s) ip0 && (port s =? port0)) eqn:He.
    + apply same_node in He. subst s. split.
      * intros [= <-]. split; [reflexivity |]. intros k Hk. lia.
      * intros [Hl Hb]. destruct j as [| j]; [reflexivity |].
        exfalso. apply (Hb 0%nat); [lia | reflexivity].
    + assert (Hne : s <> {| ip := ip0; port := port0 |}).
      { intros Heq. apply same_node in Heq. congruence. }
      split.
      * destruct (find_slave ip0 port0 rest) as [j' |] eqn:Hr; [| discriminate].
        cbn. intros [= <-]. destruct (proj1 (IH j') eq_refl) as [Hl Hb].
        split; [exact Hl |]. intros [| k] Hk; cbn; [congruence |].
        apply Hb. lia.
      * intros [Hl Hb]. destruct j as [| j]; cbn in Hl; [congruence |].
        assert (Hj : first_slot_of {| ip := ip0; port := port0 |} rest j).
        { split; [exact Hl |]. intros k Hk. apply (Hb (S k)). lia. }
        apply IH in Hj. rewrite Hj. reflexivity.
Qed.

Lemma elem_first_slot (e : Node) (slaves0 : list Node) :
  e ∈ slaves0 -> exists j, first_slot_of e slaves0 j.
Proof.
  induction slaves0 as [| s rest IH]; intros Hin; [inversion Hin |].
  destruct (decide (s = e)) as [-> | Hne].
  - exists 0%nat. split; [reflexivity |]. intros k Hk. lia.
  - destruct IH as (j & Hl & Hb).
    { inversion Hin; subst; [congruence | assumption]. }
    exists (S j). split; [exact Hl |]. intros [| k] Hk; cbn; [congruence |].
    apply Hb. lia.
Qed.

Lemma lookup_removelast {A} (l : list A) (k : nat) :
  (k < length l - 1)%nat -> removelast l !! k = l !! k.
Proof.
  revert k. induction l as [| a l IH]; intros k Hk; [cbn in Hk; lia |].
  destruct l as [| b l]; [cbn in Hk; lia |].
  change (removelast (a :: b :: l)) with (a :: removelast (b :: l)).
  destruct k as [| k]; [reflexivity |].
  cbn [lookup list_lookup]. apply IH. cbn in *. lia.
Qed.

Lemma length_removelast {A} (l : list A) : length (removelast l) = (length l - 1)%nat.
Proof.
  induction l as [| a l IH]; [reflexivity |].
  destruct l as [| b l]; [reflexivity |].
  change (removelast (a :: b :: l)) with (a :: removelast (b :: l)).
  cbn [length] in *. rewrite IH. lia.
Qed.

Lemma OnNode_partition_orphan (ip0 : string) (port0 : Z) (p : Partitions) (j : nat) :
  master p = {| ip := ""; port := 0 |} ->
  first_slot_of {| ip := ip0; port := port0 |} (slaves p) j ->
  exists p', OnNode_partition ip0 port0 p = (p', true) /\
    master p' = {| ip := ip0; port := port0 |} /\
    length (slaves p') = (length (slaves p) - 1)%nat /\
    ((j < length (slaves p) - 1)%nat -> slaves p' !! j = last (slaves p)) /\
    (forall k, k <> j -> (k < length (slaves p) - 1)%nat -> slaves p' !! k = slaves p !! k).
Proof.
  intros Hm Hj. unfold OnNode_partition, is_orphaned. rewrite Hm. cbn [ip port].
  rewrite String.eqb_refl, Z.eqb_refl. cbn [andb].
  rewrite (proj2 (find_slave_Some ip0 port0 (slaves p) j) Hj).
  destruct Hj as [Hl _].
  eexists. split; [reflexivity |]. cbn [master slaves]. rewrite Hl. cbn [default].
  split; [reflexivity |].
  assert (Hlt : (j < length (slaves p))%nat) by (eapply lookup_lt_Some; exact Hl).
  split; [rewrite length_removelast, length_insert; reflexivity |]. split.
  - intros Hjl. rewrite lookup_removelast by (rewrite length_insert; exact Hjl).
    rewrite list_lookup_insert_eq by exact Hlt.
    rewrite last_lookup.
    replace (Init.Nat.pred (length (slaves p))) with (length (slaves p) - 1)%nat by lia.
    destruct (slaves p !! (length (slaves p) - 1)%nat) as [x |] eqn:Hx; [reflexivity |].
    apply lookup_ge_None in Hx. lia.
  - intros k Hk Hkl. rewrite lookup_removelast by (rewrite length_insert; exact Hkl).
    apply list_lookup_insert_ne. congruence.
Qed.

(** C3, as the code has it: [OnNode] of an endpoint that is a slave of a
    partition without master makes it the master of the partition and
    shortens the slaves by one; with [j] the first slot that held the
    endpoint, slot [j] takes the former last slave unless it was the last
    slot itself, and the other slots that remain keep their slaves. *)
Theorem OnNode_orphan_takes_slave (st st' : ZPMetaServer) (ip0 : string) (port0 : Z)
    (T : MetaCmdResponse_Pull) (i : nat) (P : Partitions) :
  kv (floyd_ st) !! ZP_META_KEY_MT = Some (SerializedPull T) ->
  info T !! i = Some P ->
  master P = {| ip := ""; port := 0 |} ->
  {| ip := ip0; port := port0 |} ∈ slaves P ->
  OnNode ip0 port0 st = (OK, st') ->
  exists T' P' j,
    kv (floyd_ st') !! ZP_META_KEY_MT = Some (SerializedPull T') /\
    info T' !! i = Some P' /\
    first_slot_of {| ip := ip0; port := port0 |} (slaves P) j /\
    master P' = {| ip := ip0; port := port0 |} /\
    length (slaves P') = (length (slaves P) - 1)%nat /\
    ((j < length (slaves P) - 1)%nat -> slaves P' !! j = last (slaves P)) /\
    (forall k, k <> j -> (k < length (slaves P) - 1)%nat -> slaves P' !! k = slaves P !! k).
Proof.
  intros Hmt Hi Hm Hin H.
  apply OnNode_OK in H as (T0 & info' & b & Hmt' & Hps & Hres).
  rewrite Hmt in Hmt'. injection Hmt' as <-.
  destruct (elem_first_slot _ _ Hin) as [j Hj].
  destruct (OnNode_partition_orphan ip0 port0 P j Hm Hj) as (P' & HP' & Hrest).
  destruct (OnNode_partitions_lookup _ _ _ _ _ _ _ Hps Hi) as [Hl Hb].
  rewrite HP' in Hl, Hb. cbn [fst snd] in Hl, Hb. rewrite (Hb eq_refl) in Hres.
  destruct Hres as [Hkv _].
  eexists _, P', j. split; [exact Hkv |]. split; [exact Hl |]. split; [exact Hj |].
  exact Hrest.
Qed.

Lemma OnNode_orphan_takes_slave_witness :
  exists T' P' j,
    kv (floyd_ (after (OnNode "10.0.0.2" 5000) all_off)) !! ZP_META_KEY_MT
      = Some (SerializedPull T') /\
    info T' !! 0%nat = Some P' /\
    first_slot_of host2 (slaves orphan) j /\
    master P' = host2 /\
    length (slaves P') = (length (slaves orphan) - 1)%nat /\
    ((j < length (slaves orphan) - 1)%nat -> slaves P' !! j = last (slaves orphan)) /\
    (forall k, k <> j -> (k < length (slaves orphan) - 1)%nat ->
               slaves P' !! k = slaves orphan !! k).
Proof.
  apply (OnNode_orphan_takes_slave all_off (after (OnNode "10.0.0.2" 5000) all_off)
           "10.0.0.2" 5000 {| version := 1; info := [orphan] |} 0 orphan).
  - vm_compute. reflexivity.
  - reflexivity.
  - reflexivity.
  - left.
  - vm_compute. reflexivity.
Defined.

(** Against C3 as stated: [OnNode] of the former master, which sits in the
    last slot. The slot is removed, and no slave is moved into it. *)
Lemma OnNode_last_slot_is_dropped :
  kv (floyd_ all_off) !! ZP_META_KEY_MT
    = Some (SerializedPull {| version := 1; info := [orphan] |}) /\
  slaves orphan !! 2%nat = Some host1 /\
  last (slaves orphan) = Some host1 /\
  exists st' P',
    OnNode "10.0.0.1" 5000 all_off = (OK, st') /\
    kv (floyd_ st') !! ZP_META_KEY_MT
      = Some (SerializedPull {| version := 2; info := [P'] |}) /\
    master P' = host1 /\
    slaves P' !! 2%nat = None.
Proof.
  split; [vm_compute; reflexivity |]. split; [reflexivity |]. split; [reflexivity |].
  exists (after (OnNode "10.0.0.1" 5000) all_off),
    {| id := 0; master := host1; slaves := [host2; host3] |}.
  split; [vm_compute; reflexivity |]. split; [vm_compute; reflexivity |].
  split; reflexivity.
Qed.

(** ** Reorganize on hosts with different numbers of nodes *)

(** C4 fails on the code: [empty_count] is not reset between the rounds, so
    the bucket of the second host, empty from the second round on, is counted
    once in each of the second and third rounds; the count then equals the
    number of buckets and the loop stops, while the first node of the first
    host is still in its bucket. *)
Theorem Reorganize_leaves_a_node_out :
  forall k : nat,
    Reorganize (3 + k) uneven_hosts [] =
      Some [ on_host "10.0.0.1" 5003; on_host "10.0.0.2" 5000;
             on_host "10.0.0.1" 5002; on_host "10.0.0.1" 5001 ] /\
    on_host "10.0.0.1" 5000 ∈ uneven_hosts /\
    on_host "10.0.0.1" 5000 ∉
      [ on_host "10.0.0.1" 5003; on_host "10.0.0.2" 5000;
        on_host "10.0.0.1" 5002; on_host "10.0.0.1" 5001 ].
Proof.
  intros k. split; [destruct k; vm_compute; reflexivity |]. split; [left |].
  intros Hin. repeat (apply elem_of_cons in Hin as [Hin | Hin]; [discriminate |]).
  inversion Hin.
Qed.

(** ** Distribute when the write of the table fails *)

(** C7 fails on the code: after the failed write of [MT], [Distribute] goes
    on to write [PN] and returns [OK]; the cached version is not advanced,
    and the store holds the partition number without a table. *)
Theorem Distribute_goes_on_after_failed_MT_write :
  exists st' table rest,
    Distribute 3 1 MT_write_fails = Returns OK st' /\
    journal (floyd_ st') =
      {| w_key := ZP_META_KEY_PN; w_value := Str "1"; w_committed := true |} ::
      {| w_key := ZP_META_KEY_MT; w_value := SerializedPull table; w_committed := false |} ::
      rest /\
    kv (floyd_ st') !! ZP_META_KEY_MT = None /\
    kv (floyd_ st') !! ZP_META_KEY_PN = Some (Str "1") /\
    version_ st' = version_ MT_write_fails.
Proof.
  exists (after_Distribute 3 1 MT_write_fails).
  eexists. eexists.
  split; [vm_compute; reflexivity |].
  split; [vm_compute; reflexivity |].
  split; [vm_compute; reflexivity |].
  split; vm_compute; reflexivity.
Qed.

(** ** [std::stoi] reads back what [std::to_string] prints *)

Lemma digit_char_is_digit (d : Z) :
  0 <= d < 10 -> is_digit (digit_char d) = true /\ digit_val (digit_char d) = d.
Proof.
  intros Hd.
  assert (Hcases : d = 0 \/ d = 1 \/ d = 2 \/ d = 3 \/ d = 4 \/ d = 5 \/ d = 6 \/ d = 7 \/
                   d = 8 \/ d = 9) by lia.
  repeat (destruct Hcases as [-> | Hcases]; [split; reflexivity |]).
  subst. split; reflexivity.
Qed.

Lemma digit_not_space (c : ascii) : is_digit c = true -> isspace c = false.
Proof.
  destruct c as [b0 b1 b2 b3 b4 b5 b6 b7].
  destruct b0, b1, b2, b3, b4, b5, b6, b7; vm_compute; congruence.
Qed.

Lemma digit_not_sign (c : ascii) (r : string) :
  is_digit c = true -> split_sign (String c r) = (false, String c r).
Proof.
  destruct c as [b0 b1 b2 b3 b4 b5 b6 b7].
  destruct b0, b1, b2, b3, b4, b5, b6, b7; intros H; try reflexivity;
    vm_compute in H; discriminate.
Qed.

Lemma to_digits_read_back (fuel : nat) :
  forall (n : Z) (acc : string),
    (0 < fuel)%nat -> 0 <= n < 10 ^ Z.of_nat fuel ->
    starts_with_digit (to_digits fuel n acc) = true /\
    exists k, 0 <= k /\
      forall a, stoi_digits (to_digits fuel n acc) a = stoi_digits acc (a * 10 ^ k + n).
Proof.
  induction fuel as [| fuel IH]; intros n acc Hfuel Hn; [lia |].
  cbn [to_digits].
  destruct (Z.ltb_spec n 10) as [Hlt | Hge].
  - destruct (digit_char_is_digit (n mod 10)) as [Hd Hv]; [apply Z.mod_pos_bound; lia |].
    cbn [starts_with_digit]. split; [exact Hd |].
    exists 1. split; [lia |]. intros a. cbn [stoi_digits]. rewrite Hd, Hv.
    rewrite Z.mod_small by lia. f_equal.
  - destruct fuel as [| fuel'].
    { cbn in Hn. lia. }
    destruct (digit_char_is_digit (n mod 10)) as [Hd Hv]; [apply Z.mod_pos_bound; lia |].
    destruct (IH (n / 10) (String (digit_char (n mod 10)) acc)) as [Hs (k & Hk & Hread)].
    + lia.
    + split; [apply Z.div_pos; lia |].
      apply Z.div_lt_upper_bound; [lia |].
      replace (Z.of_nat (S (S fuel'))) with (Z.succ (Z.of_nat (S fuel'))) in Hn by lia.
      rewrite Z.pow_succ_r in Hn by lia. lia.
    + split; [exact Hs |].
      exists (k + 1). split; [lia |]. intros a. rewrite Hread.
      cbn [stoi_digits]. rewrite Hd, Hv. f_equal.
      rewrite Z.pow_add_r by lia. rewrite Z.pow_1_r.
      pose proof (Z.div_mod n 10 ltac:(lia)) as Hdm. lia.
Qed.

Lemma stoi_to_digits (n : Z) :
  0 <= n < 10 ^ 20 ->
  starts_with_digit (to_digits 20 n "") = true /\ stoi_digits (to_digits 20 n "") 0 = n.
Proof.
  intros Hn. destruct (to_digits_read_back 20 n "") as [Hs (k & Hk & Hread)]; [lia | exact Hn |].
  split; [exact Hs |]. rewrite Hread. cbn [stoi_digits]. lia.
Qed.

Lemma stoi_to_string (n : Z) : is_int n -> stoi (to_string n) = Some n.
Proof.
  unfold is_int, INT_MIN, INT_MAX. intros Hn. unfold to_string, stoi.
  destruct (Z.ltb_spec n 0) as [Hneg | Hpos].
  - destruct (stoi_to_digits (- n)) as [Hs Hv]; [lia |].
    change (skip_spaces (String "-" ?r)) with (String "-" r).
    cbn [split_sign]. rewrite Hs, Hv.
    replace (- - n) with n by lia.
    destruct (Z.leb_spec INT_MIN n), (Z.leb_spec n INT_MAX);
      unfold INT_MIN, INT_MAX in *; try lia. reflexivity.
  - destruct (stoi_to_digits n) as [Hs Hv]; [lia |].
    destruct (to_digits 20 n "") as [| c r] eqn:Hd; [discriminate |].
    cbn [starts_with_digit] in Hs.
    cbn [skip_spaces]. rewrite (digit_not_space c Hs), (digit_not_sign c r Hs).
    cbn [starts_with_digit]. rewrite Hs, Hv.
    destruct (Z.leb_spec INT_MIN n), (Z.leb_spec n INT_MAX);
      unfold INT_MIN, INT_MAX in *; try lia. reflexivity.
Qed.

(** ** Runs in which no call of floyd fails *)

Lemma floyd_Write_no_faults (key : string) (value : Value) (st : ZPMetaServer) :
  script (floyd_ st) = [] -> floyd_Write key value st = (floyd_Ok, stored key value st).
Proof.
  intros Hs. unfold floyd_Write, Floyd_Write, next_outcome, stored. rewrite Hs. reflexivity.
Qed.

Lemma Set_no_faults (key : string) (value : Value) (st : ZPMetaServer) :
  script (floyd_ st) = [] -> Set' key value st = (OK, stored key value st).
Proof.
  intros Hs. unfold Set', bind. rewrite (floyd_Write_no_faults _ _ _ Hs). reflexivity.
Qed.

Lemma read_leaves_state (st : ZPMetaServer) :
  script (floyd_ st) = [] ->
  with_floyd {| kv := kv (floyd_ st); script := tl (script (floyd_ st));
                journal := journal (floyd_ st) |} st = st.
Proof.
  destruct st as [[k s j] v na ut]. cbn. intros ->. reflexivity.
Qed.

Lemma floyd_DirtyRead_no_faults (key : string) (st : ZPMetaServer) :
  script (floyd_ st) = [] ->
  floyd_DirtyRead key st =
    (match kv (floyd_ st) !! key with
     | Some v => (floyd_Ok, v)
     | None => (floyd_NotFound, Str "")
     end, st).
Proof.
  intros Hs. unfold floyd_DirtyRead, Floyd_DirtyRead, next_outcome.
  cbn [kv]. pose proof (read_leaves_state st Hs) as Hst. rewrite Hs in *. cbn [hd] in *.
  destruct (kv (floyd_ st) !! key); rewrite Hst; reflexivity.
Qed.

Lemma floyd_Read_no_faults (key : string) (st : ZPMetaServer) :
  script (floyd_ st) = [] ->
  floyd_Read key st =
    (match kv (floyd_ st) !! key with
     | Some v => (floyd_Ok, v)
     | None => (floyd_Ok, Str "")
     end, st).
Proof.
  intros Hs. unfold floyd_Read, Floyd_Read, next_outcome.
  cbn [kv]. pose proof (read_leaves_state st Hs) as Hst. rewrite Hs in *. cbn [hd] in *.
  destruct (kv (floyd_ st) !! key); rewrite Hst; reflexivity.
Qed.

Lemma GetAllNode_no_faults (nodes : Nodes) (st : ZPMetaServer) :
  script (floyd_ st) = [] ->
  kv (floyd_ st) !! ZP_META_KEY_ND = Some (SerializedNodes nodes) ->
  GetAllNode st = ((OK, nodes), st).
Proof.
  intros Hs Hnd. unfold GetAllNode, bind.
  rewrite (floyd_DirtyRead_no_faults _ _ Hs), Hnd. reflexivity.
Qed.

Lemma GetMSInfo_no_faults (T : MetaCmdResponse_Pull) (st : ZPMetaServer) :
  script (floyd_ st) = [] ->
  kv (floyd_ st) !! ZP_META_KEY_MT = Some (SerializedPull T) ->
  GetMSInfo st = ((OK, T), st).
Proof.
  intros Hs Hmt. unfold GetMSInfo, bind.
  rewrite (floyd_DirtyRead_no_faults _ _ Hs), Hmt. reflexivity.
Qed.

Lemma Distribute_partitions_no_faults (count : nat) (alive_nodes : list NodeStatus) (an_num : Z) :
  forall (i : Z) (ms_info : MetaCmdResponse_Pull) (st : ZPMetaServer),
    script (floyd_ st) = [] ->
    Distribute_partitions count i alive_nodes an_num ms_info st =
      ((OK, {| version := version ms_info;
               info := app (info ms_info) (Distribute_layout count i alive_nodes an_num) |}),
       Distribute_stored count i alive_nodes an_num st).
Proof.
  induction count as [| count IH]; intros i ms_info st Hs.
  - cbn. unfold ret. rewrite app_nil_r. destruct ms_info; reflexivity.
  - cbn [Distribute_partitions Distribute_layout Distribute_stored].
    unfold bind, SetReplicaset. rewrite (Set_no_faults _ _ _ Hs). cbn [ok negb].
    rewrite IH by reflexivity. cbn [version info]. unfold push_back.
    rewrite <- app_assoc. reflexivity.
Qed.

Lemma Distribute_stored_frame (count : nat) (alive_nodes : list NodeStatus) (an_num : Z) :
  forall (i : Z) (st : ZPMetaServer),
    script (floyd_ st) = [] ->
    let st' := Distribute_stored count i alive_nodes an_num st in
    script (floyd_ st') = [] /\ version_ st' = version_ st /\
    node_alive_ st' = node_alive_ st /\ update_thread_ st' = update_thread_ st /\
    forall key, (forall j, key <> PartitionId2Key j) ->
                kv (floyd_ st') !! key = kv (floyd_ st) !! key.
Proof.
  induction count as [| count IH]; intros i st Hs.
  - cbn. repeat split; auto.
  - cbn [Distribute_stored]. cbv zeta.
    destruct (IH (i + 1)
                (stored (PartitionId2Key i)
                   (SerializedReplicaset (replicaset_at alive_nodes an_num i)) st) eq_refl)
      as (Hs' & Hv & Hna & Hut & Hkv).
    split; [exact Hs' |]. split; [exact Hv |]. split; [exact Hna |]. split; [exact Hut |].
    intros key Hkey. rewrite (Hkv key Hkey). cbn [stored with_floyd floyd_ kv].
    apply lookup_insert_ne. intros Heq. exact (Hkey i (eq_sym Heq)).
Qed.

Lemma Distribute_place_no_faults (num : Z) (alive_nodes : list NodeStatus) (st : ZPMetaServer) :
  script (floyd_ st) = [] ->
  Distribute_place num alive_nodes st = (OK, placed num alive_nodes st).
Proof.
  intros Hs. unfold Distribute_place, bind.
  rewrite (Distribute_partitions_no_faults _ _ _ _ _ _ Hs). cbn [ok negb info version app].
  destruct (Distribute_stored_frame (Z.to_nat num) alive_nodes
              (wrap32 (Z.of_nat (length alive_nodes))) 0 st Hs) as (Hs' & Hv & _).
  unfold get_version, SetMSInfo, set_table_version. cbn [version info].
  rewrite (Set_no_faults _ _ _ Hs'). cbn [ok]. unfold set_version.
  rewrite floyd_Write_no_faults by reflexivity. cbn [floyd_ok]. unfold ret, placed.
  rewrite Hv. reflexivity.
Qed.

Lemma placed_frame (num : Z) (alive_nodes : list NodeStatus) (st : ZPMetaServer) :
  script (floyd_ st) = [] ->
  let st' := placed num alive_nodes st in
  script (floyd_ st') = [] /\
  version_ st' = wrap64 (version_ st + 1) /\
  kv (floyd_ st') !! ZP_META_KEY_PN = Some (Str (to_string num)) /\
  kv (floyd_ st') !! ZP_META_KEY_MT =
    Some (SerializedPull
            {| version := wrap64 (version_ st + 1);
               info := Distribute_layout (Z.to_nat num) 0 alive_nodes
                         (wrap32 (Z.of_nat (length alive_nodes))) |}) /\
  kv (floyd_ st') !! ZP_META_KEY_ND = kv (floyd_ st) !! ZP_META_KEY_ND.
Proof.
  intros Hs. cbv zeta. unfold placed. cbn [stored with_floyd with_version floyd_ kv script version_].
  destruct (Distribute_stored_frame (Z.to_nat num) alive_nodes
              (wrap32 (Z.of_nat (length alive_nodes))) 0 st Hs) as (_ & _ & _ & _ & Hkv).
  split; [reflexivity |]. split; [reflexivity |].
  split; [apply lookup_insert_eq |].
  split; [rewrite lookup_insert_ne by discriminate; apply lookup_insert_eq |].
  rewrite !lookup_insert_ne by discriminate.
  apply Hkv. intros j Heq. symmetry in Heq. exact (PartitionId2Key_not_ND j Heq).
Qed.

Lemma PartitionNums_no_faults (st : ZPMetaServer) :
  script (floyd_ st) = [] ->
  PartitionNums st =
    match kv (floyd_ st) !! ZP_META_KEY_PN with
    | Some (Str s) => match stoi s with Some n => Returns n st | None => Throws end
    | Some _ => Throws
    | None => Returns 0 st
    end.
Proof.
  intros Hs. unfold PartitionNums. rewrite (floyd_DirtyRead_no_faults _ _ Hs).
  destruct (kv (floyd_ st) !! ZP_META_KEY_PN) as [[s | | |] |]; reflexivity.
Qed.

Lemma Distribute_nodes_no_faults (fuel : nat) (num : Z) (nodes : Nodes)
    (alive_nodes : list NodeStatus) (st : ZPMetaServer) :
  script (floyd_ st) = [] ->
  kv (floyd_ st) !! ZP_META_KEY_ND = Some (SerializedNodes nodes) ->
  GetAllAliveNode nodes <> [] ->
  Reorganize fuel (GetAllAliveNode nodes) [] = Some alive_nodes ->
  Distribute_nodes fuel num st = Returns OK (placed num alive_nodes st).
Proof.
  intros Hs Hnd Hne Hre. unfold Distribute_nodes.
  rewrite (GetAllNode_no_faults _ _ Hs Hnd). cbn [ok negb].
  destruct (GetAllAliveNode nodes) as [| a l] eqn:Ha; [congruence |].
  rewrite Hre, (Distribute_place_no_faults _ _ _ Hs). reflexivity.
Qed.

(** ** Distribute, once and again *)

Lemma Distribute_already (fuel : nat) (num n : Z) (st : ZPMetaServer) :
  script (floyd_ st) = [] ->
  kv (floyd_ st) !! ZP_META_KEY_PN = Some (Str (to_string n)) ->
  is_int n -> n <> 0 ->
  Distribute fuel num st = Returns (Corruption "Already Distribute") st.
Proof.
  intros Hs Hpn Hn Hn0. unfold Distribute.
  rewrite (PartitionNums_no_faults _ Hs), Hpn, (stoi_to_string _ Hn).
  destruct (Z.eqb_spec n 0) as [-> | _]; [congruence | reflexivity].
Qed.

Lemma Distribute_calls_already (later : list (nat * Z)) (n : Z) (st : ZPMetaServer) :
  script (floyd_ st) = [] ->
  kv (floyd_ st) !! ZP_META_KEY_PN = Some (Str (to_string n)) ->
  is_int n -> n <> 0 ->
  Distribute_calls later st =
    Returns (map (fun _ => Corruption "Already Distribute") later) st.
Proof.
  intros Hs Hpn Hn Hn0. induction later as [| [fuel num] later IH]; [reflexivity |].
  cbn [Distribute_calls map]. rewrite (Distribute_already fuel num n st Hs Hpn Hn Hn0), IH.
  reflexivity.
Qed.

Lemma PartitionNums_not_distributed (st : ZPMetaServer) :
  script (floyd_ st) = [] ->
  kv (floyd_ st) !! ZP_META_KEY_PN = None \/
  kv (floyd_ st) !! ZP_META_KEY_PN = Some (Str "0") ->
  PartitionNums st = Returns 0 st.
Proof.
  intros Hs [Hpn | Hpn]; rewrite (PartitionNums_no_faults _ Hs), Hpn; reflexivity.
Qed.

(** C5, as the code has it: on a store whose calls all go through, with no
    partition number yet or ["0"] under [PN], a nodes table with at least
    one node up on which [Reorganize] comes to an end, and [num] other than
    0, the first
    [Distribute] returns [OK] and leaves [num] under [PN], and every later
    call returns [Corruption] and leaves the state as it is. When no node is
    up, [Distribute] returns [Corruption "no nodes"] over a nodes table, and
    [NotFound] when no nodes table has been written. *)
Theorem Distribute_first_then_rejected :
  (forall (st : ZPMetaServer) (fuel : nat) (num : Z) (nodes : Nodes)
          (alive_nodes : list NodeStatus),
     script (floyd_ st) = [] ->
     kv (floyd_ st) !! ZP_META_KEY_PN = None \/
     kv (floyd_ st) !! ZP_META_KEY_PN = Some (Str "0") ->
     kv (floyd_ st) !! ZP_META_KEY_ND = Some (SerializedNodes nodes) ->
     GetAllAliveNode nodes <> [] ->
     Reorganize fuel (GetAllAliveNode nodes) [] = Some alive_nodes ->
     is_int num -> num <> 0 ->
     exists st1,
       Distribute fuel num st = Returns OK st1 /\
       kv (floyd_ st1) !! ZP_META_KEY_PN = Some (Str (to_string num)) /\
       stoi (to_string num) = Some num /\
       forall later : list (nat * Z),
         Distribute_calls later st1 =
           Returns (map (fun _ => Corruption "Already Distribute") later) st1) /\
  (forall (st : ZPMetaServer) (fuel : nat) (num : Z) (nodes : Nodes),
     script (floyd_ st) = [] ->
     kv (floyd_ st) !! ZP_META_KEY_PN = None \/
     kv (floyd_ st) !! ZP_META_KEY_PN = Some (Str "0") ->
     kv (floyd_ st) !! ZP_META_KEY_ND = Some (SerializedNodes nodes) ->
     GetAllAliveNode nodes = [] ->
     Distribute fuel num st = Returns (Corruption "no nodes") st) /\
  (forall (st : ZPMetaServer) (fuel : nat) (num : Z),
     script (floyd_ st) = [] ->
     kv (floyd_ st) !! ZP_META_KEY_PN = None \/
     kv (floyd_ st) !! ZP_META_KEY_PN = Some (Str "0") ->
     kv (floyd_ st) !! ZP_META_KEY_ND = None ->
     Distribute fuel num st = Returns (NotFound "not found from floyd") st).
Proof.
  split; [| split].
  - intros st fuel num nodes alive_nodes Hs Hpn Hnd Hne Hre Hnum Hnum0.
    exists (placed num alive_nodes st).
    destruct (placed_frame num alive_nodes st Hs) as (Hs1 & _ & Hpn1 & _).
    split.
    + unfold Distribute. rewrite (PartitionNums_not_distributed _ Hs Hpn). cbn [negb Z.eqb].
      apply (Distribute_nodes_no_faults fuel num nodes alive_nodes st Hs Hnd Hne Hre).
    + split; [exact Hpn1 |]. split; [apply stoi_to_string; exact Hnum |].
      intros later. apply (Distribute_calls_already later num _ Hs1 Hpn1 Hnum Hnum0).
  - intros st fuel num nodes Hs Hpn Hnd Hnone.
    unfold Distribute. rewrite (PartitionNums_not_distributed _ Hs Hpn). cbn [negb Z.eqb].
    unfold Distribute_nodes. rewrite (GetAllNode_no_faults _ _ Hs Hnd). cbn [ok negb].
    rewrite Hnone. reflexivity.
  - intros st fuel num Hs Hpn Hnd.
    unfold Distribute. rewrite (PartitionNums_not_distributed _ Hs Hpn). cbn [negb Z.eqb].
    unfold Distribute_nodes, GetAllNode, bind.
    rewrite (floyd_DirtyRead_no_faults _ _ Hs), Hnd. reflexivity.
Qed.

Lemma Distribute_first_then_rejected_witness :
  (exists st1,
     Distribute 3 4 three_hosts = Returns OK st1 /\
     kv (floyd_ st1) !! ZP_META_KEY_PN = Some (Str (to_string 4)) /\
     stoi (to_string 4) = Some 4 /\
     forall later : list (nat * Z),
       Distribute_calls later st1 =
         Returns (map (fun _ => Corruption "Already Distribute") later) st1) /\
  Distribute 3 4 one_host_off = Returns (Corruption "no nodes") one_host_off /\
  Distribute 3 4 fresh = Returns (NotFound "not found from floyd") fresh.
Proof.
  split; [| split].
  - apply (proj1 Distribute_first_then_rejected three_hosts 3%nat 4 all_up all_up).
    + vm_compute. reflexivity.
    + left. vm_compute. reflexivity.
    + vm_compute. reflexivity.
    + discriminate.
    + vm_compute. reflexivity.
    + unfold is_int, INT_MIN, INT_MAX. lia.
    + discriminate.
  - apply (proj1 (proj2 Distribute_first_then_rejected) one_host_off 3%nat 4
             [ {| node := host1; status := kNodeDown |} ]).
    + vm_compute. reflexivity.
    + left. vm_compute. reflexivity.
    + vm_compute. reflexivity.
    + reflexivity.
  - apply (proj2 (proj2 Distribute_first_then_rejected) fresh 3%nat 4).
    + vm_compute. reflexivity.
    + left. vm_compute. reflexivity.
    + vm_compute. reflexivity.
Defined.

(** Against C5 as stated. [Distribute 0] leaves ["0"] under [PN], which
    [PartitionNums] reads as not distributed; the next call is not rejected,
    and writes the table again. On a fresh cluster no node is up and
    [Distribute] returns the [NotFound] of [GetAllNode], not
    [Corruption "no nodes"]; once the partitions are distributed it returns
    [Corruption "Already Distribute"] also when every node has been taken
    off. And a first call whose write of [PN] fails returns [Corruption] and
    is followed by a call that succeeds. *)
Lemma Distribute_not_as_stated :
  (exists st1 st2 T,
     Distribute 3 0 three_hosts = Returns OK st1 /\
     kv (floyd_ st1) !! ZP_META_KEY_PN = Some (Str "0") /\
     version_ st1 = 0 /\
     Distribute 3 4 st1 = Returns OK st2 /\
     kv (floyd_ st2) !! ZP_META_KEY_MT = Some (SerializedPull T) /\
     version T = 1 /\ length (info T) = 4%nat) /\
  (kv (floyd_ fresh) !! ZP_META_KEY_ND = None /\
   fst (GetAllNode fresh) = (NotFound "not found from floyd", []) /\
   Distribute 3 4 fresh = Returns (NotFound "not found from floyd") fresh) /\
  (exists nodes,
     kv (floyd_ all_off) !! ZP_META_KEY_ND = Some (SerializedNodes nodes) /\
     GetAllAliveNode nodes = [] /\
     Distribute 3 4 all_off = Returns (Corruption "Already Distribute") all_off) /\
  (exists st1 st2,
     Distribute 3 1 PN_write_fails = Returns (Corruption "floyd set error!") st1 /\
     kv (floyd_ st1) !! ZP_META_KEY_PN = None /\
     Distribute 3 4 st1 = Returns OK st2 /\
     kv (floyd_ st2) !! ZP_META_KEY_PN = Some (Str "4")).
Proof.
  split; [| split; [| split]].
  - exists (after_Distribute 3 0 three_hosts),
      (after_Distribute 3 4 (after_Distribute 3 0 three_hosts)).
    eexists.
    split; [vm_compute; reflexivity |]. split; [vm_compute; reflexivity |].
    split; [vm_compute; reflexivity |]. split; [vm_compute; reflexivity |].
    split; [vm_compute; reflexivity |]. split; reflexivity.
  - split; [vm_compute; reflexivity |]. split; vm_compute; reflexivity.
  - eexists. split; [vm_compute; reflexivity |]. split; vm_compute; reflexivity.
  - exists (after_Distribute 3 1 PN_write_fails),
      (after_Distribute 3 4 (after_Distribute 3 1 PN_write_fails)).
    split; [vm_compute; reflexivity |]. split; [vm_compute; reflexivity |].
    split; vm_compute; reflexivity.
Qed.

(** ** The first Distribute on a fresh cluster *)

Lemma InitVersion_fresh (st : ZPMetaServer) :
  script (floyd_ st) = [] ->
  kv (floyd_ st) !! ZP_META_KEY_MT = None ->
  InitVersion st = (OK, with_version (-1) st).
Proof.
  intros Hs Hmt. unfold InitVersion. rewrite Hs. cbn [InitVersion_loop].
  rewrite (floyd_Read_no_faults _ _ Hs), Hmt. reflexivity.
Qed.

(** Three nodes on three hosts all come out of [Reorganize], each once,
    after two rounds. *)
Lemma Reorganize_three_hosts (n1 n2 n3 : Node) (k : nat) :
  ip n1 <> ip n2 -> ip n1 <> ip n3 -> ip n2 <> ip n3 ->
  exists x y z,
    Reorganize (2 + k) [up n1; up n2; up n3] [] = Some [up x; up y; up z] /\
    NoDup [x; y; z] /\ Forall (fun n => n ∈ [n1; n2; n3]) [x; y; z].
Proof.
  intros H12 H13 H23.
  assert (Hn12 : n1 <> n2) by congruence.
  assert (Hn13 : n1 <> n3) by congruence.
  assert (Hn23 : n2 <> n3) by congruence.
  assert (E21 : String.eqb (ip n2) (ip n1) = false) by (apply String.eqb_neq; congruence).
  assert (E31 : String.eqb (ip n3) (ip n1) = false) by (apply String.eqb_neq; congruence).
  assert (E32 : String.eqb (ip n3) (ip n2) = false) by (apply String.eqb_neq; congruence).
  assert (E12 : String.eqb (ip n1) (ip n2) = false) by (apply String.eqb_neq; congruence).
  assert (E13 : String.eqb (ip n1) (ip n3) = false) by (apply String.eqb_neq; congruence).
  assert (E23 : String.eqb (ip n2) (ip n3) = false) by (apply String.eqb_neq; congruence).
  unfold Reorganize. cbn [fold_left]. unfold Reorganize_bucket.
  cbn [StdMap.find StdMap.assign up node ip].
  rewrite ?E21, ?E31, ?E32, ?E12, ?E13, ?E23.
  destruct (String.ltb (ip n2) (ip n1));
    cbn [StdMap.find StdMap.assign]; rewrite ?E21, ?E31, ?E32, ?E12, ?E13, ?E23;
    destruct (String.ltb (ip n3) (ip n1)); destruct (String.ltb (ip n3) (ip n2));
    cbn [StdMap.find StdMap.assign]; rewrite ?E21, ?E31, ?E32, ?E12, ?E13, ?E23.
  all: destruct k; do 3 eexists; (split; [vm_compute; reflexivity |]).
  all: split; [| repeat constructor].
  all: repeat constructor; rewrite ?elem_of_cons, ?elem_of_nil; intuition congruence.
Qed.

(** C6, as the code has it: on a fresh cluster, where [InitVersion] reads
    nothing under [MT] and caches version -1, with three nodes up on three
    hosts, [Distribute 4] returns [OK], leaves ["4"] under [PN] and a table
    of version 0 with partitions 0 to 3, each with a master and two slaves
    that are three different nodes among the three. *)
Theorem first_Distribute_on_three_hosts (st : ZPMetaServer) (n1 n2 n3 : Node) (k : nat) :
  script (floyd_ st) = [] ->
  kv (floyd_ st) !! ZP_META_KEY_MT = None ->
  kv (floyd_ st) !! ZP_META_KEY_PN = None ->
  kv (floyd_ st) !! ZP_META_KEY_ND = Some (SerializedNodes [up n1; up n2; up n3]) ->
  ip n1 <> ip n2 -> ip n1 <> ip n3 -> ip n2 <> ip n3 ->
  exists st' T,
    Distribute (2 + k) 4 (after InitVersion st) = Returns OK st' /\
    kv (floyd_ st') !! ZP_META_KEY_PN = Some (Str "4") /\
    kv (floyd_ st') !! ZP_META_KEY_MT = Some (SerializedPull T) /\
    version T = 0 /\
    version_ st' = 0 /\
    map id (info T) = [0; 1; 2; 3] /\
    Forall (spread_over [n1; n2; n3]) (info T).
Proof.
  intros Hs Hmt Hpn Hnd H12 H13 H23.
  unfold after. rewrite (InitVersion_fresh st Hs Hmt). cbn [snd].
  set (st0 := with_version (-1) st).
  assert (Hs0 : script (floyd_ st0) = []) by exact Hs.
  destruct (Reorganize_three_hosts n1 n2 n3 k H12 H13 H23) as (x & y & z & Hre & Hnd3 & Hin3).
  exists (placed 4 [up x; up y; up z] st0).
  destruct (placed_frame 4 [up x; up y; up z] st0 Hs0) as (_ & Hv & Hpn' & Hmt' & _).
  eexists. split.
  - unfold Distribute. rewrite (PartitionNums_no_faults _ Hs0).
    change (kv (floyd_ st0)) with (kv (floyd_ st)). rewrite Hpn. cbn [negb Z.eqb].
    apply (Distribute_nodes_no_faults (2 + k) 4 [up n1; up n2; up n3] [up x; up y; up z] st0 Hs0).
    + exact Hnd.
    + discriminate.
    + exact Hre.
  - split; [exact Hpn' |]. split; [exact Hmt' |].
    split; [reflexivity |]. split; [exact Hv |]. split; [reflexivity |].
    apply NoDup_cons in Hnd3 as [Hx Hnd2]. apply NoDup_cons in Hnd2 as [Hy _].
    rewrite !elem_of_cons, elem_of_nil in Hx. rewrite !elem_of_cons, elem_of_nil in Hy.
    inversion Hin3 as [| ? ? Hix Hin2]; subst. inversion Hin2 as [| ? ? Hiy Hin1]; subst.
    inversion Hin1 as [| ? ? Hiz _]; subst.
    vm_compute Distribute_layout.
    repeat apply Forall_cons_2; try apply Forall_nil_2.
    all: eexists _, _; split; [reflexivity |]; cbn [master]; split;
      [ repeat constructor; rewrite ?elem_of_cons, ?elem_of_nil; intuition congruence
      | repeat apply Forall_cons_2; try apply Forall_nil_2; assumption ].
Qed.

Lemma first_Distribute_on_three_hosts_witness :
  exists st' T,
    Distribute (2 + 1) 4 (after InitVersion three_hosts) = Returns OK st' /\
    kv (floyd_ st') !! ZP_META_KEY_PN = Some (Str "4") /\
    kv (floyd_ st') !! ZP_META_KEY_MT = Some (SerializedPull T) /\
    version T = 0 /\
    version_ st' = 0 /\
    map id (info T) = [0; 1; 2; 3] /\
    Forall (spread_over [host1; host2; host3]) (info T).
Proof.
  apply (first_Distribute_on_three_hosts three_hosts host1 host2 host3 1).
  - vm_compute. reflexivity.
  - vm_compute. reflexivity.
  - vm_compute. reflexivity.
  - vm_compute. reflexivity.
  - discriminate.
  - discriminate.
  - discriminate.
Defined.

(** Against C6 as stated: the first table has version 0, not 1. The version
    cached on a fresh cluster is -1, and the table takes the cached version
    plus one. *)
Lemma first_table_has_version_zero :
  version_ fresh = -1 /\
  kv (floyd_ three_hosts) !! ZP_META_KEY_MT = None /\
  version_ three_hosts = -1 /\
  exists st',
    Distribute 3 4 three_hosts = Returns OK st' /\
    kv (floyd_ st') !! ZP_META_KEY_PN = Some (Str "4") /\
    kv (floyd_ st') !! ZP_META_KEY_MT = Some (SerializedPull four_partitions_table) /\
    version four_partitions_table = 0 /\
    version four_partitions_table <> 1.
Proof.
  split; [vm_compute; reflexivity |]. split; [vm_compute; reflexivity |].
  split; [vm_compute; reflexivity |].
  exists four_partitions.
  split; [vm_compute; reflexivity |]. split; [vm_compute; reflexivity |].
  split; [vm_compute; reflexivity |]. split; [reflexivity | discriminate].
Qed.

(** ** The liveness map and the nodes table *)

Lemma keys_assign {V} (k0 k : string) (v : V) (m : StdMap.t V) :
  k ∈ StdMap.keys (StdMap.assign k0 v m) -> k = k0 \/ k ∈ StdMap.keys m.
Proof.
  unfold StdMap.keys. induction m as [| [k' v'] m IH]; cbn [StdMap.assign map fst].
  - intros Hin. apply elem_of_cons in Hin as [-> | Hin]; [left; reflexivity | inversion Hin].
  - destruct (String.eqb_spec k0 k') as [-> | Hne].
    + cbn [map fst]. intros Hin. right. exact Hin.
    + destruct (String.ltb k0 k'); cbn [map fst]; intros Hin.
      * apply elem_of_cons in Hin as [-> | Hin]; [left; reflexivity | right; exact Hin].
      * apply elem_of_cons in Hin as [-> | Hin]; [right; left |].
        destruct (IH Hin) as [-> | Hin']; [left; reflexivity | right; right; exact Hin'].
Qed.

Lemma keys_erase {V} (k0 k : string) (m : StdMap.t V) :
  k ∈ StdMap.keys (StdMap.erase k0 m) -> k ∈ StdMap.keys m.
Proof.
  unfold StdMap.keys. induction m as [| [k' v'] m IH]; cbn [StdMap.erase map fst]; [auto |].
  destruct (String.eqb k0 k'); cbn [map fst]; intros Hin.
  - right. exact Hin.
  - apply elem_of_cons in Hin as [-> | Hin]; [left | right; apply IH; exact Hin].
Qed.

Lemma same_endpoint_eq (ip0 : string) (port0 : Z) (n : Node) :
  same_endpoint ip0 port0 n = true <-> n = {| ip := ip0; port := port0 |}.
Proof.
  unfold same_endpoint. destruct n as [ni np]. cbn.
  rewrite andb_true_iff, String.eqb_eq, Z.eqb_eq.
  split; [intros [-> ->]; reflexivity | intros [= -> ->]; split; reflexivity].
Qed.

(** Setting the status of an endpoint to UP gives it an entry that is up and
    keeps the entries that are up. *)
Lemma set_first_status_UP (nodes nodes' : Nodes) (ip0 : string) (port0 : Z) (changed : bool) :
  set_first_status nodes ip0 port0 kNodeUp = Some (nodes', changed) ->
  UP nodes' {| ip := ip0; port := port0 |} /\
  (forall n, UP nodes n -> UP nodes' n) /\
  (changed = false -> nodes' = nodes).
Proof.
  unfold UP. revert nodes' changed.
  induction nodes as [| ns rest IH]; intros nodes' changed H; [discriminate |].
  cbn [set_first_status] in H.
  destruct (same_endpoint ip0 port0 (node ns)) eqn:He.
  - apply same_endpoint_eq in He.
    destruct (Z.eqb_spec (status ns) kNodeUp) as [Hst | Hst].
    + injection H as <- <-. split; [| split; auto].
      destruct ns as [nn nst]. cbn in *. subst. left.
    + injection H as <- <-. split; [rewrite He; left |]. split; [| discriminate].
      intros n Hn. apply elem_of_cons in Hn as [Hn | Hn]; [| right; exact Hn].
      exfalso. apply Hst. rewrite <- Hn. reflexivity.
  - destruct (set_first_status rest ip0 port0 kNodeUp) as [[rest' c] |] eqn:Hr; [| discriminate].
    injection H as <- <-. destruct (IH _ _ eq_refl) as (Hup & Hkeep & Hsame).
    split; [right; exact Hup |]. split.
    + intros n Hn. apply elem_of_cons in Hn as [-> | Hn]; [left | right; auto].
    + intros Hc. rewrite (Hsame Hc). reflexivity.
Qed.

Lemma AddNode_OK (ip0 : string) (port0 : Z) (st st' : ZPMetaServer) :
  AddNode ip0 port0 st = (OK, st') ->
  node_alive_ st' = node_alive_ st /\
  update_thread_ st' = update_thread_ st /\
  exists nodes',
    kv (floyd_ st') !! ZP_META_KEY_ND = Some (SerializedNodes nodes') /\
    UP nodes' {| ip := ip0; port := port0 |} /\
    forall nodes n, kv (floyd_ st) !! ZP_META_KEY_ND = Some (SerializedNodes nodes) ->
                    UP nodes n -> UP nodes' n.
Proof.
  intros H. unfold AddNode, SetNodeStatus, OnNode in H. unfold_store.
  run_all H; simplify_eq.
  all: repeat match goal with
       | Hp : Pull_ParseFromString _ = Some _ |- _ => apply parsed_Pull in Hp; subst
       | Hp : Nodes_ParseFromString _ = Some _ |- _ => apply parsed_Nodes in Hp; subst
       end.
  all: cbn [node_alive_ update_thread_ floyd_ kv].
  all: split; [reflexivity |]; split; [reflexivity |].
  all: eexists; (split;
    [ rewrite ?lookup_insert_ne by discriminate;
      first [apply lookup_insert_eq | eassumption | reflexivity] |]).
  all: try match goal with
       | Hset : set_first_status _ _ _ _ = Some _ |- _ =>
           destruct (set_first_status_UP _ _ _ _ _ Hset) as (Hup & Hkeep & Hsame);
           try (specialize (Hsame eq_refl); subst); split; [exact Hup |];
           intros nodes n1 Heq Hn1; simplify_eq; apply Hkeep; exact Hn1
       end.
  all: unfold UP, push_back; split;
    [ apply elem_of_app; right; left
    | intros nodes n1 Heq Hn1; simplify_eq; apply elem_of_app; left; exact Hn1 ].
Qed.

Lemma InitVersion_loop_frame (script0 : list bool) :
  forall (st st' : ZPMetaServer) (s : Status),
    InitVersion_loop script0 st = (s, st') ->
    kv (floyd_ st') = kv (floyd_ st) /\ node_alive_ st' = node_alive_ st.
Proof.
  induction script0 as [| b rest IH]; intros st st' s H.
  - cbn [InitVersion_loop] in H. unfold_store.
    run_all H; simplify_eq; split; reflexivity.
  - cbn [InitVersion_loop] in H. unfold_store.
    run_all H; simplify_eq; try (split; reflexivity).
    all: apply IH in H; cbn [floyd_ kv node_alive_] in H; exact H.
Qed.

Lemma split_at_colon_join (ip0 rest : string) :
  no_colon ip0 = true -> split_at_colon (ip0 ++ ":" ++ rest) = Some (ip0, rest).
Proof.
  induction ip0 as [| c r IH]; intros Hnc; [reflexivity |].
  cbn [no_colon] in Hnc. apply andb_true_iff in Hnc as [Hc Hr].
  change (String c r ++ ":" ++ rest) with (String c (r ++ ":" ++ rest)).
  cbn [split_at_colon].
  destruct (Ascii.eqb c ":"); [discriminate |].
  rewrite (IH Hr). reflexivity.
Qed.

Lemma ParseIpPortString_IpPortString (ip0 : string) (port0 : Z) :
  no_colon ip0 = true -> is_int port0 ->
  ParseIpPortString (IpPortString ip0 port0) = Some (ip0, port0).
Proof.
  intros Hnc Hp. unfold ParseIpPortString, IpPortString.
  rewrite (split_at_colon_join _ _ Hnc), (stoi_to_string _ Hp), String.eqb_refl.
  reflexivity.
Qed.

Lemma keys_RestoreNodeAlive (alive_nodes : list NodeStatus) (now : timeval) :
  forall (m : StdMap.t timeval) (k : string),
    k ∈ StdMap.keys
          (fold_left (fun m n => StdMap.assign (IpPortString (ip (node n)) (port (node n))) now m)
                     alive_nodes m) ->
    k ∈ StdMap.keys m \/
    exists n, n ∈ alive_nodes /\ k = IpPortString (ip (node n)) (port (node n)).
Proof.
  induction alive_nodes as [| a rest IH]; intros m k Hk; cbn [fold_left] in Hk.
  - left. exact Hk.
  - destruct (IH _ _ Hk) as [Hm | (n & Hn & ->)].
    + apply keys_assign in Hm as [-> | Hm]; [| left; exact Hm].
      right. exists a. split; [left | reflexivity].
    + right. exists n. split; [right; exact Hn | reflexivity].
Qed.

Lemma keys_CheckNodeAlive (need_remove : list string) :
  forall (st : ZPMetaServer) (k : string),
    let st' := fold_left (fun st rit =>
                            ScheduleUpdate rit kOpRemove
                              (with_node_alive (StdMap.erase rit (node_alive_ st)) st))
                         need_remove st in
    kv (floyd_ st') = kv (floyd_ st) /\
    (k ∈ StdMap.keys (node_alive_ st') -> k ∈ StdMap.keys (node_alive_ st)).
Proof.
  induction need_remove as [| rit rest IH]; intros st k; cbn [fold_left]; cbv zeta.
  - split; [reflexivity | auto].
  - destruct (IH (ScheduleUpdate rit kOpRemove
                    (with_node_alive (StdMap.erase rit (node_alive_ st)) st)) k) as [Hkv Hk].
    split; [exact Hkv |]. intros Hin. apply Hk in Hin.
    cbn [ScheduleUpdate with_node_alive node_alive_] in Hin. eapply keys_erase. exact Hin.
Qed.

(** C9, as the code has it: the operations on the liveness map keep it
    backed by the nodes table when they report success. [AddNodeAlive] that
    returns [OK], [UpdateNodeAlive] and [CheckNodeAlive] keep the property;
    [BecomeLeader] that returns [OK] establishes it, when the nodes that are
    up have endpoints that read back from their strings. *)
Theorem liveness_stays_backed (st st' : ZPMetaServer) (now : timeval) :
  (forall ip_port,
     liveness_backed st -> AddNodeAlive ip_port now st = (OK, st') -> liveness_backed st') /\
  (forall ip_port known,
     liveness_backed st -> UpdateNodeAlive ip_port now st = (known, st') ->
     liveness_backed st') /\
  (forall kNodeMetaTimeoutM,
     liveness_backed st -> CheckNodeAlive kNodeMetaTimeoutM now st = (tt, st') ->
     liveness_backed st') /\
  ((forall nodes, kv (floyd_ st) !! ZP_META_KEY_ND = Some (SerializedNodes nodes) ->
                  Forall well_formed_endpoint (GetAllAliveNode nodes)) ->
   BecomeLeader now st = (OK, st') -> liveness_backed st').
Proof.
  split; [| split; [| split]].
  - intros ip_port Hb H. unfold AddNodeAlive in H.
    destruct (ParseIpPortString ip_port) as [[ip0 port0] |] eqn:Hparse; [| discriminate].
    destruct (AddNode ip0 port0 _) as [s st1] eqn:Hadd.
    destruct s; cbn [ok negb] in H; try discriminate. injection H as <-.
    apply AddNode_OK in Hadd as (Hna & _ & nodes' & Hnd' & Hup & Hkeep).
    cbn [with_node_alive node_alive_ floyd_] in Hna, Hkeep.
    intros k Hk. cbn [ScheduleUpdate node_alive_ floyd_] in *. rewrite Hna in Hk.
    apply keys_assign in Hk as [-> | Hk].
    + exists ip0, port0, nodes'. split; [exact Hparse |]. split; [exact Hnd' | exact Hup].
    + destruct (Hb k Hk) as (ip1 & port1 & nodes & Hp1 & Hnd & Hup1).
      exists ip1, port1, nodes'. split; [exact Hp1 |]. split; [exact Hnd' |].
      eapply Hkeep; eassumption.
  - intros ip_port known Hb H. unfold UpdateNodeAlive in H.
    destruct (StdMap.find ip_port (node_alive_ st)) eqn:Hfind; injection H as <- <-;
      [| exact Hb].
    intros k Hk. cbn [with_node_alive node_alive_ floyd_] in *.
    apply keys_assign in Hk as [-> | Hk]; [| exact (Hb k Hk)].
    apply Hb. unfold StdMap.keys. clear Hb.
    induction (node_alive_ st) as [| [k' v'] m IH]; [discriminate |].
    cbn [StdMap.find] in Hfind. cbn [map fst].
    destruct (String.eqb_spec ip_port k') as [-> | Hne]; [left | right; apply IH; exact Hfind].
  - intros kNodeMetaTimeoutM Hb H. unfold CheckNodeAlive in H. injection H as <-.
    intros k Hk.
    match type of Hk with
    | context [fold_left ?f ?l ?s] => destruct (keys_CheckNodeAlive l s k) as [Hkv Hsub]
    end.
    cbv zeta in Hkv, Hsub. rewrite Hkv. apply Hb. apply Hsub. exact Hk.
  - intros Hwf H. unfold BecomeLeader, bind in H.
    destruct (GetAllNode st) as [[s nodes] st1] eqn:Hget.
    destruct s; cbn [ok negb] in H; try (unfold ret in H; discriminate).
    unfold RestoreNodeAlive in H.
    destruct (InitVersion _) as [s2 st2] eqn:Hinit. unfold ret in H. injection H as <-.
    unfold InitVersion in Hinit. apply InitVersion_loop_frame in Hinit as [Hkv Hna].
    cbn [with_node_alive node_alive_ floyd_] in Hkv, Hna.
    unfold GetAllNode in Hget. unfold_store. run_all Hget; simplify_eq.
    match goal with
    | Hp : Nodes_ParseFromString _ = Some _ |- _ => apply parsed_Nodes in Hp; subst
    end.
    cbn [floyd_ kv] in Hkv.
    match goal with
    | Hl : kv (floyd_ st) !! ZP_META_KEY_ND = Some _ |- _ =>
        first [pose proof (Hwf _ Hl) as Hall | pose proof (Hwf _ eq_refl) as Hall];
        rename Hl into Hnd
    end.
    intros k Hk. rewrite Hna in Hk.
    apply keys_RestoreNodeAlive in Hk as [Hk | (n & Hn & ->)]; [inversion Hk |].
    rewrite Forall_forall in Hall. destruct (Hall n Hn) as [Hnc Hport].
    exists (ip (node n)), (port (node n)), nodes.
    split; [apply ParseIpPortString_IpPortString; assumption |].
    split; [rewrite Hkv; exact Hnd |].
    unfold UP. unfold GetAllAliveNode in Hn. apply list_elem_of_filter in Hn as [Hst Hn].
    destruct n as [[ni np] ns]. cbn in *. subst. exact Hn.
Qed.

Lemma liveness_stays_backed_witness :
  liveness_backed joined /\ liveness_backed pinged /\ liveness_backed swept /\
  liveness_backed promoted.
Proof.
  assert (Hfresh : liveness_backed fresh) by (intros k Hk; inversion Hk).
  assert (Hjoined : liveness_backed joined).
  { apply (proj1 (liveness_stays_backed fresh joined noon) "10.0.0.1:5000" Hfresh).
    vm_compute. reflexivity. }
  assert (Hpinged : liveness_backed pinged).
  { apply (proj1 (proj2 (liveness_stays_backed joined pinged noon)) "10.0.0.1:5000" true Hjoined).
    vm_compute. reflexivity. }
  split; [exact Hjoined |]. split; [exact Hpinged |]. split.
  - apply (proj1 (proj2 (proj2 (liveness_stays_backed pinged swept later))) 30 Hpinged).
    vm_compute. reflexivity.
  - apply (proj2 (proj2 (proj2 (liveness_stays_backed three_hosts promoted noon)))).
    + intros nodes Hnd. vm_compute in Hnd. injection Hnd as <-.
      repeat constructor; cbn; unfold INT_MIN, INT_MAX; lia.
    + vm_compute. reflexivity.
Defined.

(** Against C9 as stated. A join that fails: [AddNodeAlive] enters the
    endpoint in the liveness map before it adds the node; when the write of
    the nodes table fails the call returns [Corruption], and the endpoint
    stays in the map without an entry in the table. And a run in which no
    call fails: a node that is swept out and joins again before the update
    thread has run the queued [kOpRemove] is in the liveness map with status
    UP; [OffNode] then sets its status to DOWN and leaves the map alone, so
    that after the next ping, which succeeds, the endpoint is in the map with
    status DOWN. *)
Lemma liveness_loses_its_backing :
  (let st' := after (AddNodeAlive "10.0.0.1:5000" noon) ND_write_fails in
   liveness_backed ND_write_fails /\
   fst (AddNodeAlive "10.0.0.1:5000" noon ND_write_fails) = Corruption "floyd set error!" /\
   "10.0.0.1:5000" ∈ StdMap.keys (node_alive_ st') /\
   kv (floyd_ st') !! ZP_META_KEY_ND = None /\
   ~ liveness_backed st') /\
  (fst (BecomeLeader noon four_partitions) = OK /\
   fst (UpdateNodeAlive "10.0.0.2:5000" later leader_of_four) = true /\
   fst (UpdateNodeAlive "10.0.0.3:5000" later
          (after (UpdateNodeAlive "10.0.0.2:5000" later) leader_of_four)) = true /\
   update_thread_ lapsed = [("10.0.0.1:5000", kOpRemove)] /\
   fst (AddNodeAlive "10.0.0.1:5000" later lapsed) = OK /\
   liveness_backed rejoined /\
   fst (OffNode "10.0.0.1" 5000 rejoined) = OK /\
   fst (UpdateNodeAlive "10.0.0.1:5000" later taken_off) = true /\
   "10.0.0.1:5000" ∈ StdMap.keys (node_alive_ pinged_while_off) /\
   kv (floyd_ pinged_while_off) !! ZP_META_KEY_ND =
     Some (SerializedNodes [ {| node := host1; status := kNodeDown |};
                             {| node := host2; status := kNodeUp |};
                             {| node := host3; status := kNodeUp |} ]) /\
   ~ liveness_backed pinged_while_off).
Proof.
  split.
  - cbv zeta.
    assert (Hin : "10.0.0.1:5000"
                    ∈ StdMap.keys (node_alive_ (after (AddNodeAlive "10.0.0.1:5000" noon)
                                                   ND_write_fails))) by (vm_compute; left).
    assert (Hnd : kv (floyd_ (after (AddNodeAlive "10.0.0.1:5000" noon) ND_write_fails))
                    !! ZP_META_KEY_ND = None) by (vm_compute; reflexivity).
    split; [intros k Hk; inversion Hk |]. split; [vm_compute; reflexivity |].
    split; [exact Hin |]. split; [exact Hnd |].
    intros Hb. destruct (Hb _ Hin) as (ip0 & port0 & nodes & _ & Hnodes & _).
    rewrite Hnd in Hnodes. discriminate.
  - assert (Hin : "10.0.0.1:5000" ∈ StdMap.keys (node_alive_ pinged_while_off))
      by (vm_compute; left).
    assert (Hnd : kv (floyd_ pinged_while_off) !! ZP_META_KEY_ND =
                    Some (SerializedNodes [ {| node := host1; status := kNodeDown |};
                                            {| node := host2; status := kNodeUp |};
                                            {| node := host3; status := kNodeUp |} ]))
      by (vm_compute; reflexivity).
    assert (Hparse : ParseIpPortString "10.0.0.1:5000" = Some ("10.0.0.1", 5000))
      by (vm_compute; reflexivity).
    split; [vm_compute; reflexivity |]. split; [vm_compute; reflexivity |].
    split; [vm_compute; reflexivity |]. split; [vm_compute; reflexivity |].
    split; [vm_compute; reflexivity |].
    split.
    { assert (Hkeys : StdMap.keys (node_alive_ rejoined) =
                        ["10.0.0.1:5000"; "10.0.0.2:5000"; "10.0.0.3:5000"])
        by (vm_compute; reflexivity).
      assert (Hup : kv (floyd_ rejoined) !! ZP_META_KEY_ND = Some (SerializedNodes all_up))
        by (vm_compute; reflexivity).
      intros k Hk. rewrite Hkeys in Hk.
      rewrite !elem_of_cons, elem_of_nil in Hk. destruct Hk as [-> | [-> | [-> | []]]].
      - exists "10.0.0.1", 5000, all_up. split; [vm_compute; reflexivity |].
        split; [exact Hup |]. unfold UP, all_up. rewrite !elem_of_cons. auto.
      - exists "10.0.0.2", 5000, all_up. split; [vm_compute; reflexivity |].
        split; [exact Hup |]. unfold UP, all_up. rewrite !elem_of_cons. auto.
      - exists "10.0.0.3", 5000, all_up. split; [vm_compute; reflexivity |].
        split; [exact Hup |]. unfold UP, all_up. rewrite !elem_of_cons. auto. }
    split; [vm_compute; reflexivity |]. split; [vm_compute; reflexivity |].
    split; [exact Hin |]. split; [exact Hnd |].
    intros Hb. destruct (Hb _ Hin) as (ip0 & port0 & nodes & Hp & Hnodes & Hup).
    rewrite Hparse in Hp. rewrite Hnd in Hnodes. injection Hp as <- <-. injection Hnodes as <-.
    unfold UP in Hup. rewrite !elem_of_cons, elem_of_nil in Hup.
    destruct Hup as [Hup | [Hup | [Hup | []]]]; discriminate Hup.
Qed.

(** ** A placement on which Reorganize does not stop *)

Lemma wrap32_mod_4 (z : Z) : wrap32 z mod 4 = z mod 4.
Proof.
  unfold wrap32. rewrite (Z.mod_eq (z + 2 ^ 31) (2 ^ 32)) by lia.
  replace (z + 2 ^ 31 - 2 ^ 32 * ((z + 2 ^ 31) / 2 ^ 32) - 2 ^ 31)
    with (z + (- 2 ^ 30 * ((z + 2 ^ 31) / 2 ^ 32)) * 4) by lia.
  apply Z_mod_plus_full.
Qed.

(** With every bucket empty, a round adds four to [empty_count]; the count
    is then 2 modulo 4 for good, and never 4. *)
Lemma Reorganize_loop_stuck (fuel : nat) :
  forall (empty_count : Z) (alive_nodes : list NodeStatus),
    empty_count mod 4 = 2 ->
    Reorganize_loop fuel emptied 4 empty_count alive_nodes = None.
Proof.
  induction fuel as [| fuel IH]; intros empty_count alive_nodes Hmod;
    cbn [Reorganize_loop].
  - destruct (Z.eqb_spec empty_count 4) as [-> | _]; [discriminate | reflexivity].
  - destruct (Z.eqb_spec empty_count 4) as [-> | _]; [discriminate |].
    cbn [Reorganize_pass emptied last]. apply IH.
    assert (Hstep : forall z r, z mod 4 = r -> wrap32 (z + 1) mod 4 = (r + 1) mod 4).
    { intros z r <-. rewrite wrap32_mod_4. symmetry. apply Zplus_mod_idemp_l. }
    apply (Hstep _ 1), (Hstep _ 0), (Hstep _ 3), (Hstep _ 2). exact Hmod.
Qed.

Lemma Reorganize_loop_round (fuel : nat) (m : StdMap.t (list NodeStatus)) (msize empty_count : Z)
    (alive_nodes : list NodeStatus) :
  (empty_count =? msize) = false ->
  Reorganize_loop (S fuel) m msize empty_count alive_nodes =
    let '(m', empty_count', alive_nodes') := Reorganize_pass m empty_count alive_nodes in
    Reorganize_loop fuel m' msize empty_count' alive_nodes'.
Proof. intros H. cbn [Reorganize_loop]. rewrite H. reflexivity. Qed.

(** [Reorganize] of the crowded host gives no result, whatever the number of
    rounds: after the third round the buckets are empty and [empty_count] is
    6, past the number of buckets. *)
Lemma Reorganize_never_stops (fuel : nat) : Reorganize fuel crowded_host [] = None.
Proof.
  destruct fuel as [| [| [| fuel]]].
  1-3: (vm_compute; reflexivity).
  unfold Reorganize.
  replace (fold_left Reorganize_bucket crowded_host [])
    with [ ("10.0.0.1", [on_host "10.0.0.1" 5000; on_host "10.0.0.1" 5001;
                         on_host "10.0.0.1" 5002]);
           ("10.0.0.2", [on_host "10.0.0.2" 5000]);
           ("10.0.0.3", [on_host "10.0.0.3" 5000]);
           ("10.0.0.4", [on_host "10.0.0.4" 5000]) ]
    by (vm_compute; reflexivity).
  replace (wrap32 (Z.of_nat (length _))) with 4 by (vm_compute; reflexivity).
  do 3 (rewrite Reorganize_loop_round by reflexivity;
        match goal with
        | |- context [Reorganize_pass ?m ?e ?a] =>
            let r := eval vm_compute in (Reorganize_pass m e a) in
            replace (Reorganize_pass m e a) with r by (vm_compute; reflexivity)
        end;
        cbv beta iota).
  apply Reorganize_loop_stuck. reflexivity.
Qed.

(** On that cluster [Distribute] does not return: it is still in the loop
    of [Reorganize] after any number of rounds. *)
Lemma Distribute_never_returns (fuel : nat) (num : Z) :
  Distribute fuel num crowded_cluster = Unfinished.
Proof.
  assert (Hs : script (floyd_ crowded_cluster) = []) by (vm_compute; reflexivity).
  assert (Hpn : kv (floyd_ crowded_cluster) !! ZP_META_KEY_PN = None)
    by (vm_compute; reflexivity).
  assert (Hnd : kv (floyd_ crowded_cluster) !! ZP_META_KEY_ND
                = Some (SerializedNodes crowded_host)) by (vm_compute; reflexivity).
  unfold Distribute. rewrite (PartitionNums_no_faults _ Hs), Hpn. cbn [negb Z.eqb].
  unfold Distribute_nodes. rewrite (GetAllNode_no_faults _ _ Hs Hnd). cbn [ok negb].
  replace (GetAllAliveNode crowded_host) with crowded_host by (vm_compute; reflexivity).
  unfold crowded_host at 1. rewrite Reorganize_never_stops. reflexivity.
Qed.

(** * Further properties of the code *)

(** ** [std::map]: lookup after assignment, and the order of the keys *)

Lemma ltb_lts (a b : string) :
  String.ltb a b = true <-> OrderedTypeEx.String_as_OT.lt a b.
Proof.
  unfold String.ltb. rewrite <- OrderedTypeEx.String_as_OT.cmp_lt.
  unfold OrderedTypeEx.String_as_OT.cmp. destruct (String.compare a b); split; congruence.
Qed.

Lemma ltb_trans (a b c : string) :
  String.ltb a b = true -> String.ltb b c = true -> String.ltb a c = true.
Proof.
  rewrite !ltb_lts. apply OrderedTypeEx.String_as_OT.lt_trans.
Qed.

Lemma ltb_irrefl (a : string) : String.ltb a a = false.
Proof.
  unfold String.ltb.
  pose proof (proj2 (OrderedTypeEx.String_as_OT.cmp_eq a a) eq_refl) as Hc.
  unfold OrderedTypeEx.String_as_OT.cmp in Hc. rewrite Hc. reflexivity.
Qed.

Lemma ltb_total (a b : string) :
  String.ltb a b = false -> a <> b -> String.ltb b a = true.
Proof.
  unfold String.ltb. rewrite (String.compare_antisym b a).
  destruct (String.compare a b) eqn:Hc; cbn; try congruence.
  apply String.compare_eq_iff in Hc. congruence.
Qed.

Lemma find_assign_eq {V} (k : string) (v : V) (m : StdMap.t V) :
  StdMap.find k (StdMap.assign k v m) = Some v.
Proof.
  induction m as [| [k' v'] m IH]; cbn [StdMap.assign StdMap.find].
  - rewrite String.eqb_refl. reflexivity.
  - destruct (String.eqb k k') eqn:He; cbn [StdMap.find].
    + rewrite String.eqb_refl. reflexivity.
    + destruct (String.ltb k k'); cbn [StdMap.find].
      * rewrite String.eqb_refl. reflexivity.
      * rewrite He. exact IH.
Qed.

Lemma find_assign_ne {V} (k k0 : string) (v : V) (m : StdMap.t V) :
  k <> k0 -> StdMap.find k (StdMap.assign k0 v m) = StdMap.find k m.
Proof.
  intros Hne. apply String.eqb_neq in Hne.
  induction m as [| [k' v'] m IH]; cbn [StdMap.assign StdMap.find].
  - rewrite Hne. reflexivity.
  - destruct (String.eqb_spec k0 k') as [<- | Hk].
    + cbn [StdMap.find]. rewrite Hne. reflexivity.
    + destruct (String.ltb k0 k'); cbn [StdMap.find].
      * rewrite Hne. reflexivity.
      * rewrite IH. reflexivity.
Qed.

Lemma sorted_keys_cons {V} (k : string) (v : V) (m : StdMap.t V) :
  sorted_keys ((k, v) :: m) <->
  sorted_keys m /\ Forall (fun k' => String.ltb k k' = true) (StdMap.keys m).
Proof.
  unfold sorted_keys, StdMap.keys. cbn [map fst]. split.
  - intros H. inversion H; subst. split; assumption.
  - intros [Hs Hf]. constructor; assumption.
Qed.

Lemma sorted_keys_assign {V} (k : string) (v : V) (m : StdMap.t V) :
  sorted_keys m -> sorted_keys (StdMap.assign k v m).
Proof.
  induction m as [| [k' v'] m IH]; intros Hs; cbn [StdMap.assign].
  - apply sorted_keys_cons. split; [exact Hs | constructor].
  - apply sorted_keys_cons in Hs as [Hs Hf].
    destruct (String.eqb_spec k k') as [-> | Hne].
    + apply sorted_keys_cons. split; assumption.
    + destruct (String.ltb k k') eqn:Hlt.
      * apply sorted_keys_cons. split.
        -- apply sorted_keys_cons. split; assumption.
        -- unfold StdMap.keys. cbn [map fst]. constructor; [exact Hlt |].
           eapply Forall_impl; [exact Hf |]. intros x Hx. cbn beta in *.
           eapply ltb_trans; eassumption.
      * apply sorted_keys_cons. split; [apply IH; exact Hs |].
        apply Forall_forall. intros x Hx. apply keys_assign in Hx as [-> | Hx].
        -- apply ltb_total; [exact Hlt | exact Hne].
        -- rewrite Forall_forall in Hf. apply Hf. exact Hx.
Qed.

Lemma sorted_keys_NoDup {V} (m : StdMap.t V) : sorted_keys m -> NoDup (StdMap.keys m).
Proof.
  induction m as [| [k v] m IH]; intros Hs; [constructor |].
  apply sorted_keys_cons in Hs as [Hs Hf]. unfold StdMap.keys in *. cbn [map fst].
  constructor; [| apply IH; exact Hs].
  intros Hin. rewrite Forall_forall in Hf. specialize (Hf _ Hin).
  rewrite ltb_irrefl in Hf. discriminate.
Qed.

Lemma find_elem {V} (k : string) (v : V) (m : StdMap.t V) :
  sorted_keys m -> (StdMap.find k m = Some v <-> (k, v) ∈ m).
Proof.
  induction m as [| [k' v'] m IH]; intros Hs; cbn [StdMap.find].
  - split; [discriminate | intros H; inversion H].
  - pose proof (sorted_keys_NoDup _ Hs) as Hnd.
    apply sorted_keys_cons in Hs as [Hs Hf].
    unfold StdMap.keys in Hnd. cbn [map fst] in Hnd. apply NoDup_cons in Hnd as [Hnot _].
    destruct (String.eqb_spec k k') as [-> | Hne].
    + split.
      * intros [= ->]. left.
      * intros Hin. apply elem_of_cons in Hin as [[= ->] | Hin]; [reflexivity |].
        exfalso. apply Hnot. apply list_elem_of_fmap. exists (k', v). split; [reflexivity | exact Hin].
    + rewrite (IH Hs). split.
      * intros Hin. right. exact Hin.
      * intros Hin. apply elem_of_cons in Hin as [[= -> ->] | Hin]; [congruence | exact Hin].
Qed.
Lemma assign_found {V} (k : string) (v0 v : V) (m : StdMap.t V) :
  sorted_keys m -> StdMap.find k m = Some v0 ->
  exists m1 m2, m = app m1 ((k, v0) :: m2) /\ StdMap.assign k v m = app m1 ((k, v) :: m2).
Proof.
  induction m as [| [k' v'] m IH]; intros Hs Hf; cbn [StdMap.find StdMap.assign] in *;
    [discriminate |].
  destruct (String.eqb_spec k k') as [<- | Hne].
  - injection Hf as <-. exists [], m. split; reflexivity.
  - apply sorted_keys_cons in Hs as [Hs Hall].
    destruct (String.ltb k k') eqn:Hlt.
    + exfalso. apply (find_elem _ _ _ Hs) in Hf.
      rewrite Forall_forall in Hall.
      assert (Hk : String.ltb k' k = true).
      { apply Hall. apply list_elem_of_fmap. exists (k, v0). split; [reflexivity | exact Hf]. }
      pose proof (ltb_trans _ _ _ Hlt Hk) as Hkk. rewrite ltb_irrefl in Hkk. discriminate.
    + destruct (IH Hs Hf) as (m1 & m2 & -> & ->).
      exists ((k', v') :: m1), m2. split; reflexivity.
Qed.

Lemma assign_new {V} (k : string) (v : V) (m : StdMap.t V) :
  StdMap.find k m = None ->
  exists m1 m2, m = app m1 m2 /\ StdMap.assign k v m = app m1 ((k, v) :: m2).
Proof.
  induction m as [| [k' v'] m IH]; intros Hf; cbn [StdMap.find StdMap.assign] in *.
  - exists [], []. split; reflexivity.
  - destruct (String.eqb k k'); [discriminate |].
    destruct (String.ltb k k').
    + exists [], ((k', v') :: m). split; reflexivity.
    + destruct (IH Hf) as (m1 & m2 & -> & ->).
      exists ((k', v') :: m1), m2. split; reflexivity.
Qed.

(** ** Reorganize: what goes in comes out at most once *)

Lemma pool_app (m1 m2 : StdMap.t (list NodeStatus)) :
  pool (app m1 m2) = app (pool m1) (pool m2).
Proof. unfold pool. rewrite map_app, concat_app. reflexivity. Qed.

Lemma sorted_buckets (l : list NodeStatus) (m : StdMap.t (list NodeStatus)) :
  sorted_keys m -> sorted_keys (fold_left Reorganize_bucket l m).
Proof.
  revert m. induction l as [| n l IH]; intros m Hs; [exact Hs |].
  cbn [fold_left]. apply IH. unfold Reorganize_bucket.
  destruct (StdMap.find _ m); apply sorted_keys_assign; exact Hs.
Qed.

Lemma pool_Reorganize_bucket (m : StdMap.t (list NodeStatus)) (n : NodeStatus) :
  sorted_keys m -> Permutation (pool (Reorganize_bucket m n)) (n :: pool m).
Proof.
  intros Hs. unfold Reorganize_bucket.
  destruct (StdMap.find (ip (node n)) m) as [bucket |] eqn:Hf.
  - destruct (assign_found _ _ (push_back bucket n) _ Hs Hf) as (m1 & m2 & -> & ->).
    rewrite !pool_app. unfold pool at 2 4, push_back. cbn [map snd concat].
    rewrite <- !app_assoc. cbn [app].
    rewrite (Permutation_middle (pool m1)). apply Permutation_app_head.
    rewrite (Permutation_middle bucket). reflexivity.
  - destruct (assign_new _ [n] _ Hf) as (m1 & m2 & -> & ->).
    rewrite !pool_app. unfold pool at 2. cbn [map snd concat app].
    symmetry. apply Permutation_middle.
Qed.

Lemma pool_buckets (l : list NodeStatus) (m : StdMap.t (list NodeStatus)) :
  sorted_keys m -> Permutation (pool (fold_left Reorganize_bucket l m)) (app l (pool m)).
Proof.
  revert m. induction l as [| n l IH]; intros m Hs; [reflexivity |].
  cbn [fold_left]. rewrite IH.
  - rewrite (pool_Reorganize_bucket m n Hs). cbn [app]. symmetry. apply Permutation_middle.
  - unfold Reorganize_bucket. destruct (StdMap.find _ m); apply sorted_keys_assign; exact Hs.
Qed.

Lemma Reorganize_pass_keeps (m : StdMap.t (list NodeStatus)) :
  forall (empty_count : Z) (alive_nodes : list NodeStatus)
         (m' : StdMap.t (list NodeStatus)) (empty_count' : Z) (alive_nodes' : list NodeStatus),
    Reorganize_pass m empty_count alive_nodes = (m', empty_count', alive_nodes') ->
    Permutation (app alive_nodes' (pool m')) (app alive_nodes (pool m)).
Proof.
  induction m as [| [k bucket] m IH]; intros ec al m' ec' al' H; cbn [Reorganize_pass] in H.
  - injection H as <- <- <-. reflexivity.
  - destruct (last bucket) as [back |] eqn:Hlast.
    + destruct (Reorganize_pass m ec (push_back al back)) as [[r e] a] eqn:Hr.
      injection H as <- <- <-. apply IH in Hr.
      apply last_Some in Hlast as [front ->]. rewrite removelast_last.
      unfold pool in *. cbn [map snd concat]. unfold push_back in Hr.
      rewrite (Permutation_app_swap_app a front), Hr.
      rewrite <- !app_assoc. cbn [app].
      rewrite (Permutation_app_swap_app front al). apply Permutation_app_head.
      apply Permutation_app_head. reflexivity.
    + destruct (Reorganize_pass m (wrap32 (ec + 1)) al) as [[r e] a] eqn:Hr.
      injection H as <- <- <-. apply IH in Hr.
      apply last_None in Hlast as ->. exact Hr.
Qed.

Lemma Reorganize_loop_keeps (fuel : nat) :
  forall (m : StdMap.t (list NodeStatus)) (msize empty_count : Z)
         (alive_nodes out : list NodeStatus),
    Reorganize_loop fuel m msize empty_count alive_nodes = Some out ->
    exists left_in, Permutation (app out left_in) (app alive_nodes (pool m)).
Proof.
  induction fuel as [| fuel IH]; intros m msize ec al out H; cbn [Reorganize_loop] in H.
  - destruct (ec =? msize); [| discriminate]. injection H as <-. exists (pool m). reflexivity.
  - destruct (ec =? msize).
    + injection H as <-. exists (pool m). reflexivity.
    + destruct (Reorganize_pass m ec al) as [[m' ec'] al'] eqn:Hp.
      apply IH in H as [left_in Hperm]. exists left_in.
      rewrite Hperm. eapply Reorganize_pass_keeps. exact Hp.
Qed.

(** Whatever [Reorganize] returns holds each node at most as often as the
    input does: with what is left in the buckets it is the input again,
    added after the nodes that were in [alive_nodes] before. *)
Theorem Reorganize_gives_nothing_new (fuel : nat) (t_alive_nodes alive_nodes out : list NodeStatus) :
  Reorganize fuel t_alive_nodes alive_nodes = Some out ->
  exists left_in, Permutation (app out left_in) (app alive_nodes t_alive_nodes).
Proof.
  unfold Reorganize. intros H. apply Reorganize_loop_keeps in H as [left_in Hperm].
  exists left_in. rewrite Hperm. apply Permutation_app_head.
  rewrite pool_buckets by constructor. cbn. rewrite app_nil_r. reflexivity.
Qed.

Lemma Reorganize_gives_nothing_new_witness :
  exists left_in,
    Permutation
      (app [ on_host "10.0.0.1" 5003; on_host "10.0.0.2" 5000;
             on_host "10.0.0.1" 5002; on_host "10.0.0.1" 5001 ] left_in)
      (app [] uneven_hosts).
Proof.
  apply (Reorganize_gives_nothing_new 3 uneven_hosts []). vm_compute. reflexivity.
Defined.

(** ** Reorganize: the buckets, and hosts with as many nodes each *)

Lemma buckets_of_snoc (l : list NodeStatus) (n : NodeStatus) :
  buckets_of (app l [n]) = Reorganize_bucket (buckets_of l) n.
Proof. unfold buckets_of. rewrite fold_left_app. reflexivity. Qed.

Lemma nodes_on_snoc (host : string) (l : list NodeStatus) (n : NodeStatus) :
  nodes_on host (app l [n]) =
    app (nodes_on host l) (if decide (ip (node n) = host) then [n] else []).
Proof.
  unfold nodes_on. rewrite filter_app. f_equal.
Qed.

(** The bucket of a host holds the nodes of the host in the order of the
    input, and a host without nodes has no bucket. *)
Lemma find_buckets_of (l : list NodeStatus) (host : string) :
  StdMap.find host (buckets_of l) =
    match nodes_on host l with
    | [] => None
    | bucket => Some bucket
    end.
Proof.
  induction l as [| n l IH] using rev_ind; [reflexivity |].
  rewrite buckets_of_snoc, nodes_on_snoc. unfold Reorganize_bucket.
  destruct (decide (ip (node n) = host)) as [<- | Hne].
  - rewrite IH. destruct (nodes_on (ip (node n)) l) as [| a b] eqn:Hon.
    + rewrite find_assign_eq. reflexivity.
    + rewrite find_assign_eq. unfold push_back. reflexivity.
  - rewrite app_nil_r.
    destruct (StdMap.find (ip (node n)) (buckets_of l));
      rewrite find_assign_ne by congruence; exact IH.
Qed.

Lemma buckets_of_sorted (l : list NodeStatus) : sorted_keys (buckets_of l).
Proof. apply sorted_buckets. constructor. Qed.

Lemma buckets_of_uniform (s : nat) (l : list NodeStatus) :
  evenly_spread s l -> Forall (fun kb => length (snd kb) = s) (buckets_of l).
Proof.
  intros Hs. apply Forall_forall. intros [host bucket] Hin. cbn [snd].
  apply (find_elem _ _ _ (buckets_of_sorted l)) in Hin.
  rewrite find_buckets_of in Hin.
  destruct (nodes_on host l) as [| n b] eqn:Hon; [discriminate |].
  injection Hin as <-.
  assert (Hn : n ∈ nodes_on host l) by (rewrite Hon; left).
  unfold nodes_on in Hn. apply list_elem_of_filter in Hn as [Hip Hn].
  rewrite <- Hon, <- Hip. apply Hs. exact Hn.
Qed.

Lemma Reorganize_pass_full (s : nat) (m : StdMap.t (list NodeStatus)) :
  forall (empty_count : Z) (alive_nodes : list NodeStatus),
    Forall (fun kb => length (snd kb) = S s) m ->
    exists m' alive_nodes',
      Reorganize_pass m empty_count alive_nodes = (m', empty_count, alive_nodes') /\
      Forall (fun kb => length (snd kb) = s) m' /\ length m' = length m.
Proof.
  induction m as [| [k bucket] m IH]; intros ec al Hall; cbn [Reorganize_pass].
  - exists [], al. repeat split; constructor.
  - apply Forall_cons in Hall as [Hb Hall]. cbn [snd] in Hb.
    destruct (last bucket) as [back |] eqn:Hlast.
    + destruct (IH ec (push_back al back) Hall) as (m' & al' & -> & Hall' & Hlen).
      eexists _, _. split; [reflexivity |]. split.
      * constructor; [| exact Hall']. cbn [snd].
        apply last_Some in Hlast as [front ->]. rewrite removelast_last.
        rewrite length_app in Hb. cbn in Hb. lia.
      * cbn [length]. rewrite Hlen. reflexivity.
    + apply last_None in Hlast as ->. discriminate.
Qed.

Lemma Reorganize_pass_empty (m : StdMap.t (list NodeStatus)) :
  forall (empty_count : Z) (alive_nodes : list NodeStatus),
    Forall (fun kb => length (snd kb) = 0%nat) m ->
    0 <= empty_count -> empty_count + Z.of_nat (length m) <= INT_MAX ->
    Reorganize_pass m empty_count alive_nodes =
      (m, empty_count + Z.of_nat (length m), alive_nodes).
Proof.
  induction m as [| [k bucket] m IH]; intros ec al Hall Hec Hmax; cbn [Reorganize_pass].
  - cbn. rewrite Z.add_0_r. reflexivity.
  - apply Forall_cons in Hall as [Hb Hall]. cbn [snd] in Hb.
    destruct bucket; [| discriminate]. cbn [last].
    cbn [length] in Hmax.
    rewrite wrap32_in_range by (unfold is_int, INT_MIN, INT_MAX in *; lia).
    rewrite IH by (try assumption; lia).
    f_equal. f_equal. cbn [length]. lia.
Qed.

Lemma pool_of_empty (m : StdMap.t (list NodeStatus)) :
  Forall (fun kb => length (snd kb) = 0%nat) m -> pool m = [].
Proof.
  unfold pool. induction 1 as [| [k b] m Hb _ IH]; [reflexivity |].
  cbn [map snd concat] in *. destruct b; [| discriminate]. exact IH.
Qed.

Lemma Reorganize_loop_uniform (s : nat) :
  forall (m : StdMap.t (list NodeStatus)) (alive_nodes : list NodeStatus) (k : nat),
    (0 < length m)%nat -> Z.of_nat (length m) <= INT_MAX ->
    Forall (fun kb => length (snd kb) = s) m ->
    exists out,
      Reorganize_loop (S s + k) m (Z.of_nat (length m)) 0 alive_nodes = Some out /\
      Permutation out (app alive_nodes (pool m)).
Proof.
  induction s as [| s IH]; intros m al k Hlen Hmax Hall.
  - cbn [Nat.add Reorganize_loop].
    destruct (Z.eqb_spec 0 (Z.of_nat (length m))) as [He | _]; [lia |].
    rewrite (Reorganize_pass_empty m 0 al Hall) by lia. rewrite Z.add_0_l.
    exists al. split.
    + destruct k; cbn [Reorganize_loop]; rewrite Z.eqb_refl; reflexivity.
    + rewrite (pool_of_empty m Hall), app_nil_r. reflexivity.
  - change (S (S s) + k)%nat with (S (S s + k)). cbn [Reorganize_loop].
    destruct (Z.eqb_spec 0 (Z.of_nat (length m))) as [He | _]; [lia |].
    destruct (Reorganize_pass_full s m 0 al Hall) as (m' & al' & Hp & Hall' & Hlen').
    rewrite Hp.
    destruct (IH m' al' k) as (out & Hout & Hperm); [lia | lia | exact Hall' |].
    rewrite Hlen' in Hout. exists out. split; [exact Hout |].
    rewrite Hperm. eapply Reorganize_pass_keeps. exact Hp.
Qed.

Lemma length_Reorganize_bucket (m : StdMap.t (list NodeStatus)) (n : NodeStatus) :
  (length m <= length (Reorganize_bucket m n) <= S (length m))%nat.
Proof.
  unfold Reorganize_bucket.
  assert (Hassign : forall k v (m0 : StdMap.t (list NodeStatus)),
             (length m0 <= length (StdMap.assign k v m0) <= S (length m0))%nat).
  { intros k v m0. induction m0 as [| [k' v'] m0 IH]; cbn [StdMap.assign length]; [lia |].
    destruct (String.eqb k k'); [cbn [length]; lia |].
    destruct (String.ltb k k'); cbn [length]; lia. }
  destruct (StdMap.find _ m); apply Hassign.
Qed.

Lemma length_buckets_of (l : list NodeStatus) : (length (buckets_of l) <= length l)%nat.
Proof.
  induction l as [| n l IH] using rev_ind; [cbn; lia |].
  rewrite buckets_of_snoc, length_app. cbn [length].
  pose proof (length_Reorganize_bucket (buckets_of l) n). lia.
Qed.

(** When every host has as many nodes as every other, [s] each, the loop
    of [Reorganize] ends after [s] + 1 rounds and returns all the nodes, each
    once. *)
Theorem Reorganize_even_hosts (s k : nat) (t_alive_nodes : list NodeStatus) :
  evenly_spread s t_alive_nodes ->
  t_alive_nodes <> [] ->
  Z.of_nat (length t_alive_nodes) <= INT_MAX ->
  exists out,
    Reorganize (S s + k) t_alive_nodes [] = Some out /\ Permutation out t_alive_nodes.
Proof.
  intros Hs Hne Hmax. unfold Reorganize. fold (buckets_of t_alive_nodes).
  pose proof (length_buckets_of t_alive_nodes) as Hle.
  pose proof (pool_buckets t_alive_nodes [] ltac:(constructor)) as Hpool.
  fold (buckets_of t_alive_nodes) in Hpool. cbn in Hpool. rewrite app_nil_r in Hpool.
  assert (Hpos : (0 < length (buckets_of t_alive_nodes))%nat).
  { destruct (buckets_of t_alive_nodes) eqn:Hb; [| cbn; lia].
    unfold pool in Hpool. cbn in Hpool. apply Permutation_nil in Hpool. congruence. }
  rewrite wrap32_in_range by (unfold is_int, INT_MIN, INT_MAX in *; lia).
  destruct (Reorganize_loop_uniform s (buckets_of t_alive_nodes) [] k Hpos ltac:(lia)
              (buckets_of_uniform s _ Hs)) as (out & Hout & Hperm).
  exists out. split; [exact Hout |]. rewrite Hperm. cbn [app]. exact Hpool.
Qed.

Lemma Reorganize_even_hosts_witness :
  exists out, Reorganize (S 2 + 0) two_by_two [] = Some out /\ Permutation out two_by_two.
Proof.
  apply (Reorganize_even_hosts 2 0 two_by_two).
  - intros n Hn. unfold two_by_two in Hn.
    repeat (apply elem_of_cons in Hn as [-> | Hn]; [vm_compute; reflexivity |]).
    inversion Hn.
  - discriminate.
  - vm_compute. discriminate.
Defined.

(** ** Reorganize: all nodes on one host *)

Lemma buckets_of_one_host (host : string) (l : list NodeStatus) :
  Forall (fun n => ip (node n) = host) l -> l <> [] -> buckets_of l = [(host, l)].
Proof.
  induction l as [| n l IH] using rev_ind; intros Hall Hne; [congruence |].
  apply Forall_app in Hall as [Hl Hn]. apply Forall_cons in Hn as [Hn _].
  rewrite buckets_of_snoc. unfold Reorganize_bucket. rewrite Hn.
  destruct l as [| a l'].
  - reflexivity.
  - rewrite IH by (try assumption; discriminate).
    cbn [StdMap.find StdMap.assign]. rewrite String.eqb_refl. reflexivity.
Qed.

Lemma Reorganize_loop_one_bucket (host : string) (bucket : list NodeStatus) :
  forall (alive_nodes : list NodeStatus) (k : nat),
    Reorganize_loop (S (length bucket) + k) [(host, bucket)] 1 0 alive_nodes =
      Some (app alive_nodes (rev bucket)).
Proof.
  induction bucket as [| x front IH] using rev_ind; intros al k.
  - cbn [length Nat.add Reorganize_loop Reorganize_pass last]. cbn [Z.eqb].
    change (wrap32 (0 + 1)) with 1. rewrite app_nil_r.
    destruct k; reflexivity.
  - rewrite length_app. cbn [length].
    replace (S (length front + 1) + k)%nat with (S (S (length front) + k)) by lia.
    cbn [Reorganize_loop Z.eqb Reorganize_pass]. rewrite last_snoc, removelast_last.
    rewrite IH. unfold push_back. rewrite rev_unit, <- app_assoc. reflexivity.
Qed.

(** Nodes that are all on one host come out of [Reorganize] in reverse
    order, after one round for each node and one more. *)
Theorem Reorganize_one_host (host : string) (t_alive_nodes : list NodeStatus) (k : nat) :
  Forall (fun n => ip (node n) = host) t_alive_nodes ->
  t_alive_nodes <> [] ->
  Reorganize (S (length t_alive_nodes) + k) t_alive_nodes [] = Some (rev t_alive_nodes).
Proof.
  intros Hall Hne. unfold Reorganize. fold (buckets_of t_alive_nodes).
  rewrite (buckets_of_one_host host _ Hall Hne).
  change (wrap32 (Z.of_nat (length [(host, t_alive_nodes)]))) with 1.
  apply Reorganize_loop_one_bucket.
Qed.

Lemma Reorganize_one_host_witness :
  Reorganize (S 3 + 0)
    [on_host "10.0.0.1" 5000; on_host "10.0.0.1" 5001; on_host "10.0.0.1" 5002] [] =
  Some [on_host "10.0.0.1" 5002; on_host "10.0.0.1" 5001; on_host "10.0.0.1" 5000].
Proof.
  apply (Reorganize_one_host "10.0.0.1"
           [on_host "10.0.0.1" 5000; on_host "10.0.0.1" 5001; on_host "10.0.0.1" 5002] 0).
  - repeat constructor.
  - discriminate.
Defined.

(** ** The keys of the store *)

Lemma PartitionId2Key_inj (i j : Z) :
  is_int i -> is_int j -> PartitionId2Key i = PartitionId2Key j -> i = j.
Proof.
  intros Hi Hj H. unfold PartitionId2Key, ZP_META_KEY_PREFIX in H.
  simpl in H. injection H as H. change ("" +:+ to_string i) with (to_string i) in H.
  change ("" +:+ to_string j) with (to_string j) in H.
  assert (Hs : stoi (to_string i) = stoi (to_string j)) by (rewrite H; reflexivity).
  rewrite !stoi_to_string in Hs by assumption. congruence.
Qed.

(** ** Distribute: what it writes, and when *)

Lemma Distribute_partitions_frame (count : nat) :
  forall (i : Z) (alive_nodes : list NodeStatus) (an_num : Z) (ms_info ms_info' : MetaCmdResponse_Pull)
         (st st' : ZPMetaServer) (s : Status) (key : string),
    Distribute_partitions count i alive_nodes an_num ms_info st = ((s, ms_info'), st') ->
    (forall j, key <> PartitionId2Key j) ->
    kv (floyd_ st') !! key = kv (floyd_ st) !! key /\ node_alive_ st' = node_alive_ st.
Proof.
  induction count as [| count IH]; intros i alive_nodes an_num ms_info ms_info' st st' s key H Hkey.
  - cbn in H. unfold ret in H. simplify_eq. split; reflexivity.
  - cbn [Distribute_partitions] in H. unfold_store.
    run_step H.
    + reduce_run H. apply (IH _ _ _ _ _ _ _ _ key) in H as [Hkv Hna]; [| exact Hkey].
      cbn [floyd_ kv node_alive_] in Hkv, Hna. rewrite Hkv, Hna. split; [| reflexivity].
      apply lookup_insert_ne. intros Heq. exact (Hkey i (eq_sym Heq)).
    + reduce_run H. simplify_eq. split; reflexivity.
Qed.

Lemma Distribute_place_PN (num : Z) (alive_nodes : list NodeStatus)
    (st st' : ZPMetaServer) (s : Status) :
  Distribute_place num alive_nodes st = (s, st') ->
  (s = OK /\ kv (floyd_ st') !! ZP_META_KEY_PN = Some (Str (to_string num))) \/
  (s = Corruption "floyd set error!" /\
   kv (floyd_ st') !! ZP_META_KEY_PN = kv (floyd_ st) !! ZP_META_KEY_PN).
Proof.
  intros H. unfold Distribute_place, bind in H.
  destruct (Distribute_partitions _ _ _ _ _ st) as [[s1 ms1] st1] eqn:Hloop.
  pose proof (Distribute_partitions_frame _ _ _ _ _ _ _ _ _ ZP_META_KEY_PN Hloop
                ltac:(intros j Heq; symmetry in Heq; exact (PartitionId2Key_not_PN j Heq)))
    as [Hpn _].
  assert (Hs1 : s1 = OK \/ s1 = Corruption "floyd set error!").
  { clear H. revert Hloop. generalize 0 at 1. generalize {| version := 0; info := [] |}.
    generalize st. induction (Z.to_nat num) as [| c IH]; intros st0 ms i0 Hloop.
    - cbn in Hloop. unfold ret in Hloop. simplify_eq. left. reflexivity.
    - cbn [Distribute_partitions] in Hloop. unfold_store. run_step Hloop.
      + reduce_run Hloop. eapply IH. exact Hloop.
      + reduce_run Hloop. simplify_eq. right. reflexivity. }
  unfold set_table_version in H. unfold_store.
  destruct Hs1 as [-> | ->]; run_all H; simplify_eq; cbn [floyd_ kv].
  all: rewrite ?lookup_insert_eq, ?lookup_insert_ne by discriminate.
  all: first [left; split; [reflexivity | reflexivity]
             | right; split; [reflexivity | exact Hpn] ].
Qed.

(** [Distribute] leaves the number of partitions under [PN] exactly when it
    returns [OK], whatever the calls of floyd do; with any other status the
    value under [PN] is what it was. *)
Theorem Distribute_sets_PN_iff_OK (fuel : nat) (num : Z) (st st' : ZPMetaServer) (s : Status) :
  Distribute fuel num st = Returns s st' ->
  (s = OK /\ kv (floyd_ st') !! ZP_META_KEY_PN = Some (Str (to_string num))) \/
  (s <> OK /\ kv (floyd_ st') !! ZP_META_KEY_PN = kv (floyd_ st) !! ZP_META_KEY_PN).
Proof.
  intros H. unfold Distribute, Distribute_nodes, PartitionNums in H. unfold_store.
  remember (kv (floyd_ st) !! ZP_META_KEY_PN) as old eqn:Hold.
  run_all H; simplify_eq;
    try (right; split; [discriminate | cbn [floyd_ kv]; congruence]).
  all: match goal with
       | Hp : Distribute_place _ _ _ = _ |- _ =>
           apply Distribute_place_PN in Hp as [[-> Hpn] | [-> Hpn]];
           cbn [floyd_ kv] in Hpn;
           [left; split; [reflexivity | exact Hpn]
           | right; split; [discriminate | congruence]]
       end.
Qed.

Lemma Distribute_sets_PN_iff_OK_witness :
  (OK = OK /\
   kv (floyd_ (after_Distribute 3 1 MT_write_fails)) !! ZP_META_KEY_PN
     = Some (Str (to_string 1))) \/
  (OK <> OK /\
   kv (floyd_ (after_Distribute 3 1 MT_write_fails)) !! ZP_META_KEY_PN
     = kv (floyd_ MT_write_fails) !! ZP_META_KEY_PN).
Proof.
  apply (Distribute_sets_PN_iff_OK 3 1 MT_write_fails). vm_compute. reflexivity.
Defined.

(** A call of [Distribute] that returns anything but [OK] or the failure of
    a write has written nothing: the store, the journal of writes and the
    cached version are what they were. *)
Theorem Distribute_rejection_writes_nothing (fuel : nat) (num : Z) (st st' : ZPMetaServer)
    (s : Status) :
  Distribute fuel num st = Returns s st' ->
  s <> OK -> s <> Corruption "floyd set error!" ->
  kv (floyd_ st') = kv (floyd_ st) /\
  journal (floyd_ st') = journal (floyd_ st) /\
  version_ st' = version_ st /\
  node_alive_ st' = node_alive_ st.
Proof.
  intros H Hok Hset. unfold Distribute, Distribute_nodes, PartitionNums in H. unfold_store.
  run_all H; simplify_eq; try (repeat split; reflexivity).
  all: match goal with
       | Hp : Distribute_place _ _ _ = _ |- _ =>
           apply Distribute_place_PN in Hp as [[-> _] | [-> _]]; congruence
       end.
Qed.

Lemma Distribute_rejection_writes_nothing_witness :
  kv (floyd_ (after_Distribute 3 4 four_partitions)) = kv (floyd_ four_partitions) /\
  journal (floyd_ (after_Distribute 3 4 four_partitions)) = journal (floyd_ four_partitions) /\
  version_ (after_Distribute 3 4 four_partitions) = version_ four_partitions /\
  node_alive_ (after_Distribute 3 4 four_partitions) = node_alive_ four_partitions.
Proof.
  apply (Distribute_rejection_writes_nothing 3 4 four_partitions _
           (Corruption "Already Distribute")).
  - vm_compute. reflexivity.
  - discriminate.
  - discriminate.
Defined.
(** ** Reorganize: every host is served *)

Lemma Reorganize_pass_takes_last (m : StdMap.t (list NodeStatus)) :
  forall (empty_count : Z) (alive_nodes : list NodeStatus)
         (m' : StdMap.t (list NodeStatus)) (empty_count' : Z) (alive_nodes' : list NodeStatus),
    Reorganize_pass m empty_count alive_nodes = (m', empty_count', alive_nodes') ->
    (forall x, x ∈ alive_nodes -> x ∈ alive_nodes') /\
    (forall k bucket back, (k, bucket) ∈ m -> last bucket = Some back -> back ∈ alive_nodes').
Proof.
  induction m as [| [k0 b0] m IH]; intros ec acc m' ec' acc' H.
  - cbn in H. simplify_eq. split; [auto |]. intros k bucket back Hin. inversion Hin.
  - cbn [Reorganize_pass] in H. destruct (last b0) as [back0 |] eqn:Hlast.
    + destruct (Reorganize_pass m ec (push_back acc back0)) as [[m1 ec1] acc1] eqn:Hp.
      simplify_eq. apply IH in Hp as [Hacc Hm]. split.
      * intros x Hx. apply Hacc. unfold push_back. apply elem_of_app. left. exact Hx.
      * intros k bucket back Hin Hl. apply elem_of_cons in Hin as [Heq | Hin].
        -- simplify_eq. apply Hacc. unfold push_back. apply elem_of_app. right.
           apply list_elem_of_singleton. reflexivity.
        -- eapply Hm; eassumption.
    + destruct (Reorganize_pass m (wrap32 (ec + 1)) acc) as [[m1 ec1] acc1] eqn:Hp.
      simplify_eq. apply IH in Hp as [Hacc Hm]. split; [exact Hacc |].
      intros k bucket back Hin Hl. apply elem_of_cons in Hin as [Heq | Hin].
      * simplify_eq.
      * eapply Hm; eassumption.
Qed.

Lemma Reorganize_loop_grows (fuel : nat) :
  forall (m : StdMap.t (list NodeStatus)) (msize empty_count : Z)
         (alive_nodes out : list NodeStatus),
    Reorganize_loop fuel m msize empty_count alive_nodes = Some out ->
    forall x, x ∈ alive_nodes -> x ∈ out.
Proof.
  induction fuel as [| fuel IH]; intros m msize ec acc out H x Hx.
  - cbn in H. destruct (ec =? msize); simplify_eq. exact Hx.
  - cbn [Reorganize_loop] in H. destruct (ec =? msize); [simplify_eq; exact Hx |].
    destruct (Reorganize_pass m ec acc) as [[m1 ec1] acc1] eqn:Hp.
    apply Reorganize_pass_takes_last in Hp as [Hacc _].
    eapply IH; [exact H |]. apply Hacc. exact Hx.
Qed.

Lemma Reorganize_host_in_output (fuel : nat) (t_alive_nodes out : list NodeStatus)
    (n : NodeStatus) :
  Z.of_nat (length t_alive_nodes) <= INT_MAX ->
  Reorganize fuel t_alive_nodes [] = Some out ->
  n ∈ t_alive_nodes ->
  exists n', n' ∈ out /\ n' ∈ t_alive_nodes /\ ip (node n') = ip (node n).
Proof.
  intros Hmax H Hn. unfold Reorganize in H. fold (buckets_of t_alive_nodes) in H.
  pose proof (length_buckets_of t_alive_nodes) as Hle.
  pose proof (find_buckets_of t_alive_nodes (ip (node n))) as Hfind.
  assert (Hnn : n ∈ nodes_on (ip (node n)) t_alive_nodes).
  { unfold nodes_on. apply list_elem_of_filter. split; [reflexivity | exact Hn]. }
  destruct (nodes_on (ip (node n)) t_alive_nodes) as [| b0 bucket] eqn:Hb;
    [inversion Hnn |].
  rewrite <- Hb in Hfind.
  apply find_elem in Hfind; [| apply buckets_of_sorted].
  assert (Hpos : (0 < length (buckets_of t_alive_nodes))%nat).
  { destruct (buckets_of t_alive_nodes); [inversion Hfind | cbn; lia]. }
  rewrite wrap32_in_range in H by (unfold is_int, INT_MIN, INT_MAX in *; lia).
  destruct fuel as [| fuel]; cbn [Reorganize_loop] in H.
  - destruct (0 =? Z.of_nat (length (buckets_of t_alive_nodes))) eqn:E; [lia | discriminate].
  - destruct (0 =? Z.of_nat (length (buckets_of t_alive_nodes))) eqn:E; [lia |].
    destruct (Reorganize_pass (buckets_of t_alive_nodes) 0 []) as [[m1 ec1] acc1] eqn:Hp.
    apply Reorganize_pass_takes_last in Hp as [_ Hm].
    destruct (last (nodes_on (ip (node n)) t_alive_nodes)) as [back |] eqn:Hlast.
    + exists back. specialize (Hm _ _ _ Hfind Hlast).
      apply last_Some_elem_of in Hlast. unfold nodes_on in Hlast.
      apply list_elem_of_filter in Hlast as [Hip Hin].
      split; [| split; assumption].
      eapply Reorganize_loop_grows; eassumption.
    + apply last_None in Hlast. rewrite Hb in Hlast. discriminate.
Qed.

Lemma Reorganize_output_size (fuel : nat) (t_alive_nodes out : list NodeStatus) :
  Z.of_nat (length t_alive_nodes) <= INT_MAX ->
  Reorganize fuel t_alive_nodes [] = Some out ->
  t_alive_nodes <> [] ->
  (0 < length out <= length t_alive_nodes)%nat.
Proof.
  intros Hmax H Hne. split.
  - destruct t_alive_nodes as [| n l]; [congruence |].
    destruct (Reorganize_host_in_output _ _ _ n Hmax H) as (n' & Hin & _); [left |].
    destruct out; [inversion Hin | cbn; lia].
  - unfold Reorganize in H. apply Reorganize_loop_keeps in H as [left_in Hperm].
    rewrite pool_buckets in Hperm by constructor. cbn in Hperm. rewrite app_nil_r in Hperm.
    apply Permutation_length in Hperm. rewrite length_app in Hperm. lia.
Qed.

(** [Reorganize] leaves no host out: whenever it returns, every host that
    has a node in the input has one in the output. The output of a
    non-empty input is not empty, so the remainders [Distribute] takes by its
    size are defined. *)
Theorem Reorganize_serves_every_host (fuel : nat) (t_alive_nodes out : list NodeStatus) :
  Z.of_nat (length t_alive_nodes) <= INT_MAX ->
  Reorganize fuel t_alive_nodes [] = Some out ->
  (forall n, n ∈ t_alive_nodes ->
     exists n', n' ∈ out /\ n' ∈ t_alive_nodes /\ ip (node n') = ip (node n)) /\
  (t_alive_nodes <> [] -> out <> []).
Proof.
  intros Hmax H. split.
  - intros n Hn. exact (Reorganize_host_in_output _ _ _ n Hmax H Hn).
  - intros Hne. pose proof (Reorganize_output_size _ _ _ Hmax H Hne) as Hlen.
    intros ->. cbn in Hlen. lia.
Qed.

Lemma Reorganize_serves_every_host_witness :
  (forall n, n ∈ uneven_hosts ->
     exists n', n' ∈ [ on_host "10.0.0.1" 5003; on_host "10.0.0.2" 5000;
                       on_host "10.0.0.1" 5002; on_host "10.0.0.1" 5001 ] /\
                n' ∈ uneven_hosts /\ ip (node n') = ip (node n)) /\
  (uneven_hosts <> [] ->
   [ on_host "10.0.0.1" 5003; on_host "10.0.0.2" 5000;
     on_host "10.0.0.1" 5002; on_host "10.0.0.1" 5001 ] <> []).
Proof.
  apply (Reorganize_serves_every_host 3 uneven_hosts).
  - vm_compute. discriminate.
  - vm_compute. reflexivity.
Defined.
(** ** Distribute: the table it lays out *)

Lemma length_Distribute_layout (count : nat) :
  forall (i : Z) (alive_nodes : list NodeStatus) (an_num : Z),
    length (Distribute_layout count i alive_nodes an_num) = count.
Proof.
  induction count as [| count IH]; intros i a n; cbn; [reflexivity |]. rewrite IH. reflexivity.
Qed.

Lemma Distribute_layout_lookup (count : nat) :
  forall (i : Z) (alive_nodes : list NodeStatus) (an_num : Z) (k : nat),
    (k < count)%nat ->
    Distribute_layout count i alive_nodes an_num !! k =
      Some (partition_at alive_nodes an_num (i + Z.of_nat k)).
Proof.
  induction count as [| count IH]; intros i a n k Hk; [lia |].
  cbn [Distribute_layout]. destruct k as [| k].
  - cbn. rewrite Z.add_0_r. reflexivity.
  - cbn [lookup list_lookup]. rewrite IH by lia. do 2 f_equal. lia.
Qed.

Lemma Distribute_stored_other (count : nat) (alive_nodes : list NodeStatus) (an_num : Z) :
  forall (i : Z) (st : ZPMetaServer) (key : string),
    (forall j, i <= j < i + Z.of_nat count -> key <> PartitionId2Key j) ->
    kv (floyd_ (Distribute_stored count i alive_nodes an_num st)) !! key =
      kv (floyd_ st) !! key.
Proof.
  induction count as [| count IH]; intros i st key Hkey; [reflexivity |].
  cbn [Distribute_stored]. rewrite IH by (intros j Hj; apply Hkey; lia).
  cbn [stored with_floyd floyd_ kv]. apply lookup_insert_ne.
  intros Heq. apply (Hkey i); [lia | symmetry; exact Heq].
Qed.

Lemma Distribute_stored_lookup (count : nat) (alive_nodes : list NodeStatus) (an_num : Z) :
  forall (i j : Z) (st : ZPMetaServer),
    0 <= i -> i + Z.of_nat count <= INT_MAX + 1 ->
    i <= j < i + Z.of_nat count ->
    kv (floyd_ (Distribute_stored count i alive_nodes an_num st)) !! PartitionId2Key j =
      Some (SerializedReplicaset (replicaset_at alive_nodes an_num j)).
Proof.
  induction count as [| count IH]; intros i j st Hi Hmax Hj; [lia |].
  cbn [Distribute_stored]. destruct (Z.eq_dec j i) as [-> | Hne].
  - rewrite Distribute_stored_other.
    + cbn [stored with_floyd floyd_ kv]. apply lookup_insert_eq.
    + intros j Hj' Heq. apply PartitionId2Key_inj in Heq;
        unfold is_int, INT_MIN, INT_MAX in *; lia.
  - apply IH; lia.
Qed.

Lemma vector_at_lookup (alive_nodes : list NodeStatus) (k : Z) :
  0 <= k < Z.of_nat (length alive_nodes) ->
  alive_nodes !! Z.to_nat k = Some (vector_at alive_nodes k).
Proof.
  intros Hk. unfold vector_at. rewrite nth_lookup.
  destruct (lookup_lt_is_Some_2 alive_nodes (Z.to_nat k)) as [x Hx]; [lia |].
  rewrite Hx. reflexivity.
Qed.

(** The first call of [Distribute] when no call of floyd fails: with [n]
    nodes in the order [Reorganize] gives, the table holds the partitions
    0 to [num] - 1 in this order, partition [i] has the node at [i mod n] as
    master and the nodes at [(i + 1) mod n] and [(i + 2) mod n] as slaves, and
    the replica set stored under the key of [i] names the same three
    nodes. *)
Theorem Distribute_table_layout (st : ZPMetaServer) (fuel : nat) (num : Z) (nodes : Nodes)
    (alive_nodes : list NodeStatus) :
  script (floyd_ st) = [] ->
  kv (floyd_ st) !! ZP_META_KEY_PN = None ->
  kv (floyd_ st) !! ZP_META_KEY_ND = Some (SerializedNodes nodes) ->
  GetAllAliveNode nodes <> [] ->
  Z.of_nat (length (GetAllAliveNode nodes)) <= INT_MAX ->
  Reorganize fuel (GetAllAliveNode nodes) [] = Some alive_nodes ->
  0 <= num < INT_MAX ->
  exists st' T,
    Distribute fuel num st = Returns OK st' /\
    kv (floyd_ st') !! ZP_META_KEY_MT = Some (SerializedPull T) /\
    length (info T) = Z.to_nat num /\
    forall i, 0 <= i < num ->
      exists m s1 s2,
        alive_nodes !! Z.to_nat (i mod Z.of_nat (length alive_nodes)) = Some m /\
        alive_nodes !! Z.to_nat ((i + 1) mod Z.of_nat (length alive_nodes)) = Some s1 /\
        alive_nodes !! Z.to_nat ((i + 2) mod Z.of_nat (length alive_nodes)) = Some s2 /\
        info T !! Z.to_nat i =
          Some {| id := i; master := node m; slaves := [node s1; node s2] |} /\
        kv (floyd_ st') !! PartitionId2Key i =
          Some (SerializedReplicaset {| rs_id := i; rs_node := [node m; node s1; node s2] |}).
Proof.
  intros Hs Hpn Hnd Hne Hmax Hre Hnum.
  pose proof (Reorganize_output_size _ _ _ Hmax Hre Hne) as Hlen.
  set (n := Z.of_nat (length alive_nodes)) in *.
  assert (Hn : wrap32 n = n)
    by (apply wrap32_in_range; unfold is_int, INT_MIN, INT_MAX in *; lia).
  destruct (placed_frame num alive_nodes st Hs) as (_ & _ & _ & Hmt & _). fold n in Hmt.
  exists (placed num alive_nodes st). eexists. split; [| split; [exact Hmt |]].
  - unfold Distribute. rewrite (PartitionNums_no_faults _ Hs), Hpn. cbn [negb Z.eqb].
    apply (Distribute_nodes_no_faults fuel num nodes alive_nodes st Hs Hnd Hne Hre).
  - cbn [info]. split; [apply length_Distribute_layout |].
    intros i Hi.
    assert (H0 : 0 <= i mod n < n) by (apply Z.mod_pos_bound; lia).
    assert (H1 : 0 <= (i + 1) mod n < n) by (apply Z.mod_pos_bound; lia).
    assert (H2 : 0 <= (i + 2) mod n < n) by (apply Z.mod_pos_bound; lia).
    exists (vector_at alive_nodes (i mod n)), (vector_at alive_nodes ((i + 1) mod n)),
           (vector_at alive_nodes ((i + 2) mod n)).
    split; [apply vector_at_lookup; exact H0 |].
    split; [apply vector_at_lookup; exact H1 |].
    split; [apply vector_at_lookup; exact H2 |].
    assert (Hw1 : wrap32 (i + 1) = i + 1)
      by (apply wrap32_in_range; unfold is_int, INT_MIN, INT_MAX in *; lia).
    assert (Hw2 : wrap32 (i + 2) = i + 2)
      by (apply wrap32_in_range; unfold is_int, INT_MIN, INT_MAX in *; lia).
    subst n. split.
    + rewrite Distribute_layout_lookup by lia. rewrite Z2Nat.id, Z.add_0_l by lia.
      unfold partition_at. rewrite Hn, Hw1, Hw2, !Z.rem_mod_nonneg by lia. reflexivity.
    + unfold placed. cbn [stored with_floyd with_version floyd_ kv].
      rewrite lookup_insert_ne by (intros Heq; symmetry in Heq; exact (PartitionId2Key_not_PN i Heq)).
      rewrite lookup_insert_ne by (intros Heq; symmetry in Heq; exact (PartitionId2Key_not_MT i Heq)).
      rewrite Distribute_stored_lookup by (unfold INT_MAX in *; lia).
      unfold replicaset_at. rewrite Hn, Hw1, Hw2, !Z.rem_mod_nonneg by lia. reflexivity.
Qed.

Lemma Distribute_table_layout_witness :
  exists st' T,
    Distribute 3 5 three_hosts = Returns OK st' /\
    kv (floyd_ st') !! ZP_META_KEY_MT = Some (SerializedPull T) /\
    length (info T) = Z.to_nat 5 /\
    forall i, 0 <= i < 5 ->
      exists m s1 s2,
        all_up !! Z.to_nat (i mod Z.of_nat (length all_up)) = Some m /\
        all_up !! Z.to_nat ((i + 1) mod Z.of_nat (length all_up)) = Some s1 /\
        all_up !! Z.to_nat ((i + 2) mod Z.of_nat (length all_up)) = Some s2 /\
        info T !! Z.to_nat i =
          Some {| id := i; master := node m; slaves := [node s1; node s2] |} /\
        kv (floyd_ st') !! PartitionId2Key i =
          Some (SerializedReplicaset {| rs_id := i; rs_node := [node m; node s1; node s2] |}).
Proof.
  apply (Distribute_table_layout three_hosts 3 5 all_up all_up).
  - vm_compute. reflexivity.
  - vm_compute. reflexivity.
  - vm_compute. reflexivity.
  - discriminate.
  - vm_compute. discriminate.
  - vm_compute. reflexivity.
  - unfold INT_MAX. lia.
Defined.

Lemma Distribute_no_faults (st : ZPMetaServer) (fuel : nat) (num : Z) (nodes : Nodes)
    (alive_nodes : list NodeStatus) :
  script (floyd_ st) = [] ->
  kv (floyd_ st) !! ZP_META_KEY_PN = None ->
  kv (floyd_ st) !! ZP_META_KEY_ND = Some (SerializedNodes nodes) ->
  GetAllAliveNode nodes <> [] ->
  Reorganize fuel (GetAllAliveNode nodes) [] = Some alive_nodes ->
  Distribute fuel num st = Returns OK (placed num alive_nodes st) /\
  kv (floyd_ (placed num alive_nodes st)) !! ZP_META_KEY_MT =
    Some (SerializedPull
            {| version := wrap64 (version_ st + 1);
               info := Distribute_layout (Z.to_nat num) 0 alive_nodes
                         (wrap32 (Z.of_nat (length alive_nodes))) |}).
Proof.
  intros Hs Hpn Hnd Hne Hre.
  destruct (placed_frame num alive_nodes st Hs) as (_ & _ & _ & Hmt & _).
  split; [| exact Hmt].
  unfold Distribute. rewrite (PartitionNums_no_faults _ Hs), Hpn. cbn [negb Z.eqb].
  apply (Distribute_nodes_no_faults fuel num nodes alive_nodes st Hs Hnd Hne Hre).
Qed.

Lemma mod_shift_ne (i d n : Z) : 0 < d < n -> (i + d) mod n <> i mod n.
Proof.
  intros Hd Heq.
  assert (H : (i + d - i) mod n = 0) by (rewrite Zminus_mod, Heq, Z.sub_diag; apply Zmod_0_l).
  replace (i + d - i) with d in H by lia. rewrite Z.mod_small in H by lia. lia.
Qed.

Lemma Reorganize_NoDup (fuel : nat) (t_alive_nodes out : list NodeStatus) :
  Reorganize fuel t_alive_nodes [] = Some out ->
  NoDup (map node t_alive_nodes) -> NoDup (map node out).
Proof.
  intros H Hnd. unfold Reorganize in H. apply Reorganize_loop_keeps in H as [left_in Hperm].
  rewrite pool_buckets in Hperm by constructor. cbn in Hperm. rewrite app_nil_r in Hperm.
  apply (Permutation_map node) in Hperm. rewrite <- Hperm, map_app in Hnd.
  apply NoDup_app in Hnd as [Hout _]. exact Hout.
Qed.

Lemma partition_at_distinct (alive_nodes : list NodeStatus) (i : Z) :
  NoDup (map node alive_nodes) ->
  (3 <= length alive_nodes)%nat -> Z.of_nat (length alive_nodes) <= INT_MAX ->
  0 <= i < INT_MAX - 1 ->
  exists s1 s2,
    slaves (partition_at alive_nodes (wrap32 (Z.of_nat (length alive_nodes))) i) = [s1; s2] /\
    NoDup [master (partition_at alive_nodes (wrap32 (Z.of_nat (length alive_nodes))) i); s1; s2].
Proof.
  intros Hnd Hlen Hmax Hi. set (n := Z.of_nat (length alive_nodes)) in *.
  assert (Hn : wrap32 n = n)
    by (apply wrap32_in_range; unfold is_int, INT_MIN, INT_MAX in *; lia).
  assert (Hw1 : wrap32 (i + 1) = i + 1)
    by (apply wrap32_in_range; unfold is_int, INT_MIN, INT_MAX in *; lia).
  assert (Hw2 : wrap32 (i + 2) = i + 2)
    by (apply wrap32_in_range; unfold is_int, INT_MIN, INT_MAX in *; lia).
  unfold partition_at. cbn [slaves master]. rewrite Hn, Hw1, Hw2, !Z.rem_mod_nonneg by lia.
  do 2 eexists. split; [reflexivity |].
  assert (H0 : 0 <= i mod n < n) by (apply Z.mod_pos_bound; lia).
  assert (H1 : 0 <= (i + 1) mod n < n) by (apply Z.mod_pos_bound; lia).
  assert (H2 : 0 <= (i + 2) mod n < n) by (apply Z.mod_pos_bound; lia).
  assert (Hinj : forall a b, 0 <= a < n -> 0 <= b < n -> a <> b ->
                   node (vector_at alive_nodes a) <> node (vector_at alive_nodes b)).
  { intros a b Ha Hb Hab Heq.
    pose proof (vector_at_lookup alive_nodes a Ha) as La.
    pose proof (vector_at_lookup alive_nodes b Hb) as Lb.
    apply (f_equal (fmap node)) in La, Lb. rewrite <- !list_lookup_fmap in La, Lb.
    cbn in La, Lb. rewrite Heq in La.
    pose proof (NoDup_lookup _ _ _ _ Hnd La Lb). lia. }
  pose proof (mod_shift_ne i 1 n ltac:(lia)) as N1.
  pose proof (mod_shift_ne i 2 n ltac:(lia)) as N2.
  pose proof (mod_shift_ne (i + 1) 1 n ltac:(lia)) as N3.
  replace (i + 1 + 1) with (i + 2) in N3 by lia.
  repeat constructor; rewrite ?elem_of_cons, ?elem_of_nil.
  - intros [Heq | [Heq | []]]; revert Heq; apply Hinj; auto.
  - intros [Heq | []]; revert Heq; apply Hinj; auto.
  - intros [].
Qed.

(** With at least three nodes of different endpoints to place, every
    partition [Distribute] lays out has a master and two slaves that are
    three different nodes. *)
Theorem Distribute_replicas_distinct (st : ZPMetaServer) (fuel : nat) (num : Z) (nodes : Nodes)
    (alive_nodes : list NodeStatus) :
  script (floyd_ st) = [] ->
  kv (floyd_ st) !! ZP_META_KEY_PN = None ->
  kv (floyd_ st) !! ZP_META_KEY_ND = Some (SerializedNodes nodes) ->
  NoDup (map node (GetAllAliveNode nodes)) ->
  Z.of_nat (length (GetAllAliveNode nodes)) <= INT_MAX ->
  Reorganize fuel (GetAllAliveNode nodes) [] = Some alive_nodes ->
  (3 <= length alive_nodes)%nat ->
  0 <= num < INT_MAX ->
  exists st' T,
    Distribute fuel num st = Returns OK st' /\
    kv (floyd_ st') !! ZP_META_KEY_MT = Some (SerializedPull T) /\
    Forall (fun p => exists s1 s2, slaves p = [s1; s2] /\ NoDup [master p; s1; s2]) (info T).
Proof.
  intros Hs Hpn Hnd Hdup Hmax Hre Hlen Hnum.
  assert (Hne : GetAllAliveNode nodes <> []).
  { intros He. rewrite He in Hre. unfold Reorganize in Hre. cbn [fold_left length] in Hre.
    change (wrap32 (Z.of_nat 0)) with 0 in Hre.
    destruct fuel; cbn [Reorganize_loop Z.eqb] in Hre; simplify_eq; cbn in Hlen; lia. }
  pose proof (Reorganize_output_size _ _ _ Hmax Hre Hne) as Hsize.
  destruct (Distribute_no_faults st fuel num nodes alive_nodes Hs Hpn Hnd Hne Hre) as [Hd Hmt].
  do 2 eexists. split; [exact Hd |]. split; [exact Hmt |].
  cbn [info]. apply Forall_lookup. intros k p Hk.
  pose proof (lookup_lt_Some _ _ _ Hk) as Hlt. rewrite length_Distribute_layout in Hlt.
  rewrite Distribute_layout_lookup in Hk by exact Hlt. simplify_eq.
  apply partition_at_distinct; [| lia | lia | lia].
  eapply Reorganize_NoDup; eassumption.
Qed.

Lemma Distribute_replicas_distinct_witness :
  exists st' T,
    Distribute 3 5 three_hosts = Returns OK st' /\
    kv (floyd_ st') !! ZP_META_KEY_MT = Some (SerializedPull T) /\
    Forall (fun p => exists s1 s2, slaves p = [s1; s2] /\ NoDup [master p; s1; s2]) (info T).
Proof.
  apply (Distribute_replicas_distinct three_hosts 3 5 all_up all_up).
  - vm_compute. reflexivity.
  - vm_compute. reflexivity.
  - vm_compute. reflexivity.
  - change (NoDup [host1; host2; host3]).
    repeat apply NoDup_cons_2; try apply NoDup_nil_2;
      rewrite ?elem_of_cons, ?elem_of_nil; intuition discriminate.
  - vm_compute. discriminate.
  - vm_compute. reflexivity.
  - cbn. lia.
  - unfold INT_MAX. lia.
Defined.

(** With one or two nodes to place, every partition [Distribute] lays out
    has its master again as its second slave: a partition has three replicas
    on fewer than three nodes. *)
Theorem Distribute_few_nodes_repeat (st : ZPMetaServer) (fuel : nat) (num : Z) (nodes : Nodes)
    (alive_nodes : list NodeStatus) :
  script (floyd_ st) = [] ->
  kv (floyd_ st) !! ZP_META_KEY_PN = None ->
  kv (floyd_ st) !! ZP_META_KEY_ND = Some (SerializedNodes nodes) ->
  GetAllAliveNode nodes <> [] ->
  Z.of_nat (length (GetAllAliveNode nodes)) <= INT_MAX ->
  Reorganize fuel (GetAllAliveNode nodes) [] = Some alive_nodes ->
  (length alive_nodes <= 2)%nat ->
  0 <= num < INT_MAX ->
  exists st' T,
    Distribute fuel num st = Returns OK st' /\
    kv (floyd_ st') !! ZP_META_KEY_MT = Some (SerializedPull T) /\
    Forall (fun p => exists s1, slaves p = [s1; master p]) (info T).
Proof.
  intros Hs Hpn Hnd Hne Hmax Hre Hlen Hnum.
  pose proof (Reorganize_output_size _ _ _ Hmax Hre Hne) as Hsize.
  destruct (Distribute_no_faults st fuel num nodes alive_nodes Hs Hpn Hnd Hne Hre) as [Hd Hmt].
  do 2 eexists. split; [exact Hd |]. split; [exact Hmt |].
  cbn [info]. apply Forall_lookup. intros k p Hk.
  pose proof (lookup_lt_Some _ _ _ Hk) as Hlt. rewrite length_Distribute_layout in Hlt.
  rewrite Distribute_layout_lookup in Hk by exact Hlt. simplify_eq.
  unfold partition_at. cbn [slaves master]. eexists. do 3 f_equal.
  assert (Hw2 : wrap32 (0 + Z.of_nat k + 2) = Z.of_nat k + 2)
    by (rewrite Z.add_0_l; apply wrap32_in_range; unfold is_int, INT_MIN, INT_MAX in *; lia).
  rewrite Hw2, Z.add_0_l.
  assert (Hn : wrap32 (Z.of_nat (length alive_nodes)) = Z.of_nat (length alive_nodes))
    by (apply wrap32_in_range; unfold is_int, INT_MIN, INT_MAX in *; lia).
  rewrite Hn, !Z.rem_mod_nonneg by lia.
  assert (Hcase : Z.of_nat (length alive_nodes) = 1 \/ Z.of_nat (length alive_nodes) = 2) by lia.
  destruct Hcase as [-> | ->].
  - rewrite !Z.mod_1_r. reflexivity.
  - replace (Z.of_nat k + 2) with (Z.of_nat k + 1 * 2) by lia.
    rewrite Z_mod_plus_full. reflexivity.
Qed.

Lemma Distribute_few_nodes_repeat_witness :
  exists st' T,
    Distribute 2 3 one_host = Returns OK st' /\
    kv (floyd_ st') !! ZP_META_KEY_MT = Some (SerializedPull T) /\
    Forall (fun p => exists s1, slaves p = [s1; master p]) (info T).
Proof.
  apply (Distribute_few_nodes_repeat one_host 2 3 [up host1] [up host1]).
  - vm_compute. reflexivity.
  - vm_compute. reflexivity.
  - vm_compute. reflexivity.
  - discriminate.
  - vm_compute. discriminate.
  - vm_compute. reflexivity.
  - cbn. lia.
  - unfold INT_MAX. lia.
Defined.

(** ** InitVersion *)

Lemma InitVersion_loop_version (script0 : list bool) :
  forall (st st' : ZPMetaServer) (s : Status),
    script (floyd_ st) = script0 ->
    InitVersion_loop script0 st = (s, st') ->
    s = OK /\
    update_thread_ st' = update_thread_ st /\
    (kv (floyd_ st) !! ZP_META_KEY_MT = None -> version_ st' = -1) /\
    (kv (floyd_ st) !! ZP_META_KEY_MT = Some (Str "") -> version_ st' = -1) /\
    (forall T, kv (floyd_ st) !! ZP_META_KEY_MT = Some (SerializedPull T) ->
               version_ st' = version T).
Proof.
  induction script0 as [| b rest IH]; intros st st' s Hsc H;
    cbn [InitVersion_loop] in H; unfold_store; rewrite Hsc in H; cbn [hd tl] in H.
  - run_all H; simplify_eq; cbn [version_ update_thread_];
      repeat split; try congruence; intros; simplify_eq;
      cbn [is_empty_string Pull_ParseFromString] in *; simplify_eq;
      try reflexivity; congruence.
  - destruct b.
    + run_all H; simplify_eq; cbn [version_ update_thread_];
        repeat split; try congruence; intros; simplify_eq;
      cbn [is_empty_string Pull_ParseFromString] in *; simplify_eq;
      try reflexivity; congruence.
    + reduce_run H. apply IH in H; [| reflexivity].
      cbn [floyd_ kv update_thread_] in H. exact H.
Qed.

(** Whenever [InitVersion] returns, it returns [OK]: it has read [MT] again
    after every read that failed, up to the first read that went through,
    and has loaded the cached version from what is stored, the version of
    the stored table, or -1 when the empty string is stored. It has written
    nothing and has left the liveness map and the queue of updates alone. *)
Theorem InitVersion_loads_version (st st' : ZPMetaServer) (s : Status) :
  InitVersion st = (s, st') ->
  s = OK /\
  kv (floyd_ st') = kv (floyd_ st) /\
  journal (floyd_ st') = journal (floyd_ st) /\
  script (floyd_ st') = after_failures (script (floyd_ st)) /\
  node_alive_ st' = node_alive_ st /\
  update_thread_ st' = update_thread_ st /\
  (kv (floyd_ st) !! ZP_META_KEY_MT = Some (Str "") -> version_ st' = -1) /\
  (forall T, kv (floyd_ st) !! ZP_META_KEY_MT = Some (SerializedPull T) ->
             version_ st' = version T).
Proof.
  intros Hrun.
  destruct (InitVersion_reads_once st) as (st2 & Hrun2 & Hscript & Hkv & Hj).
  rewrite Hrun in Hrun2. injection Hrun2 as -> <-.
  split; [reflexivity |]. split; [exact Hkv |]. split; [exact Hj |].
  split; [exact Hscript |].
  unfold InitVersion in Hrun.
  destruct (InitVersion_loop_frame _ _ _ _ Hrun) as [_ Hna]. split; [exact Hna |].
  destruct (InitVersion_loop_version _ _ _ _ eq_refl Hrun) as (_ & Hut & _ & Hempty & HT).
  split; [exact Hut |]. split; [exact Hempty | exact HT].
Qed.

Lemma InitVersion_loads_version_witness :
  OK = OK /\
  kv (floyd_ (after InitVersion MT_read_fails_twice)) = kv (floyd_ MT_read_fails_twice) /\
  journal (floyd_ (after InitVersion MT_read_fails_twice)) =
    journal (floyd_ MT_read_fails_twice) /\
  script (floyd_ (after InitVersion MT_read_fails_twice)) =
    after_failures (script (floyd_ MT_read_fails_twice)) /\
  node_alive_ (after InitVersion MT_read_fails_twice) = node_alive_ MT_read_fails_twice /\
  update_thread_ (after InitVersion MT_read_fails_twice) =
    update_thread_ MT_read_fails_twice /\
  (kv (floyd_ MT_read_fails_twice) !! ZP_META_KEY_MT = Some (Str "") ->
   version_ (after InitVersion MT_read_fails_twice) = -1) /\
  (forall T, kv (floyd_ MT_read_fails_twice) !! ZP_META_KEY_MT = Some (SerializedPull T) ->
             version_ (after InitVersion MT_read_fails_twice) = version T).
Proof.
  apply (InitVersion_loads_version MT_read_fails_twice (after InitVersion MT_read_fails_twice) OK).
  vm_compute. reflexivity.
Defined.

(** ** The nodes table *)

Lemma set_first_status_endpoints (nodes : Nodes) (ip0 : string) (port0 : Z) (status0 : Z) :
  forall (nodes' : Nodes) (changed : bool),
    set_first_status nodes ip0 port0 status0 = Some (nodes', changed) ->
    map node nodes' = map node nodes /\ (changed = false -> nodes' = nodes).
Proof.
  induction nodes as [| ns rest IH]; intros nodes' changed H; [discriminate |].
  cbn [set_first_status] in H.
  destruct (same_endpoint ip0 port0 (node ns)) eqn:He.
  - destruct (status ns =? status0); injection H as <- <-; split; auto; discriminate.
  - destruct (set_first_status rest ip0 port0 status0) as [[rest' c] |] eqn:Hr; [| discriminate].
    injection H as <- <-. destruct (IH _ _ eq_refl) as [Hmap Hsame].
    split; [cbn; rewrite Hmap; reflexivity |].
    intros Hc. rewrite (Hsame Hc). reflexivity.
Qed.

Lemma FindNode_set_first_status (nodes : Nodes) (ip0 : string) (port0 : Z) (status0 : Z) :
  FindNode nodes ip0 port0 = true <-> set_first_status nodes ip0 port0 status0 <> None.
Proof.
  unfold FindNode. induction nodes as [| ns rest IH]; cbn [existsb set_first_status].
  - split; [discriminate | congruence].
  - destruct (same_endpoint ip0 port0 (node ns)) eqn:He; cbn [orb].
    + split; [| reflexivity]. intros _. destruct (status ns =? status0); discriminate.
    + rewrite IH. destruct (set_first_status rest ip0 port0 status0) as [[rest' c] |];
        split; congruence.
Qed.

Lemma FindNode_false (nodes : Nodes) (ip0 : string) (port0 : Z) :
  FindNode nodes ip0 port0 = false -> {| ip := ip0; port := port0 |} ∉ map node nodes.
Proof.
  unfold FindNode. intros H Hin. apply list_elem_of_fmap in Hin as (ns & Heq & Hns).
  assert (Ht : existsb (fun node_status => same_endpoint ip0 port0 (node node_status)) nodes
               = true).
  { apply existsb_exists. exists ns. split; [apply list_elem_of_In; exact Hns |].
    apply same_endpoint_eq. symmetry. exact Heq. }
  congruence.
Qed.

(** [AddNode] returns [OK] or a [Corruption]: the [NotFound] of a missing
    nodes table makes it create the table, and [SetNodeStatus] is only called
    for an endpoint that has an entry. *)
Theorem AddNode_never_NotFound (ip0 : string) (port0 : Z) (st st' : ZPMetaServer) (s : Status) :
  AddNode ip0 port0 st = (s, st') -> s = OK \/ IsCorruption s = true.
Proof.
  intros H. unfold AddNode, SetNodeStatus in H. unfold_store.
  run_all H; simplify_eq; auto.
  match goal with
  | Hf : FindNode ?nodes ?i ?p = true, Hn : set_first_status ?nodes ?i ?p ?s0 = None |- _ =>
      apply (FindNode_set_first_status nodes i p s0) in Hf; congruence
  end.
Qed.

Lemma AddNode_never_NotFound_witness :
  Corruption "floyd set error!" = OK \/ IsCorruption (Corruption "floyd set error!") = true.
Proof.
  apply (AddNode_never_NotFound "10.0.0.1" 5000 ND_write_fails
           (after (AddNode "10.0.0.1" 5000) ND_write_fails)).
  vm_compute. reflexivity.
Defined.

(** Whatever status [AddNode] returns, the nodes table it leaves has the
    entries of the table it found, in their order and with their endpoints,
    or these and one more at the end for an endpoint that had none. An
    endpoint never gets a second entry. *)
Theorem AddNode_keeps_endpoints_unique (ip0 : string) (port0 : Z) (st st' : ZPMetaServer)
    (s : Status) (nodes : Nodes) :
  kv (floyd_ st) !! ZP_META_KEY_ND = Some (SerializedNodes nodes) ->
  AddNode ip0 port0 st = (s, st') ->
  exists nodes',
    kv (floyd_ st') !! ZP_META_KEY_ND = Some (SerializedNodes nodes') /\
    (map node nodes' = map node nodes \/
     (({| ip := ip0; port := port0 |} ∉ map node nodes) /\
      nodes' = app nodes [ {| node := {| ip := ip0; port := port0 |}; status := kNodeUp |} ])) /\
    (NoDup (map node nodes) -> NoDup (map node nodes')).
Proof.
  intros Hnd H.
  assert (Hgoal : exists nodes',
    kv (floyd_ st') !! ZP_META_KEY_ND = Some (SerializedNodes nodes') /\
    (map node nodes' = map node nodes \/
     (({| ip := ip0; port := port0 |} ∉ map node nodes) /\
      nodes' = app nodes [ {| node := {| ip := ip0; port := port0 |}; status := kNodeUp |} ]))).
  { unfold AddNode, SetNodeStatus, OnNode in H. unfold_store.
    run_all H; simplify_eq.
    all: repeat match goal with
         | Hp : Pull_ParseFromString _ = Some _ |- _ => apply parsed_Pull in Hp; subst
         | Hp : Nodes_ParseFromString _ = Some _ |- _ => apply parsed_Nodes in Hp; subst
         end.
    all: simplify_eq.
    all: cbn [floyd_ kv]; rewrite ?lookup_insert_ne by discriminate;
      rewrite ?lookup_insert_eq.
    all: try (eexists; split; [eassumption | left; reflexivity]).
    all: try match goal with
         | Hset : set_first_status _ _ _ _ = Some _ |- _ =>
             destruct (set_first_status_endpoints _ _ _ _ _ _ Hset) as [Hmap Hsame];
             eexists; split; [reflexivity | left; exact Hmap]
         end.
    all: try match goal with
         | Hf : FindNode _ _ _ = false |- _ =>
             eexists; split; [reflexivity |]; right; split;
             [apply FindNode_false; exact Hf | reflexivity]
         end. }
  destruct Hgoal as (nodes' & Hkv & Hcase). exists nodes'.
  split; [exact Hkv |]. split; [exact Hcase |].
  intros Hdup. destruct Hcase as [Hmap | [Hnew ->]]; [rewrite Hmap; exact Hdup |].
  rewrite map_app. apply NoDup_app. split; [exact Hdup |]. split.
  - intros x Hx Hin. cbn in Hin. apply list_elem_of_singleton in Hin. subst. exact (Hnew Hx).
  - cbn. apply NoDup_singleton.
Qed.

Lemma AddNode_keeps_endpoints_unique_witness :
  exists nodes',
    kv (floyd_ (after (AddNode "10.0.0.4" 5000) three_hosts)) !! ZP_META_KEY_ND
      = Some (SerializedNodes nodes') /\
    (map node nodes' = map node all_up \/
     (({| ip := "10.0.0.4"; port := 5000 |} ∉ map node all_up) /\
      nodes' = app all_up [ {| node := {| ip := "10.0.0.4"; port := 5000 |};
                              status := kNodeUp |} ])) /\
    (NoDup (map node all_up) -> NoDup (map node nodes')).
Proof.
  apply (AddNode_keeps_endpoints_unique "10.0.0.4" 5000 three_hosts _ OK all_up).
  - vm_compute. reflexivity.
  - vm_compute. reflexivity.
Defined.

Lemma set_first_status_same (nodes : Nodes) (ip0 : string) (port0 : Z) (status0 : Z) :
  NoDup (map node nodes) ->
  {| node := {| ip := ip0; port := port0 |}; status := status0 |} ∈ nodes ->
  set_first_status nodes ip0 port0 status0 = Some (nodes, false).
Proof.
  induction nodes as [| ns rest IH]; intros Hdup Hin; [inversion Hin |].
  cbn [set_first_status]. cbn in Hdup. apply NoDup_cons in Hdup as [Hhead Hdup].
  destruct (same_endpoint ip0 port0 (node ns)) eqn:He.
  - apply same_endpoint_eq in He. apply elem_of_cons in Hin as [<- | Hin].
    + cbn [status]. rewrite Z.eqb_refl. reflexivity.
    + exfalso. apply Hhead. rewrite He. apply list_elem_of_fmap.
      eexists. split; [| exact Hin]. reflexivity.
  - apply elem_of_cons in Hin as [<- | Hin].
    + cbn [node] in He. unfold same_endpoint in He. cbn in He.
      rewrite String.eqb_refl, Z.eqb_refl in He. discriminate.
    + rewrite (IH Hdup Hin). reflexivity.
Qed.

(** [AddNode] for an endpoint that is UP in the nodes table writes nothing:
    it returns [OK], or the failure of its one read, and the store, the
    journal of writes and the cached version are what they were. *)
Theorem AddNode_UP_is_noop (ip0 : string) (port0 : Z) (st st' : ZPMetaServer) (s : Status)
    (nodes : Nodes) :
  kv (floyd_ st) !! ZP_META_KEY_ND = Some (SerializedNodes nodes) ->
  NoDup (map node nodes) ->
  UP nodes {| ip := ip0; port := port0 |} ->
  AddNode ip0 port0 st = (s, st') ->
  (s = OK \/ s = Corruption "floyd get error!") /\
  kv (floyd_ st') = kv (floyd_ st) /\
  journal (floyd_ st') = journal (floyd_ st) /\
  version_ st' = version_ st.
Proof.
  intros Hnd Hdup Hup H. unfold UP in Hup.
  pose proof (set_first_status_same nodes ip0 port0 kNodeUp Hdup Hup) as Hset.
  assert (Hfind : FindNode nodes ip0 port0 = true).
  { apply (FindNode_set_first_status nodes ip0 port0 kNodeUp). congruence. }
  unfold AddNode in H. unfold_store.
  run_step H; [| reduce_run H; simplify_eq; auto].
  reduce_run H. rewrite Hnd in H. cbn [Nodes_ParseFromString] in H. reduce_run H.
  rewrite Hfind in H. cbn [andb] in H.
  unfold SetNodeStatus in H. rewrite Hset in H. unfold ret in H. simplify_eq. auto.
Qed.

Lemma AddNode_UP_is_noop_witness :
  (OK = OK \/ OK = Corruption "floyd get error!") /\
  kv (floyd_ (after (AddNode "10.0.0.2" 5000) three_hosts)) = kv (floyd_ three_hosts) /\
  journal (floyd_ (after (AddNode "10.0.0.2" 5000) three_hosts)) = journal (floyd_ three_hosts) /\
  version_ (after (AddNode "10.0.0.2" 5000) three_hosts) = version_ three_hosts.
Proof.
  apply (AddNode_UP_is_noop "10.0.0.2" 5000 three_hosts _ OK all_up).
  - vm_compute. reflexivity.
  - change (NoDup [host1; host2; host3]).
    repeat apply NoDup_cons_2; try apply NoDup_nil_2;
      rewrite ?elem_of_cons, ?elem_of_nil; intuition discriminate.
  - right. left.
  - vm_compute. reflexivity.
Defined.

Lemma set_first_status_flip (nodes : Nodes) (ip0 : string) (port0 : Z) (old new : Z) :
  NoDup (map node nodes) ->
  {| node := {| ip := ip0; port := port0 |}; status := old |} ∈ nodes ->
  old <> new ->
  exists nodes',
    set_first_status nodes ip0 port0 new = Some (nodes', true) /\
    {| node := {| ip := ip0; port := port0 |}; status := new |} ∈ nodes'.
Proof.
  induction nodes as [| ns rest IH]; intros Hdup Hin Hne; [inversion Hin |].
  cbn [set_first_status]. cbn in Hdup. apply NoDup_cons in Hdup as [Hhead Hdup].
  destruct (same_endpoint ip0 port0 (node ns)) eqn:He.
  - apply same_endpoint_eq in He. apply elem_of_cons in Hin as [<- | Hin].
    + cbn [status node]. destruct (Z.eqb_spec old new); [congruence |].
      eexists. split; [reflexivity | left].
    + exfalso. apply Hhead. rewrite He. apply list_elem_of_fmap.
      eexists. split; [| exact Hin]. reflexivity.
  - apply elem_of_cons in Hin as [<- | Hin].
    + cbn [node] in He. unfold same_endpoint in He. cbn in He.
      rewrite String.eqb_refl, Z.eqb_refl in He. discriminate.
    + destruct (IH Hdup Hin Hne) as (rest' & -> & Hin'). eexists. split; [reflexivity |].
      right. exact Hin'.
Qed.

(** Before the first [Distribute] there is no table under [MT], and
    [OffNode] for a node that is UP marks it DOWN in the nodes table but
    returns the [Corruption] of the read of the table. *)
Theorem OffNode_before_Distribute (ip0 : string) (port0 : Z) (st : ZPMetaServer)
    (nodes : Nodes) :
  script (floyd_ st) = [] ->
  kv (floyd_ st) !! ZP_META_KEY_ND = Some (SerializedNodes nodes) ->
  kv (floyd_ st) !! ZP_META_KEY_MT = None ->
  NoDup (map node nodes) ->
  {| node := {| ip := ip0; port := port0 |}; status := kNodeUp |} ∈ nodes ->
  exists st' nodes',
    OffNode ip0 port0 st = (Corruption "Read full_meta failed!", st') /\
    kv (floyd_ st') !! ZP_META_KEY_ND = Some (SerializedNodes nodes') /\
    {| node := {| ip := ip0; port := port0 |}; status := kNodeDown |} ∈ nodes'.
Proof.
  intros Hs Hnd Hmt Hdup Hin.
  destruct (set_first_status_flip nodes ip0 port0 kNodeUp kNodeDown Hdup Hin)
    as (nodes' & Hset & Hin'); [discriminate |].
  unfold OffNode, bind. rewrite (GetAllNode_no_faults _ _ Hs Hnd). cbn [ok negb].
  unfold SetNodeStatus. rewrite Hset. unfold bind.
  rewrite (floyd_Write_no_faults _ _ _ Hs). cbn [floyd_ok Z.eqb kNodeDown kNodeUp].
  unfold ret. cbn [ok negb]. unfold GetMSInfo, bind.
  rewrite floyd_DirtyRead_no_faults by reflexivity.
  cbn [stored with_floyd floyd_ kv]. rewrite lookup_insert_ne by discriminate.
  rewrite Hmt. cbn [floyd_ok ret ok negb]. unfold ret.
  do 2 eexists. split; [reflexivity |]. cbn [floyd_ kv].
  split; [apply lookup_insert_eq | exact Hin'].
Qed.

Lemma OffNode_before_Distribute_witness :
  exists st' nodes',
    OffNode "10.0.0.1" 5000 one_host = (Corruption "Read full_meta failed!", st') /\
    kv (floyd_ st') !! ZP_META_KEY_ND = Some (SerializedNodes nodes') /\
    {| node := {| ip := "10.0.0.1"; port := 5000 |}; status := kNodeDown |} ∈ nodes'.
Proof.
  apply (OffNode_before_Distribute "10.0.0.1" 5000 one_host [up host1]).
  - vm_compute. reflexivity.
  - vm_compute. reflexivity.
  - vm_compute. reflexivity.
  - cbn. apply NoDup_singleton.
  - left.
Defined.

(** Before the first [Distribute], [AddNode] for a node that is DOWN marks
    it UP in the nodes table but returns [Corruption "OnNode error!"], as
    [OnNode] finds no table to read. *)
Theorem AddNode_rejoin_before_Distribute (ip0 : string) (port0 : Z) (st : ZPMetaServer)
    (nodes : Nodes) :
  script (floyd_ st) = [] ->
  kv (floyd_ st) !! ZP_META_KEY_ND = Some (SerializedNodes nodes) ->
  kv (floyd_ st) !! ZP_META_KEY_MT = None ->
  NoDup (map node nodes) ->
  {| node := {| ip := ip0; port := port0 |}; status := kNodeDown |} ∈ nodes ->
  exists st' nodes',
    AddNode ip0 port0 st = (Corruption "OnNode error!", st') /\
    kv (floyd_ st') !! ZP_META_KEY_ND = Some (SerializedNodes nodes') /\
    {| node := {| ip := ip0; port := port0 |}; status := kNodeUp |} ∈ nodes'.
Proof.
  intros Hs Hnd Hmt Hdup Hin.
  destruct (set_first_status_flip nodes ip0 port0 kNodeDown kNodeUp Hdup Hin)
    as (nodes' & Hset & Hin'); [discriminate |].
  assert (Hfind : FindNode nodes ip0 port0 = true).
  { apply (FindNode_set_first_status nodes ip0 port0 kNodeUp). congruence. }
  unfold AddNode, bind. rewrite (GetAllNode_no_faults _ _ Hs Hnd). cbn [ok andb].
  rewrite Hfind. unfold SetNodeStatus. rewrite Hset. unfold bind.
  rewrite (floyd_Write_no_faults _ _ _ Hs). cbn [floyd_ok Z.eqb kNodeUp].
  unfold OnNode, bind, GetMSInfo, bind.
  rewrite floyd_DirtyRead_no_faults by reflexivity.
  cbn [stored with_floyd floyd_ kv]. rewrite lookup_insert_ne by discriminate.
  rewrite Hmt. cbn [floyd_ok ret ok negb]. unfold ret. cbn [ok negb].
  do 2 eexists. split; [reflexivity |]. cbn [floyd_ kv].
  split; [apply lookup_insert_eq | exact Hin'].
Qed.

Lemma AddNode_rejoin_before_Distribute_witness :
  exists st' nodes',
    AddNode "10.0.0.1" 5000 one_host_off = (Corruption "OnNode error!", st') /\
    kv (floyd_ st') !! ZP_META_KEY_ND = Some (SerializedNodes nodes') /\
    {| node := {| ip := "10.0.0.1"; port := 5000 |}; status := kNodeUp |} ∈ nodes'.
Proof.
  apply (AddNode_rejoin_before_Distribute "10.0.0.1" 5000 one_host_off
           [ {| node := host1; status := kNodeDown |} ]).
  - vm_compute. reflexivity.
  - vm_compute. reflexivity.
  - vm_compute. reflexivity.
  - cbn. apply NoDup_singleton.
  - left.
Defined.

Lemma set_first_status_unknown (nodes : Nodes) (ip0 : string) (port0 : Z) (status0 : Z) :
  {| ip := ip0; port := port0 |} ∉ map node nodes ->
  set_first_status nodes ip0 port0 status0 = None.
Proof.
  induction nodes as [| ns rest IH]; intros Hnot; [reflexivity |].
  cbn [set_first_status]. cbn in Hnot. apply not_elem_of_cons in Hnot as [Hne Hnot].
  destruct (same_endpoint ip0 port0 (node ns)) eqn:He.
  - apply same_endpoint_eq in He. congruence.
  - rewrite (IH Hnot). reflexivity.
Qed.

(** [OffNode] for an endpoint that has no entry in the nodes table returns
    [NotFound], or the failure of its read, and writes nothing: the store,
    the journal of writes and the cached version are what they were. *)
Theorem OffNode_unknown_endpoint (ip0 : string) (port0 : Z) (st st' : ZPMetaServer)
    (s : Status) (nodes : Nodes) :
  kv (floyd_ st) !! ZP_META_KEY_ND = Some (SerializedNodes nodes) ->
  {| ip := ip0; port := port0 |} ∉ map node nodes ->
  OffNode ip0 port0 st = (s, st') ->
  (s = NotFound "not found this node" \/ s = Corruption "floyd get error!") /\
  kv (floyd_ st') = kv (floyd_ st) /\
  journal (floyd_ st') = journal (floyd_ st) /\
  version_ st' = version_ st.
Proof.
  intros Hnd Hnot H.
  pose proof (set_first_status_unknown nodes ip0 port0 kNodeDown Hnot) as Hset.
  unfold OffNode in H. unfold_store.
  run_step H; [| reduce_run H; simplify_eq; auto].
  reduce_run H. rewrite Hnd in H. cbn [Nodes_ParseFromString] in H. reduce_run H.
  unfold SetNodeStatus in H. rewrite Hset in H. unfold ret in H. reduce_run H.
  simplify_eq. auto.
Qed.

Lemma OffNode_unknown_endpoint_witness :
  (NotFound "not found this node" = NotFound "not found this node" \/
   NotFound "not found this node" = Corruption "floyd get error!") /\
  kv (floyd_ (after (OffNode "10.0.0.9" 5000) three_hosts)) = kv (floyd_ three_hosts) /\
  journal (floyd_ (after (OffNode "10.0.0.9" 5000) three_hosts)) = journal (floyd_ three_hosts) /\
  version_ (after (OffNode "10.0.0.9" 5000) three_hosts) = version_ three_hosts.
Proof.
  apply (OffNode_unknown_endpoint "10.0.0.9" 5000 three_hosts _ _ all_up).
  - vm_compute. reflexivity.
  - change ({| ip := "10.0.0.9"; port := 5000 |} ∉ [host1; host2; host3]).
    rewrite !elem_of_cons, elem_of_nil. intuition discriminate.
  - vm_compute. reflexivity.
Defined.

Lemma set_first_status_DOWN_alive (nodes : Nodes) (ip0 : string) (port0 : Z) :
  forall (nodes' : Nodes) (changed : bool),
    set_first_status nodes ip0 port0 kNodeDown = Some (nodes', changed) ->
    NoDup (map node nodes) ->
    forall ns, ns ∈ GetAllAliveNode nodes' <->
               ns ∈ GetAllAliveNode nodes /\ node ns <> {| ip := ip0; port := port0 |}.
Proof.
  unfold GetAllAliveNode.
  induction nodes as [| n0 rest IH]; intros nodes' changed H Hdup ns; [discriminate |].
  cbn [set_first_status] in H. cbn in Hdup. apply NoDup_cons in Hdup as [Hhead Hdup].
  assert (Hrest : forall x, x ∈ rest -> node x <> node n0).
  { intros x Hx Heq. apply Hhead. rewrite <- Heq. apply list_elem_of_fmap.
    eexists. split; [| exact Hx]. reflexivity. }
  destruct (same_endpoint ip0 port0 (node n0)) eqn:He.
  - apply same_endpoint_eq in He.
    assert (Hgoal : ns ∈ filter (fun node_status => status node_status = 0) rest <->
              ns ∈ filter (fun node_status => status node_status = 0) (n0 :: rest) /\
              node ns <> {| ip := ip0; port := port0 |}).
    { rewrite !list_elem_of_filter, elem_of_cons. split.
      - intros [Hst Hin]. split; [split; [exact Hst | right; exact Hin] |].
        rewrite <- He. apply Hrest. exact Hin.
      - intros [[Hst [-> | Hin]] Hne]; [congruence |]. split; assumption. }
    destruct (Z.eqb_spec (status n0) kNodeDown) as [Hst | Hst]; injection H as <- <-.
    + rewrite <- Hgoal. rewrite !list_elem_of_filter, elem_of_cons. split.
      * intros [Hs0 [-> | Hin]]; [unfold kNodeDown in Hst; lia | split; assumption].
      * intros [Hs0 Hin]. split; [exact Hs0 | right; exact Hin].
    + rewrite <- Hgoal. rewrite !list_elem_of_filter, elem_of_cons. split.
      * intros [Hs0 [-> | Hin]]; [cbn in Hs0; unfold kNodeDown in Hs0; lia | split; assumption].
      * intros [Hs0 Hin]. split; [exact Hs0 | right; exact Hin].
  - destruct (set_first_status rest ip0 port0 kNodeDown) as [[rest' c] |] eqn:Hr; [| discriminate].
    injection H as <- <-. specialize (IH _ _ eq_refl Hdup ns).
    assert (Hn0 : node n0 <> {| ip := ip0; port := port0 |}).
    { intros Heq. apply same_endpoint_eq in Heq. congruence. }
    rewrite !list_elem_of_filter in IH. rewrite !list_elem_of_filter, !elem_of_cons.
    split.
    + intros [Hst [-> | Hin]].
      * split; [split; [exact Hst | left; reflexivity] | exact Hn0].
      * destruct (proj1 IH (conj Hst Hin)) as [[_ Hin'] Hne].
        split; [split; [exact Hst | right; exact Hin'] | exact Hne].
    + intros [[Hst [-> | Hin]] Hne].
      * split; [exact Hst | left; reflexivity].
      * destruct (proj2 IH (conj (conj Hst Hin) Hne)) as [_ Hin'].
        split; [exact Hst | right; exact Hin'].
Qed.

Lemma OffNode_OK_nodes (ip0 : string) (port0 : Z) (st st' : ZPMetaServer) (nodes : Nodes) :
  kv (floyd_ st) !! ZP_META_KEY_ND = Some (SerializedNodes nodes) ->
  OffNode ip0 port0 st = (OK, st') ->
  exists nodes' changed,
    set_first_status nodes ip0 port0 kNodeDown = Some (nodes', changed) /\
    kv (floyd_ st') !! ZP_META_KEY_ND = Some (SerializedNodes nodes').
Proof.
  intros Hnd H. unfold OffNode, SetNodeStatus in H. unfold_store.
  run_all H; simplify_eq.
  all: repeat match goal with
       | Hp : Pull_ParseFromString _ = Some _ |- _ => apply parsed_Pull in Hp; subst
       | Hp : Nodes_ParseFromString _ = Some _ |- _ => apply parsed_Nodes in Hp; subst
       end.
  all: simplify_eq.
  all: cbn [floyd_ kv]; rewrite ?lookup_insert_ne by discriminate; rewrite ?lookup_insert_eq.
  all: match goal with
       | Hset : set_first_status _ _ _ _ = Some (_, false) |- _ =>
           pose proof (proj2 (set_first_status_endpoints _ _ _ _ _ _ Hset) eq_refl); subst;
           do 2 eexists; split; [exact Hset | assumption]
       | Hset : set_first_status _ _ _ _ = Some (_, true) |- _ =>
           do 2 eexists; split; [exact Hset | reflexivity]
       end.
Qed.

(** When [OffNode] returns [OK] the endpoint is out of the alive nodes: the
    nodes table keeps its entries and their order, and the nodes
    [GetAllAliveNode] finds in it are the ones it found before, without the
    endpoint. *)
Theorem OffNode_takes_node_out (ip0 : string) (port0 : Z) (st st' : ZPMetaServer)
    (nodes : Nodes) :
  kv (floyd_ st) !! ZP_META_KEY_ND = Some (SerializedNodes nodes) ->
  NoDup (map node nodes) ->
  OffNode ip0 port0 st = (OK, st') ->
  exists nodes',
    kv (floyd_ st') !! ZP_META_KEY_ND = Some (SerializedNodes nodes') /\
    map node nodes' = map node nodes /\
    forall ns, ns ∈ GetAllAliveNode nodes' <->
               ns ∈ GetAllAliveNode nodes /\ node ns <> {| ip := ip0; port := port0 |}.
Proof.
  intros Hnd Hdup H.
  destruct (OffNode_OK_nodes _ _ _ _ _ Hnd H) as (nodes' & changed & Hset & Hnd').
  exists nodes'. split; [exact Hnd' |].
  split; [exact (proj1 (set_first_status_endpoints _ _ _ _ _ _ Hset)) |].
  exact (set_first_status_DOWN_alive _ _ _ _ _ Hset Hdup).
Qed.

Lemma OffNode_takes_node_out_witness :
  exists nodes',
    kv (floyd_ (after (OffNode "10.0.0.2" 5000) four_partitions)) !! ZP_META_KEY_ND
      = Some (SerializedNodes nodes') /\
    map node nodes' = map node all_up /\
    forall ns, ns ∈ GetAllAliveNode nodes' <->
               ns ∈ GetAllAliveNode all_up /\ node ns <> {| ip := "10.0.0.2"; port := 5000 |}.
Proof.
  apply (OffNode_takes_node_out "10.0.0.2" 5000 four_partitions _ all_up).
  - vm_compute. reflexivity.
  - change (NoDup [host1; host2; host3]).
    repeat apply NoDup_cons_2; try apply NoDup_nil_2;
      rewrite ?elem_of_cons, ?elem_of_nil; intuition discriminate.
  - vm_compute. reflexivity.
Defined.

(** ** Failover keeps the replicas *)

Lemma swap_Permutation {A} (l : list A) :
  forall (j : nat) (s m : A),
    l !! j = Some s -> Permutation (s :: <[j := m]> l) (m :: l).
Proof.
  induction l as [| x l IH]; intros j s m Hj; [discriminate |].
  destruct j as [| j]; cbn in Hj.
  - simplify_eq. cbn. apply perm_swap.
  - cbn. rewrite perm_swap, (IH j s m Hj). apply perm_swap.
Qed.

Lemma promote_Permutation {A} (d : A) (l : list A) (j : nat) (e : A) :
  l !! j = Some e ->
  Permutation (e :: removelast (<[j := default d (l !! (length l - 1)%nat)]> l)) l.
Proof.
  induction l as [| z l0 _] using rev_ind; [discriminate |].
  intros Hj. rewrite length_app. cbn [length].
  replace (length l0 + 1 - 1)%nat with (length l0) by lia.
  rewrite lookup_app_r by lia. rewrite Nat.sub_diag. cbn [lookup list_lookup default].
  destruct (Nat.lt_ge_cases j (length l0)) as [Hlt | Hge].
  - rewrite lookup_app_l in Hj by exact Hlt.
    rewrite insert_app_l by exact Hlt. rewrite removelast_last.
    rewrite (swap_Permutation l0 j e z Hj). apply Permutation_cons_append.
  - pose proof (lookup_lt_Some _ _ _ Hj) as Hlen. rewrite length_app in Hlen. cbn in Hlen.
    assert (j = length l0) by lia. subst j.
    rewrite lookup_app_r, Nat.sub_diag in Hj by lia. cbn in Hj. simplify_eq.
    rewrite insert_app_r_alt, Nat.sub_diag by lia. cbn [insert list_insert].
    rewrite removelast_last. apply Permutation_cons_append.
Qed.

Lemma first_alive_slave_lookup (alive_nodes : list NodeStatus) (slaves0 : list Node) :
  forall j, first_alive_slave alive_nodes slaves0 = Some j -> is_Some (slaves0 !! j).
Proof.
  induction slaves0 as [| s rest IH]; intros j H; [discriminate |].
  cbn [first_alive_slave] in H. destruct (IsAlive alive_nodes (ip s) (port s)).
  - simplify_eq. eexists. reflexivity.
  - destruct (first_alive_slave alive_nodes rest) as [j' |]; [| discriminate].
    cbn in H. simplify_eq. cbn. apply IH. reflexivity.
Qed.

Lemma OffNode_partition_replicas (alive_nodes : list NodeStatus) (ip0 : string) (port0 : Z)
    (p : Partitions) :
  let p' := fst (OffNode_partition alive_nodes ip0 port0 p) in
  id p' = id p /\
  (Permutation (master p' :: slaves p') (master p :: slaves p) \/
   (master p' = {| ip := ""; port := 0 |} /\ slaves p' = app (slaves p) [master p])).
Proof.
  cbv zeta. unfold OffNode_partition.
  destruct (negb (ip0 =? ip (master p))%string || negb (port0 =? port (master p))).
  - cbn. split; [reflexivity | left; reflexivity].
  - destruct (first_alive_slave alive_nodes (slaves p)) as [j |] eqn:Hj; cbn [fst id master slaves].
    + split; [reflexivity |]. left.
      destruct (first_alive_slave_lookup _ _ _ Hj) as [s Hs]. rewrite Hs. cbn [default].
      apply swap_Permutation. exact Hs.
    + split; [reflexivity |]. right. split; reflexivity.
Qed.

Lemma is_orphaned_master (p : Partitions) :
  is_orphaned p = true <-> master p = {| ip := ""; port := 0 |}.
Proof.
  unfold is_orphaned. destruct (master p) as [mi mp]. cbn.
  rewrite andb_true_iff, String.eqb_eq, Z.eqb_eq.
  split; [intros [-> ->]; reflexivity | intros [= -> ->]; split; reflexivity].
Qed.

Lemma OnNode_partition_replicas (ip0 : string) (port0 : Z) (p : Partitions) :
  let p' := fst (OnNode_partition ip0 port0 p) in
  id p' = id p /\
  (p' = p \/
   (master p = {| ip := ""; port := 0 |} /\ master p' = {| ip := ip0; port := port0 |} /\
    Permutation (master p' :: slaves p') (slaves p))).
Proof.
  cbv zeta. unfold OnNode_partition.
  destruct (is_orphaned p) eqn:Ho; [| cbn; split; [reflexivity | left; reflexivity]].
  destruct (find_slave ip0 port0 (slaves p)) as [j |] eqn:Hj;
    [| cbn; split; [reflexivity | left; reflexivity]].
  cbn [fst id master slaves]. split; [reflexivity |]. right.
  apply is_orphaned_master in Ho. apply find_slave_Some in Hj as [Hj _].
  rewrite Hj. cbn [default]. split; [exact Ho |]. split; [reflexivity |].
  apply promote_Permutation. exact Hj.
Qed.

Lemma OffNode_partitions_length (alive_nodes : list NodeStatus) (ip0 : string) (port0 : Z)
    (ps : list Partitions) :
  length (fst (OffNode_partitions alive_nodes ip0 port0 ps)) = length ps.
Proof.
  induction ps as [| p rest IH]; [reflexivity |].
  cbn [OffNode_partitions]. destruct (OffNode_partition alive_nodes ip0 port0 p) as [p' c].
  destruct (OffNode_partitions alive_nodes ip0 port0 rest) as [rest' b].
  cbn in *. rewrite IH. reflexivity.
Qed.

Lemma OnNode_partitions_length (ip0 : string) (port0 : Z) (ps : list Partitions) :
  length (fst (OnNode_partitions ip0 port0 ps)) = length ps.
Proof.
  induction ps as [| p rest IH]; [reflexivity |].
  cbn [OnNode_partitions]. destruct (OnNode_partition ip0 port0 p) as [p' c].
  destruct (OnNode_partitions ip0 port0 rest) as [rest' b].
  cbn in *. rewrite IH. reflexivity.
Qed.

Lemma OffNode_partitions_false (alive_nodes : list NodeStatus) (ip0 : string) (port0 : Z)
    (ps : list Partitions) :
  snd (OffNode_partitions alive_nodes ip0 port0 ps) = false ->
  fst (OffNode_partitions alive_nodes ip0 port0 ps) = ps.
Proof.
  induction ps as [| p rest IH]; [reflexivity |].
  cbn [OffNode_partitions].
  destruct (OffNode_partition alive_nodes ip0 port0 p) as [p' c] eqn:Hp.
  destruct (OffNode_partitions alive_nodes ip0 port0 rest) as [rest' b].
  cbn in *. intros Hb. apply orb_false_iff in Hb as [-> ->]. rewrite (IH eq_refl).
  f_equal. unfold OffNode_partition in Hp.
  destruct (negb (ip0 =? ip (master p))%string || negb (port0 =? port (master p)));
    [congruence |].
  destruct (first_alive_slave alive_nodes (slaves p)); discriminate.
Qed.

Lemma OnNode_partitions_false (ip0 : string) (port0 : Z) (ps : list Partitions) :
  snd (OnNode_partitions ip0 port0 ps) = false ->
  fst (OnNode_partitions ip0 port0 ps) = ps.
Proof.
  induction ps as [| p rest IH]; [reflexivity |].
  cbn [OnNode_partitions].
  destruct (OnNode_partition ip0 port0 p) as [p' c] eqn:Hp.
  destruct (OnNode_partitions ip0 port0 rest) as [rest' b].
  cbn in *. intros Hb. apply orb_false_iff in Hb as [-> ->]. rewrite (IH eq_refl).
  f_equal. unfold OnNode_partition in Hp.
  destruct (is_orphaned p); [| congruence].
  destruct (find_slave ip0 port0 (slaves p)); [discriminate | congruence].
Qed.

(** When [OffNode] returns [OK] the table has the partitions it had, with
    their ids and in their order, and no partition has lost a node: its
    master and slaves are the ones it had, in another order after a
    handover, or it is left without master and its former master is its last
    slave. *)
Theorem OffNode_keeps_replicas (ip0 : string) (port0 : Z) (st st' : ZPMetaServer)
    (T : MetaCmdResponse_Pull) :
  kv (floyd_ st) !! ZP_META_KEY_MT = Some (SerializedPull T) ->
  OffNode ip0 port0 st = (OK, st') ->
  exists T',
    kv (floyd_ st') !! ZP_META_KEY_MT = Some (SerializedPull T') /\
    length (info T') = length (info T) /\
    forall i P, info T !! i = Some P ->
      exists P',
        info T' !! i = Some P' /\ id P' = id P /\
        (Permutation (master P' :: slaves P') (master P :: slaves P) \/
         (master P' = {| ip := ""; port := 0 |} /\ slaves P' = app (slaves P) [master P])).
Proof.
  intros Hmt H.
  destruct (OffNode_OK _ _ _ _ H) as (nodes & T0 & info' & b & _ & Hmt0 & Hps & Hcase).
  rewrite Hmt in Hmt0. simplify_eq.
  pose proof (OffNode_partitions_length (GetAllAliveNode nodes) ip0 port0 (info T0)) as Hlen.
  pose proof (OffNode_partitions_false (GetAllAliveNode nodes) ip0 port0 (info T0)) as Hsame.
  rewrite Hps in Hlen, Hsame. cbn [fst snd] in Hlen, Hsame.
  assert (Hall : forall i P, info T0 !! i = Some P ->
            exists P', info' !! i = Some P' /\ id P' = id P /\
              (Permutation (master P' :: slaves P') (master P :: slaves P) \/
               (master P' = {| ip := ""; port := 0 |} /\
                slaves P' = app (slaves P) [master P]))).
  { intros i P Hi. destruct (OffNode_partitions_lookup _ _ _ _ _ _ _ _ Hps Hi) as [Hi' _].
    eexists. split; [exact Hi' |]. apply OffNode_partition_replicas. }
  destruct b.
  - destruct Hcase as [Hmt' _]. eexists. split; [exact Hmt' |]. cbn [info].
    split; [exact Hlen | exact Hall].
  - destruct Hcase as [Hmt' _]. exists T0. rewrite Hmt', Hmt. split; [reflexivity |].
    split; [reflexivity |]. rewrite (Hsame eq_refl) in Hall. exact Hall.
Qed.

Lemma OffNode_keeps_replicas_witness :
  exists T',
    kv (floyd_ (after (OffNode "10.0.0.1" 5000) four_partitions)) !! ZP_META_KEY_MT
      = Some (SerializedPull T') /\
    length (info T') = length (info four_partitions_table) /\
    forall i P, info four_partitions_table !! i = Some P ->
      exists P',
        info T' !! i = Some P' /\ id P' = id P /\
        (Permutation (master P' :: slaves P') (master P :: slaves P) \/
         (master P' = {| ip := ""; port := 0 |} /\ slaves P' = app (slaves P) [master P])).
Proof.
  apply (OffNode_keeps_replicas "10.0.0.1" 5000 four_partitions).
  - vm_compute. reflexivity.
  - vm_compute. reflexivity.
Defined.

(** When [OnNode] returns [OK] the table has the partitions it had, with
    their ids and in their order; a partition is as it was, or it had no
    master, has the endpoint as master now, and its master and slaves are the
    slaves it had. *)
Theorem OnNode_keeps_replicas (ip0 : string) (port0 : Z) (st st' : ZPMetaServer)
    (T : MetaCmdResponse_Pull) :
  kv (floyd_ st) !! ZP_META_KEY_MT = Some (SerializedPull T) ->
  OnNode ip0 port0 st = (OK, st') ->
  exists T',
    kv (floyd_ st') !! ZP_META_KEY_MT = Some (SerializedPull T') /\
    length (info T') = length (info T) /\
    forall i P, info T !! i = Some P ->
      exists P',
        info T' !! i = Some P' /\ id P' = id P /\
        (P' = P \/
         (master P = {| ip := ""; port := 0 |} /\ master P' = {| ip := ip0; port := port0 |} /\
          Permutation (master P' :: slaves P') (slaves P))).
Proof.
  intros Hmt H.
  destruct (OnNode_OK _ _ _ _ H) as (T0 & info' & b & Hmt0 & Hps & Hcase).
  rewrite Hmt in Hmt0. simplify_eq.
  pose proof (OnNode_partitions_length ip0 port0 (info T0)) as Hlen.
  pose proof (OnNode_partitions_false ip0 port0 (info T0)) as Hsame.
  rewrite Hps in Hlen, Hsame. cbn [fst snd] in Hlen, Hsame.
  assert (Hall : forall i P, info T0 !! i = Some P ->
            exists P', info' !! i = Some P' /\ id P' = id P /\
              (P' = P \/
               (master P = {| ip := ""; port := 0 |} /\
                master P' = {| ip := ip0; port := port0 |} /\
                Permutation (master P' :: slaves P') (slaves P)))).
  { intros i P Hi. destruct (OnNode_partitions_lookup _ _ _ _ _ _ _ Hps Hi) as [Hi' _].
    eexists. split; [exact Hi' |]. apply OnNode_partition_replicas. }
  destruct b.
  - destruct Hcase as [Hmt' _]. eexists. split; [exact Hmt' |]. cbn [info].
    split; [exact Hlen | exact Hall].
  - destruct Hcase as [Hmt' _]. exists T0. rewrite Hmt', Hmt. split; [reflexivity |].
    split; [reflexivity |]. rewrite (Hsame eq_refl) in Hall. exact Hall.
Qed.

Lemma OnNode_keeps_replicas_witness :
  exists T',
    kv (floyd_ (after (OnNode "10.0.0.1" 5000) all_off)) !! ZP_META_KEY_MT
      = Some (SerializedPull T') /\
    length (info T') = length [orphan] /\
    forall i P, [orphan] !! i = Some P ->
      exists P',
        info T' !! i = Some P' /\ id P' = id P /\
        (P' = P \/
         (master P = {| ip := ""; port := 0 |} /\
          master P' = {| ip := "10.0.0.1"; port := 5000 |} /\
          Permutation (master P' :: slaves P') (slaves P))).
Proof.
  apply (OnNode_keeps_replicas "10.0.0.1" 5000 all_off _ {| version := 1; info := [orphan] |}).
  - vm_compute. reflexivity.
  - vm_compute. reflexivity.
Defined.

(** ** A node that leaves and comes back *)

Lemma set_first_status_round_trip (nodes : Nodes) (ip0 : string) (port0 : Z) :
  NoDup (map node nodes) ->
  {| node := {| ip := ip0; port := port0 |}; status := kNodeUp |} ∈ nodes ->
  exists nodes1,
    set_first_status nodes ip0 port0 kNodeDown = Some (nodes1, true) /\
    set_first_status nodes1 ip0 port0 kNodeUp = Some (nodes, true).
Proof.
  induction nodes as [| ns rest IH]; intros Hdup Hin; [inversion Hin |].
  cbn [set_first_status]. cbn in Hdup. apply NoDup_cons in Hdup as [Hhead Hdup].
  destruct (same_endpoint ip0 port0 (node ns)) eqn:He.
  - pose proof He as He'. apply same_endpoint_eq in He'.
    apply elem_of_cons in Hin as [<- | Hin].
    + cbn [status node]. eexists. split; [reflexivity |].
      cbn [set_first_status node status]. cbn [node] in He. rewrite He. reflexivity.
    + exfalso. apply Hhead. rewrite He'. apply list_elem_of_fmap.
      eexists. split; [| exact Hin]. reflexivity.
  - apply elem_of_cons in Hin as [<- | Hin].
    + cbn [node] in He. unfold same_endpoint in He. cbn in He.
      rewrite String.eqb_refl, Z.eqb_refl in He. discriminate.
    + destruct (IH Hdup Hin) as (rest1 & -> & Hback). eexists. split; [reflexivity |].
      cbn [set_first_status]. rewrite He, Hback. reflexivity.
Qed.

Lemma first_alive_slave_no_UP (nodes : Nodes) (slaves0 : list Node) :
  Forall (fun s => ~ UP nodes s) slaves0 ->
  first_alive_slave (GetAllAliveNode nodes) slaves0 = None.
Proof.
  induction 1 as [| s rest Hs _ IH]; [reflexivity |].
  cbn [first_alive_slave]. apply IsAlive_not_UP in Hs. rewrite Hs, IH. reflexivity.
Qed.

Lemma OffNode_OnNode_partition (alive_nodes : list NodeStatus) (ip0 : string) (port0 : Z)
    (p : Partitions) :
  master p = {| ip := ip0; port := port0 |} ->
  first_alive_slave alive_nodes (slaves p) = None ->
  OnNode_partition ip0 port0 (fst (OffNode_partition alive_nodes ip0 port0 p)) = (p, true).
Proof.
  intros Hm Hnone. unfold OffNode_partition. rewrite Hm. cbn [ip port].
  rewrite String.eqb_refl, Z.eqb_refl. cbn [negb orb]. rewrite Hnone. cbn [fst].
  unfold OnNode_partition. cbn [is_orphaned master slaves id ip port].
  change (("" =? "")%string && (0 =? 0)) with true. cbv iota. unfold push_back.
  set (e := {| ip := ip0; port := port0 |}).
  destruct (elem_first_slot e (app (slaves p) [e])) as [j Hj].
  { apply elem_of_app. right. left. }
  pose proof (proj2 (find_slave_Some ip0 port0 _ j) Hj) as Hfind. rewrite Hfind.
  destruct Hj as [Hj _]. rewrite Hj. cbn [default].
  rewrite length_app. cbn [length]. replace (length (slaves p) + 1 - 1)%nat with (length (slaves p)) by lia.
  rewrite lookup_app_r, Nat.sub_diag by lia. cbn [lookup list_lookup default].
  rewrite list_insert_id by exact Hj. rewrite removelast_last.
  destruct p as [pid pm ps]. cbn in *. subst pm. reflexivity.
Qed.

Lemma OffNode_OnNode_partitions (nodes : Nodes) (ip0 : string) (port0 : Z)
    (ps : list Partitions) :
  Forall (fun P =>
            (master P = {| ip := ip0; port := port0 |} ->
             Forall (fun s => ~ UP nodes s) (slaves P)) /\
            (master P <> {| ip := ip0; port := port0 |} -> ~ orphaned_slave ip0 port0 P)) ps ->
  fst (OnNode_partitions ip0 port0
         (fst (OffNode_partitions (GetAllAliveNode nodes) ip0 port0 ps))) = ps /\
  snd (OnNode_partitions ip0 port0
         (fst (OffNode_partitions (GetAllAliveNode nodes) ip0 port0 ps))) =
    snd (OffNode_partitions (GetAllAliveNode nodes) ip0 port0 ps).
Proof.
  induction 1 as [| p rest [Hmine Hother] _ [IHf IHs]]; [split; reflexivity |].
  cbn [OffNode_partitions].
  destruct (OffNode_partition (GetAllAliveNode nodes) ip0 port0 p) as [p1 c1] eqn:Hp1.
  destruct (OffNode_partitions (GetAllAliveNode nodes) ip0 port0 rest) as [rest1 b1].
  cbn [fst snd] in *. cbn [OnNode_partitions].
  assert (Hp2 : OnNode_partition ip0 port0 p1 = (p, c1)).
  { assert (Hdec : {master p = {| ip := ip0; port := port0 |}} +
                   {master p <> {| ip := ip0; port := port0 |}}).
    { destruct (same_endpoint ip0 port0 (master p)) eqn:He.
      - left. apply same_endpoint_eq. exact He.
      - right. intros Heq. apply same_endpoint_eq in Heq. congruence. }
    destruct Hdec as [Hm | Hm].
    - pose proof (OffNode_OnNode_partition (GetAllAliveNode nodes) ip0 port0 p Hm
                    (first_alive_slave_no_UP _ _ (Hmine Hm))) as Hrt.
      rewrite Hp1 in Hrt. cbn [fst] in Hrt. rewrite Hrt. f_equal.
      unfold OffNode_partition in Hp1. rewrite Hm in Hp1. cbn [ip port] in Hp1.
      rewrite String.eqb_refl, Z.eqb_refl in Hp1. cbn [negb orb] in Hp1.
      destruct (first_alive_slave (GetAllAliveNode nodes) (slaves p)); congruence.
    - rewrite (OffNode_partition_other _ _ _ _ Hm) in Hp1. simplify_eq.
      apply OnNode_partition_other. exact (Hother Hm). }
  rewrite Hp2. destruct (OnNode_partitions ip0 port0 rest1) as [rest2 b2].
  cbn [fst snd] in *. subst. split; reflexivity.
Qed.

Lemma OffNode_no_faults (ip0 : string) (port0 : Z) (st : ZPMetaServer)
    (nodes nodes1 : Nodes) (T : MetaCmdResponse_Pull) :
  script (floyd_ st) = [] ->
  kv (floyd_ st) !! ZP_META_KEY_ND = Some (SerializedNodes nodes) ->
  kv (floyd_ st) !! ZP_META_KEY_MT = Some (SerializedPull T) ->
  set_first_status nodes ip0 port0 kNodeDown = Some (nodes1, true) ->
  exists st1 T1,
    OffNode ip0 port0 st = (OK, st1) /\
    script (floyd_ st1) = [] /\
    kv (floyd_ st1) !! ZP_META_KEY_ND = Some (SerializedNodes nodes1) /\
    kv (floyd_ st1) !! ZP_META_KEY_MT = Some (SerializedPull T1) /\
    info T1 = fst (OffNode_partitions (GetAllAliveNode nodes) ip0 port0 (info T)).
Proof.
  intros Hs Hnd Hmt Hset.
  unfold OffNode, bind. rewrite (GetAllNode_no_faults _ _ Hs Hnd). cbn [ok negb].
  unfold SetNodeStatus. rewrite Hset. unfold bind.
  rewrite (floyd_Write_no_faults _ _ _ Hs). cbn [floyd_ok Z.eqb kNodeDown kNodeUp].
  unfold ret. cbn [ok negb].
  rewrite (GetMSInfo_no_faults T)
    by (try reflexivity; cbn [stored with_floyd floyd_ kv];
        rewrite lookup_insert_ne by discriminate; exact Hmt).
  cbn [ok negb].
  pose proof (OffNode_partitions_false (GetAllAliveNode nodes) ip0 port0 (info T)) as Hsame.
  destruct (OffNode_partitions (GetAllAliveNode nodes) ip0 port0 (info T)) as [info1 b].
  cbn [fst snd] in *. destruct b; cbn [negb].
  - unfold get_version, SetMSInfo. rewrite Set_no_faults by reflexivity. cbn [ok].
    unfold set_version. do 2 eexists. split; [reflexivity |].
    cbn [with_version stored with_floyd floyd_ script kv].
    split; [reflexivity |].
    split; [rewrite lookup_insert_ne by discriminate; apply lookup_insert_eq |].
    split; [apply lookup_insert_eq | reflexivity].
  - exists (stored ZP_META_KEY_ND (SerializedNodes nodes1) st), T.
    split; [reflexivity |]. cbn [stored with_floyd floyd_ script kv].
    split; [reflexivity |]. split; [apply lookup_insert_eq |].
    split; [rewrite lookup_insert_ne by discriminate; exact Hmt |].
    symmetry. apply Hsame. reflexivity.
Qed.

Lemma AddNode_rejoin_no_faults (ip0 : string) (port0 : Z) (st : ZPMetaServer)
    (nodes nodes1 : Nodes) (T : MetaCmdResponse_Pull) :
  script (floyd_ st) = [] ->
  kv (floyd_ st) !! ZP_META_KEY_ND = Some (SerializedNodes nodes) ->
  kv (floyd_ st) !! ZP_META_KEY_MT = Some (SerializedPull T) ->
  set_first_status nodes ip0 port0 kNodeUp = Some (nodes1, true) ->
  exists st1 T1,
    AddNode ip0 port0 st = (OK, st1) /\
    script (floyd_ st1) = [] /\
    kv (floyd_ st1) !! ZP_META_KEY_ND = Some (SerializedNodes nodes1) /\
    kv (floyd_ st1) !! ZP_META_KEY_MT = Some (SerializedPull T1) /\
    info T1 = fst (OnNode_partitions ip0 port0 (info T)).
Proof.
  intros Hs Hnd Hmt Hset.
  assert (Hfind : FindNode nodes ip0 port0 = true).
  { apply (FindNode_set_first_status nodes ip0 port0 kNodeUp). congruence. }
  unfold AddNode, bind. rewrite (GetAllNode_no_faults _ _ Hs Hnd). cbn [ok andb].
  rewrite Hfind. unfold SetNodeStatus. rewrite Hset. unfold bind.
  rewrite (floyd_Write_no_faults _ _ _ Hs). cbn [floyd_ok Z.eqb kNodeUp].
  unfold OnNode, bind.
  rewrite (GetMSInfo_no_faults T)
    by (try reflexivity; cbn [stored with_floyd floyd_ kv];
        rewrite lookup_insert_ne by discriminate; exact Hmt).
  cbn [ok negb].
  pose proof (OnNode_partitions_false ip0 port0 (info T)) as Hsame.
  destruct (OnNode_partitions ip0 port0 (info T)) as [info1 b].
  cbn [fst snd] in *. destruct b; cbn [negb].
  - unfold get_version, SetMSInfo. rewrite Set_no_faults by reflexivity. cbn [ok].
    unfold set_version, ret. cbn [ok negb]. do 2 eexists. split; [reflexivity |].
    cbn [with_version stored with_floyd floyd_ script kv].
    split; [reflexivity |].
    split; [rewrite lookup_insert_ne by discriminate; apply lookup_insert_eq |].
    split; [apply lookup_insert_eq | reflexivity].
  - unfold ret. cbn [ok negb].
    exists (stored ZP_META_KEY_ND (SerializedNodes nodes1) st), T.
    split; [reflexivity |]. cbn [stored with_floyd floyd_ script kv].
    split; [reflexivity |]. split; [apply lookup_insert_eq |].
    split; [rewrite lookup_insert_ne by discriminate; exact Hmt |].
    symmetry. apply Hsame. reflexivity.
Qed.

(** A node that is taken off while none of the slaves of its partitions is
    UP, and then joins again, is back where it was: [OffNode] and then
    [AddNode] both return [OK], and they leave the nodes table and the
    partitions of the table as they were before. *)
Theorem leave_and_rejoin_restores (ip0 : string) (port0 : Z) (st : ZPMetaServer)
    (nodes : Nodes) (T : MetaCmdResponse_Pull) :
  script (floyd_ st) = [] ->
  kv (floyd_ st) !! ZP_META_KEY_ND = Some (SerializedNodes nodes) ->
  kv (floyd_ st) !! ZP_META_KEY_MT = Some (SerializedPull T) ->
  NoDup (map node nodes) ->
  UP nodes {| ip := ip0; port := port0 |} ->
  Forall (fun P =>
            (master P = {| ip := ip0; port := port0 |} ->
             Forall (fun s => ~ UP nodes s) (slaves P)) /\
            (master P <> {| ip := ip0; port := port0 |} -> ~ orphaned_slave ip0 port0 P))
         (info T) ->
  exists st1 st2 T2,
    OffNode ip0 port0 st = (OK, st1) /\
    AddNode ip0 port0 st1 = (OK, st2) /\
    kv (floyd_ st2) !! ZP_META_KEY_ND = Some (SerializedNodes nodes) /\
    kv (floyd_ st2) !! ZP_META_KEY_MT = Some (SerializedPull T2) /\
    info T2 = info T.
Proof.
  intros Hs Hnd Hmt Hdup Hup Hall.
  destruct (set_first_status_round_trip nodes ip0 port0 Hdup Hup) as (nodes1 & Hdown & Hback).
  destruct (OffNode_no_faults ip0 port0 st nodes nodes1 T Hs Hnd Hmt Hdown)
    as (st1 & T1 & Hoff & Hs1 & Hnd1 & Hmt1 & Hinfo1).
  destruct (AddNode_rejoin_no_faults ip0 port0 st1 nodes1 nodes T1 Hs1 Hnd1 Hmt1 Hback)
    as (st2 & T2 & Hadd & _ & Hnd2 & Hmt2 & Hinfo2).
  exists st1, st2, T2. split; [exact Hoff |]. split; [exact Hadd |].
  split; [exact Hnd2 |]. split; [exact Hmt2 |].
  rewrite Hinfo2, Hinfo1. apply (OffNode_OnNode_partitions nodes ip0 port0 (info T) Hall).
Qed.

Lemma leave_and_rejoin_restores_witness :
  exists st1 st2 T2,
    OffNode "10.0.0.1" 5000 slaves_off = (OK, st1) /\
    AddNode "10.0.0.1" 5000 st1 = (OK, st2) /\
    kv (floyd_ st2) !! ZP_META_KEY_ND = Some (SerializedNodes slaves_off_nodes) /\
    kv (floyd_ st2) !! ZP_META_KEY_MT = Some (SerializedPull T2) /\
    info T2 = info slaves_off_table.
Proof.
  apply (leave_and_rejoin_restores "10.0.0.1" 5000 slaves_off slaves_off_nodes slaves_off_table).
  - vm_compute. reflexivity.
  - vm_compute. reflexivity.
  - vm_compute. reflexivity.
  - change (NoDup [host1; host2; host3]).
    repeat apply NoDup_cons_2; try apply NoDup_nil_2;
      rewrite ?elem_of_cons, ?elem_of_nil; intuition discriminate.
  - left.
  - apply Forall_cons_2; [| apply Forall_nil_2]. split.
    + intros _. unfold UP, slaves_off_nodes. cbn [slaves].
      repeat apply Forall_cons_2; try apply Forall_nil_2;
        rewrite ?elem_of_cons, ?elem_of_nil; intuition discriminate.
    + intros Hm. exfalso. apply Hm. reflexivity.
Defined.

(** ** The liveness map *)

Lemma keys_assign_found {V} (k : string) (v0 v : V) (m : StdMap.t V) :
  sorted_keys m -> StdMap.find k m = Some v0 ->
  StdMap.keys (StdMap.assign k v m) = StdMap.keys m.
Proof.
  intros Hsorted Hfind.
  destruct (assign_found k v0 v m Hsorted Hfind) as (m1 & m2 & Hm & ->).
  rewrite Hm. unfold StdMap.keys. rewrite !map_app. reflexivity.
Qed.

(** [UpdateNodeAlive] never adds an endpoint to the liveness map: the map
    has the keys it had. The call returns whether the endpoint is among them,
    and then the endpoint has the new time; the times of the other endpoints,
    the store, the cached version and the queue of updates stay. *)
Theorem UpdateNodeAlive_adds_no_endpoint (ip_port : string) (now : timeval)
    (st st' : ZPMetaServer) (known : bool) :
  sorted_keys (node_alive_ st) ->
  UpdateNodeAlive ip_port now st = (known, st') ->
  StdMap.keys (node_alive_ st') = StdMap.keys (node_alive_ st) /\
  (known = true <-> ip_port ∈ StdMap.keys (node_alive_ st)) /\
  (known = true -> StdMap.find ip_port (node_alive_ st') = Some now) /\
  (forall k, k <> ip_port ->
     StdMap.find k (node_alive_ st') = StdMap.find k (node_alive_ st)) /\
  floyd_ st' = floyd_ st /\ version_ st' = version_ st /\
  update_thread_ st' = update_thread_ st.
Proof.
  intros Hsorted H. unfold UpdateNodeAlive in H.
  destruct (StdMap.find ip_port (node_alive_ st)) as [v0 |] eqn:Hfind; simplify_eq;
    cbn [with_node_alive node_alive_ floyd_ version_ update_thread_].
  - split; [apply (keys_assign_found _ v0); assumption |].
    split; [split; [intros _ | reflexivity] |].
    + apply find_elem in Hfind; [| exact Hsorted]. apply list_elem_of_fmap.
      exists (ip_port, v0). split; [reflexivity | exact Hfind].
    + split; [intros _; apply find_assign_eq |].
      split; [intros k Hk; apply find_assign_ne; exact Hk | auto].
  - split; [reflexivity |]. split; [split; [discriminate |] |].
    + intros Hin. apply list_elem_of_fmap in Hin as ([k v] & Hk & Hin). cbn in Hk. subst k.
      apply find_elem in Hin; [| exact Hsorted]. congruence.
    + split; [discriminate |]. split; [reflexivity | auto].
Qed.

Lemma UpdateNodeAlive_adds_no_endpoint_witness :
  StdMap.keys (node_alive_ pinged) = StdMap.keys (node_alive_ joined) /\
  (true = true <-> "10.0.0.1:5000" ∈ StdMap.keys (node_alive_ joined)) /\
  (true = true -> StdMap.find "10.0.0.1:5000" (node_alive_ pinged) = Some noon) /\
  (forall k, k <> "10.0.0.1:5000" ->
     StdMap.find k (node_alive_ pinged) = StdMap.find k (node_alive_ joined)) /\
  floyd_ pinged = floyd_ joined /\ version_ pinged = version_ joined /\
  update_thread_ pinged = update_thread_ joined.
Proof.
  apply (UpdateNodeAlive_adds_no_endpoint "10.0.0.1:5000" noon joined pinged true).
  - unfold sorted_keys. change (StdMap.keys (node_alive_ joined)) with ["10.0.0.1:5000"].
    repeat constructor.
  - vm_compute. reflexivity.
Defined.

Lemma sorted_keys_filter {V} (P : string * V -> Prop) `{forall x, Decision (P x)}
    (m : StdMap.t V) :
  sorted_keys m -> sorted_keys (filter P m).
Proof.
  induction m as [| [k v] m IH]; intros Hsorted; [exact Hsorted |].
  apply sorted_keys_cons in Hsorted as [Hsorted Hlt].
  destruct (decide (P (k, v))) as [HP | HP];
    [rewrite (filter_cons_True P) by exact HP
    | rewrite (filter_cons_False P) by exact HP; apply IH; exact Hsorted].
  apply sorted_keys_cons. split; [apply IH; exact Hsorted |].
  rewrite Forall_forall in *. intros k' Hk'. apply Hlt.
  apply list_elem_of_fmap in Hk' as ([k0 v0] & -> & Hin).
  apply list_elem_of_filter in Hin as [_ Hin].
  apply list_elem_of_fmap. exists (k0, v0). split; [reflexivity | exact Hin].
Qed.

Lemma erase_not_head {V} (ks : list string) (k : string) (v : V) (m : StdMap.t V) :
  k ∉ ks ->
  fold_left (fun m k => StdMap.erase k m) ks ((k, v) :: m) =
    (k, v) :: fold_left (fun m k => StdMap.erase k m) ks m.
Proof.
  revert m. induction ks as [| k0 ks IH]; intros m Hnot; [reflexivity |].
  apply not_elem_of_cons in Hnot as [Hne Hnot]. cbn [fold_left StdMap.erase].
  destruct (String.eqb_spec k0 k) as [-> | _]; [congruence |]. apply IH. exact Hnot.
Qed.

Lemma sweep_sorted {V} (P : string * V -> Prop) `{forall x, Decision (P x)} (m : StdMap.t V) :
  sorted_keys m ->
  fold_left (fun m k => StdMap.erase k m) (StdMap.keys (filter P m)) m =
    filter (fun e => ~ P e) m.
Proof.
  induction m as [| [k v] m IH]; intros Hsorted; [reflexivity |].
  apply sorted_keys_cons in Hsorted as [Hsorted Hlt].
  destruct (decide (P (k, v))) as [HP | HP].
  - rewrite (filter_cons_True P) by exact HP.
    rewrite (filter_cons_False (fun e => ~ P e)) by tauto.
    cbn [StdMap.keys map fst fold_left StdMap.erase].
    rewrite String.eqb_refl. apply IH. exact Hsorted.
  - rewrite (filter_cons_False P) by exact HP.
    rewrite (filter_cons_True (fun e => ~ P e)) by exact HP. rewrite erase_not_head.
    + f_equal. apply IH. exact Hsorted.
    + intros Hin. apply list_elem_of_fmap in Hin as ([k' v'] & Hk & Hin). cbn in Hk. subst k'.
      apply list_elem_of_filter in Hin as [_ Hin].
      rewrite Forall_forall in Hlt. specialize (Hlt k).
      rewrite ltb_irrefl in Hlt. enough (false = true) by discriminate. apply Hlt.
      apply list_elem_of_fmap. exists (k, v'). split; [reflexivity | exact Hin].
Qed.

Lemma CheckNodeAlive_fold (need_remove : list string) :
  forall st : ZPMetaServer,
    let st' := fold_left (fun st rit =>
                            ScheduleUpdate rit kOpRemove
                              (with_node_alive (StdMap.erase rit (node_alive_ st)) st))
                         need_remove st in
    node_alive_ st' = fold_left (fun m k => StdMap.erase k m) need_remove (node_alive_ st) /\
    update_thread_ st' =
      app (rev (map (fun k => (k, kOpRemove)) need_remove)) (update_thread_ st) /\
    floyd_ st' = floyd_ st /\ version_ st' = version_ st.
Proof.
  induction need_remove as [| k ks IH]; intros st; [cbn; auto |].
  cbn [fold_left]. cbv zeta.
  destruct (IH (ScheduleUpdate k kOpRemove
                  (with_node_alive (StdMap.erase k (node_alive_ st)) st)))
    as (Hna & Hut & Hf & Hv).
  rewrite Hna, Hut, Hf, Hv. cbn [ScheduleUpdate with_node_alive node_alive_ update_thread_
                                   floyd_ version_ map rev].
  split; [reflexivity |]. split; [| auto]. rewrite <- app_assoc. reflexivity.
Qed.

Lemma CheckNodeAlive_filter (kNodeMetaTimeoutM : Z) (now : timeval) (st : ZPMetaServer) :
  sorted_keys (node_alive_ st) ->
  let st' := after (CheckNodeAlive kNodeMetaTimeoutM now) st in
  node_alive_ st' =
    filter (fun e => tv_sec now - tv_sec (snd e) <= kNodeMetaTimeoutM) (node_alive_ st) /\
  update_thread_ st' =
    app (rev (map (fun k => (k, kOpRemove))
                (StdMap.keys
                   (filter (fun e => tv_sec now - tv_sec (snd e) > kNodeMetaTimeoutM)
                           (node_alive_ st)))))
        (update_thread_ st) /\
  floyd_ st' = floyd_ st /\ version_ st' = version_ st.
Proof.
  intros Hsorted. unfold after, CheckNodeAlive. cbn [snd]. cbv zeta.
  match goal with
  | |- context [fold_left _ ?ks st] => destruct (CheckNodeAlive_fold ks st) as (Hna & Hut & Hf & Hv)
  end.
  rewrite Hna, Hut, Hf, Hv. split; [| split; [| auto]].
  - rewrite sweep_sorted by exact Hsorted. apply list_filter_iff. intros e.
    rewrite bool_decide_spec. lia.
  - do 4 f_equal. apply list_filter_iff. intros e. rewrite bool_decide_spec. reflexivity.
Qed.

Lemma find_filter {V} (P : string * V -> Prop) `{forall x, Decision (P x)}
    (k : string) (v : V) (m : StdMap.t V) :
  sorted_keys m ->
  (StdMap.find k (filter P m) = Some v <-> StdMap.find k m = Some v /\ P (k, v)).
Proof.
  intros Hsorted.
  rewrite (find_elem k v (filter P m)) by (apply sorted_keys_filter; exact Hsorted).
  rewrite (find_elem k v m Hsorted), list_elem_of_filter. tauto.
Qed.

Lemma find_filter_keys {V} (P : string * V -> Prop) `{forall x, Decision (P x)}
    (k : string) (m : StdMap.t V) :
  sorted_keys m ->
  ((exists v, StdMap.find k m = Some v /\ P (k, v)) <-> k ∈ StdMap.keys (filter P m)).
Proof.
  intros Hsorted. unfold StdMap.keys. rewrite list_elem_of_fmap. split.
  - intros (v & Hfind & HP). exists (k, v). split; [reflexivity |].
    apply list_elem_of_filter. split; [exact HP |]. apply find_elem; assumption.
  - intros ([k' v] & -> & Hin). apply list_elem_of_filter in Hin as [HP Hin].
    exists v. split; [apply find_elem; assumption | exact HP].
Qed.

(** [CheckNodeAlive] takes out of the liveness map exactly the endpoints
    whose last time is more than the timeout ago, keeps the others with
    their times, and schedules one [kOpRemove] for each endpoint it takes
    out and nothing else. It leaves the store and the cached version
    alone. *)
Theorem CheckNodeAlive_sweeps_expired (kNodeMetaTimeoutM : Z) (now : timeval)
    (st st' : ZPMetaServer) :
  sorted_keys (node_alive_ st) ->
  CheckNodeAlive kNodeMetaTimeoutM now st = (tt, st') ->
  (forall k v,
     StdMap.find k (node_alive_ st') = Some v <->
     StdMap.find k (node_alive_ st) = Some v /\ tv_sec now - tv_sec v <= kNodeMetaTimeoutM) /\
  (exists removed : list string,
     update_thread_ st' = app (map (fun k => (k, kOpRemove)) removed) (update_thread_ st) /\
     NoDup removed /\
     forall k, k ∈ removed <->
               exists v, StdMap.find k (node_alive_ st) = Some v /\
                         tv_sec now - tv_sec v > kNodeMetaTimeoutM) /\
  floyd_ st' = floyd_ st /\ version_ st' = version_ st.
Proof.
  intros Hsorted H.
  destruct (CheckNodeAlive_filter kNodeMetaTimeoutM now st Hsorted) as (Hna & Hut & Hf & Hv).
  unfold after in Hna, Hut, Hf, Hv. rewrite H in Hna, Hut, Hf, Hv. cbn [snd] in Hna, Hut, Hf, Hv.
  split; [| split; [| auto]].
  - intros k v. rewrite Hna.
    apply (find_filter (fun e => tv_sec now - tv_sec (snd e) <= kNodeMetaTimeoutM) k v _ Hsorted).
  - set (P := fun e : string * timeval => tv_sec now - tv_sec (snd e) > kNodeMetaTimeoutM) in *.
    exists (rev (StdMap.keys (filter P (node_alive_ st)))).
    split; [rewrite Hut, map_rev; reflexivity |].
    split.
    + apply NoDup_ListNoDup, List.NoDup_rev, NoDup_ListNoDup, sorted_keys_NoDup,
        sorted_keys_filter, Hsorted.
    + intros k. rewrite list_elem_of_In, <- in_rev, <- list_elem_of_In.
      symmetry. apply (find_filter_keys P k (node_alive_ st) Hsorted).
Qed.

Lemma CheckNodeAlive_sweeps_expired_witness :
  (forall k v,
     StdMap.find k (node_alive_ swept) = Some v <->
     StdMap.find k (node_alive_ pinged) = Some v /\ tv_sec later - tv_sec v <= 30) /\
  (exists removed : list string,
     update_thread_ swept = app (map (fun k => (k, kOpRemove)) removed) (update_thread_ pinged) /\
     NoDup removed /\
     forall k, k ∈ removed <->
               exists v, StdMap.find k (node_alive_ pinged) = Some v /\
                         tv_sec later - tv_sec v > 30) /\
  floyd_ swept = floyd_ pinged /\ version_ swept = version_ pinged.
Proof.
  apply (CheckNodeAlive_sweeps_expired 30 later pinged swept).
  - unfold sorted_keys. change (StdMap.keys (node_alive_ pinged)) with ["10.0.0.1:5000"].
    repeat constructor.
  - reflexivity.
Defined.

Lemma keys_assign_in {V} (k0 k : string) (v : V) (m : StdMap.t V) :
  k = k0 \/ k ∈ StdMap.keys m -> k ∈ StdMap.keys (StdMap.assign k0 v m).
Proof.
  unfold StdMap.keys. induction m as [| [k' v'] m IH]; cbn [StdMap.assign map fst].
  - intros [-> | Hin]; [left | inversion Hin].
  - destruct (String.eqb_spec k0 k') as [-> | Hne]; cbn [map fst].
    + intros [-> | Hin]; [left | exact Hin].
    + destruct (String.ltb k0 k'); cbn [map fst].
      * intros [-> | Hin]; [left | right; exact Hin].
      * intros [-> | Hin]; [right; apply IH; left; reflexivity |].
        apply elem_of_cons in Hin as [-> | Hin]; [left | right; apply IH; right; exact Hin].
Qed.

Lemma RestoreNodeAlive_keys (alive_nodes : list NodeStatus) (now : timeval) :
  forall (m : StdMap.t timeval) (k : string),
    k ∈ StdMap.keys m \/
    (exists n, n ∈ alive_nodes /\ k = IpPortString (ip (node n)) (port (node n))) ->
    k ∈ StdMap.keys
          (fold_left (fun m n => StdMap.assign (IpPortString (ip (node n)) (port (node n))) now m)
                     alive_nodes m).
Proof.
  induction alive_nodes as [| n0 rest IH]; intros m k H; cbn [fold_left].
  - destruct H as [H | (n & Hn & _)]; [exact H | inversion Hn].
  - apply IH. destruct H as [H | (n & Hn & ->)].
    + left. apply keys_assign_in. right. exact H.
    + apply elem_of_cons in Hn as [-> | Hn].
      * left. apply keys_assign_in. left. reflexivity.
      * right. exists n. split; [exact Hn | reflexivity].
Qed.

Lemma RestoreNodeAlive_times (alive_nodes : list NodeStatus) (now : timeval) :
  forall (m : StdMap.t timeval) (k : string) (v : timeval),
    StdMap.find k
      (fold_left (fun m n => StdMap.assign (IpPortString (ip (node n)) (port (node n))) now m)
                 alive_nodes m) = Some v ->
    v = now \/ StdMap.find k m = Some v.
Proof.
  induction alive_nodes as [| n0 rest IH]; intros m k v H; cbn [fold_left] in H.
  - right. exact H.
  - apply IH in H as [-> | H]; [left; reflexivity |].
    destruct (String.eqb_spec k (IpPortString (ip (node n0)) (port (node n0)))) as [-> | Hne].
    + rewrite find_assign_eq in H. left. congruence.
    + rewrite find_assign_ne in H by exact Hne. right. exact H.
Qed.

(** When [BecomeLeader] returns [OK] the liveness map is rebuilt from the
    nodes table, whatever it held before: its endpoints are those of the
    nodes that are UP, each with the time of the call. The cached version is
    loaded from the table, nothing is written and no update is scheduled. *)
Theorem BecomeLeader_rebuilds_liveness (now : timeval) (st st' : ZPMetaServer) (nodes : Nodes) :
  kv (floyd_ st) !! ZP_META_KEY_ND = Some (SerializedNodes nodes) ->
  BecomeLeader now st = (OK, st') ->
  (forall k, k ∈ StdMap.keys (node_alive_ st') <->
             exists n, n ∈ GetAllAliveNode nodes /\
                       k = IpPortString (ip (node n)) (port (node n))) /\
  (forall k v, StdMap.find k (node_alive_ st') = Some v -> v = now) /\
  (kv (floyd_ st) !! ZP_META_KEY_MT = None -> version_ st' = -1) /\
  (forall T, kv (floyd_ st) !! ZP_META_KEY_MT = Some (SerializedPull T) ->
             version_ st' = version T) /\
  kv (floyd_ st') = kv (floyd_ st) /\
  journal (floyd_ st') = journal (floyd_ st) /\
  update_thread_ st' = update_thread_ st.
Proof.
  intros Hnd H. unfold BecomeLeader, bind in H.
  destruct (GetAllNode st) as [[s nodes0] st1] eqn:Hget.
  destruct s; cbn [ok negb] in H; try (unfold ret in H; discriminate).
  unfold RestoreNodeAlive in H.
  destruct (InitVersion _) as [s2 st2] eqn:Hinit. unfold ret in H. injection H as <-.
  destruct (InitVersion_reads_once
              (with_node_alive
                 (fold_left (fun m n => StdMap.assign
                                          (IpPortString (ip (node n)) (port (node n))) now m)
                            (GetAllAliveNode nodes0) []) st1))
    as (st2' & Hrun & _ & Hkv2 & Hj2).
  rewrite Hinit in Hrun. injection Hrun as -> <-.
  unfold InitVersion in Hinit.
  pose proof (InitVersion_loop_frame _ _ _ _ Hinit) as [_ Hna].
  pose proof (InitVersion_loop_version _ _ _ _ eq_refl Hinit) as (_ & Hut & Hv0 & _ & HvT).
  cbn [with_node_alive node_alive_ floyd_ update_thread_] in Hna, Hut, Hv0, HvT, Hkv2, Hj2.
  unfold GetAllNode in Hget. unfold_store.
  run_all Hget; simplify_eq.
  cbn [Nodes_ParseFromString] in *. simplify_eq.
  cbn [floyd_ kv journal update_thread_] in *.
  rewrite Hna. split; [| split; [| split; [| split; [| split; [| split]]]]].
  - intros k. split.
    + intros Hk. apply keys_RestoreNodeAlive in Hk as [Hk | Hk]; [inversion Hk | exact Hk].
    + intros Hk. apply RestoreNodeAlive_keys. right. exact Hk.
  - intros k v Hk. apply RestoreNodeAlive_times in Hk as [-> | Hk]; [reflexivity | discriminate].
  - exact Hv0.
  - exact HvT.
  - exact Hkv2.
  - exact Hj2.
  - exact Hut.
Qed.

Lemma BecomeLeader_rebuilds_liveness_witness :
  (forall k, k ∈ StdMap.keys (node_alive_ promoted) <->
             exists n, n ∈ GetAllAliveNode all_up /\
                       k = IpPortString (ip (node n)) (port (node n))) /\
  (forall k v, StdMap.find k (node_alive_ promoted) = Some v -> v = noon) /\
  (kv (floyd_ three_hosts) !! ZP_META_KEY_MT = None -> version_ promoted = -1) /\
  (forall T, kv (floyd_ three_hosts) !! ZP_META_KEY_MT = Some (SerializedPull T) ->
             version_ promoted = version T) /\
  kv (floyd_ promoted) = kv (floyd_ three_hosts) /\
  journal (floyd_ promoted) = journal (floyd_ three_hosts) /\
  update_thread_ promoted = update_thread_ three_hosts.
Proof.
  apply (BecomeLeader_rebuilds_liveness noon three_hosts promoted all_up).
  - vm_compute. reflexivity.
  - vm_compute. reflexivity.
Defined.

Lemma AddNode_frame (ip0 : string) (port0 : Z) (st st' : ZPMetaServer) (s : Status) :
  AddNode ip0 port0 st = (s, st') ->
  node_alive_ st' = node_alive_ st /\ update_thread_ st' = update_thread_ st.
Proof.
  intros H. unfold AddNode, SetNodeStatus, OnNode in H. unfold_store.
  run_all H; simplify_eq; split; reflexivity.
Qed.

(** Whatever [AddNodeAlive] returns, the endpoint is in the liveness map
    afterwards, with the time of the call; an update [kOpAdd] is scheduled
    for it exactly when the call returns [OK]. *)
Theorem AddNodeAlive_schedules_iff_OK (ip_port : string) (now : timeval)
    (st st' : ZPMetaServer) (s : Status) :
  AddNodeAlive ip_port now st = (s, st') ->
  StdMap.find ip_port (node_alive_ st') = Some now /\
  update_thread_ st' =
    app (if ok s then [(ip_port, kOpAdd)] else []) (update_thread_ st).
Proof.
  intros H. unfold AddNodeAlive in H.
  destruct (ParseIpPortString ip_port) as [[ip0 port0] |].
  - destruct (AddNode ip0 port0 _) as [s1 st1] eqn:Hadd.
    apply AddNode_frame in Hadd as [Hna Hut].
    cbn [with_node_alive node_alive_ update_thread_] in Hna, Hut.
    destruct (ok s1) eqn:Hok; cbn [negb] in H; simplify_eq;
      cbn [ScheduleUpdate node_alive_ update_thread_ ok app]; rewrite ?Hok, Hna, Hut;
      (split; [apply find_assign_eq | reflexivity]).
  - simplify_eq. cbn [with_node_alive node_alive_ update_thread_ ok app].
    split; [apply find_assign_eq | reflexivity].
Qed.

Lemma AddNodeAlive_schedules_iff_OK_witness :
  StdMap.find "10.0.0.1:5000" (node_alive_ joined) = Some noon /\
  update_thread_ joined =
    app (if ok OK then [("10.0.0.1:5000", kOpAdd)] else []) (update_thread_ fresh).
Proof.
  apply (AddNodeAlive_schedules_iff_OK "10.0.0.1:5000" noon fresh joined OK).
  vm_compute. reflexivity.
Defined.

(** ** The liveness map is a [std::map] *)

Lemma sorted_keys_RestoreNodeAlive (alive_nodes : list NodeStatus) (now : timeval) :
  forall m : StdMap.t timeval,
    sorted_keys m ->
    sorted_keys
      (fold_left (fun m n => StdMap.assign (IpPortString (ip (node n)) (port (node n))) now m)
                 alive_nodes m).
Proof.
  induction alive_nodes as [| n rest IH]; intros m Hm; [exact Hm |].
  cbn [fold_left]. apply IH. apply sorted_keys_assign. exact Hm.
Qed.

(** The entries of the liveness map stay in the order of their keys: the
    map of a new server is empty, and [AddNodeAlive], [UpdateNodeAlive],
    [CheckNodeAlive] and [BecomeLeader] keep the order. *)
Lemma liveness_map_stays_sorted (st st' : ZPMetaServer) (now : timeval) :
  (forall f, sorted_keys (node_alive_ (new_ZPMetaServer f))) /\
  (forall ip_port s,
     sorted_keys (node_alive_ st) -> AddNodeAlive ip_port now st = (s, st') ->
     sorted_keys (node_alive_ st')) /\
  (forall ip_port known,
     sorted_keys (node_alive_ st) -> UpdateNodeAlive ip_port now st = (known, st') ->
     sorted_keys (node_alive_ st')) /\
  (forall kNodeMetaTimeoutM,
     sorted_keys (node_alive_ st) -> CheckNodeAlive kNodeMetaTimeoutM now st = (tt, st') ->
     sorted_keys (node_alive_ st')) /\
  (forall s,
     sorted_keys (node_alive_ st) -> BecomeLeader now st = (s, st') ->
     sorted_keys (node_alive_ st')).
Proof.
  split; [intros f; constructor |]. split; [| split; [| split]].
  - intros ip_port s Hsorted H. unfold AddNodeAlive in H.
    destruct (ParseIpPortString ip_port) as [[ip0 port0] |].
    + destruct (AddNode ip0 port0 _) as [s1 st1] eqn:Hadd.
      apply AddNode_frame in Hadd as [Hna _]. cbn [with_node_alive node_alive_] in Hna.
      destruct (ok s1); cbn [negb] in H; simplify_eq; cbn [ScheduleUpdate node_alive_];
        rewrite Hna; apply sorted_keys_assign; exact Hsorted.
    + simplify_eq. cbn [with_node_alive node_alive_]. apply sorted_keys_assign. exact Hsorted.
  - intros ip_port known Hsorted H. unfold UpdateNodeAlive in H.
    destruct (StdMap.find ip_port (node_alive_ st)); simplify_eq; [| exact Hsorted].
    cbn [with_node_alive node_alive_]. apply sorted_keys_assign. exact Hsorted.
  - intros kNodeMetaTimeoutM Hsorted H. unfold CheckNodeAlive in H. injection H as <-.
    match goal with
    | |- context [fold_left _ ?ks st] => destruct (CheckNodeAlive_fold ks st) as (Hna & _)
    end.
    rewrite Hna, sweep_sorted by exact Hsorted. apply sorted_keys_filter. exact Hsorted.
  - intros s Hsorted H. unfold BecomeLeader, bind in H.
    destruct (GetAllNode st) as [[s0 nodes] st1] eqn:Hget.
    assert (Hna1 : node_alive_ st1 = node_alive_ st).
    { unfold GetAllNode in Hget. unfold_store. run_all Hget; simplify_eq; reflexivity. }
    destruct (ok s0); cbn [negb] in H.
    + unfold RestoreNodeAlive in H. destruct (InitVersion _) as [s2 st2] eqn:Hinit.
      unfold ret in H. simplify_eq. unfold InitVersion in Hinit.
      apply InitVersion_loop_frame in Hinit as [_ Hna]. rewrite Hna.
      cbn [with_node_alive node_alive_]. apply sorted_keys_RestoreNodeAlive. constructor.
    + unfold ret in H. simplify_eq. rewrite Hna1. exact Hsorted.
Qed.

(** ** Replicas on different hosts *)

Lemma buckets_of_hosts (l : list NodeStatus) :
  Forall (fun kb => Forall (fun n => ip (node n) = fst kb) (snd kb)) (buckets_of l).
Proof.
  apply Forall_forall. intros [host bucket] Hin. cbn [fst snd].
  apply (find_elem _ _ _ (buckets_of_sorted l)) in Hin.
  rewrite find_buckets_of in Hin.
  destruct (nodes_on host l) as [| n b] eqn:Hon; [discriminate |].
  injection Hin as <-. rewrite <- Hon. apply Forall_forall. intros x Hx.
  unfold nodes_on in Hx. apply list_elem_of_filter in Hx as [Hip _]. exact Hip.
Qed.

Lemma host_in_buckets (l : list NodeStatus) (n : NodeStatus) :
  n ∈ l -> ip (node n) ∈ StdMap.keys (buckets_of l).
Proof.
  intros Hn. pose proof (find_buckets_of l (ip (node n))) as Hfind.
  assert (Hnn : n ∈ nodes_on (ip (node n)) l).
  { unfold nodes_on. apply list_elem_of_filter. split; [reflexivity | exact Hn]. }
  destruct (nodes_on (ip (node n)) l) as [| b0 bucket] eqn:Hb; [inversion Hnn |].
  apply find_elem in Hfind; [| apply buckets_of_sorted].
  apply list_elem_of_fmap. eexists. split; [| exact Hfind]. reflexivity.
Qed.

Lemma Reorganize_pass_round (s : nat) (m : StdMap.t (list NodeStatus)) :
  forall (empty_count : Z) (alive_nodes : list NodeStatus),
    Forall (fun kb => length (snd kb) = S s /\
                      Forall (fun n => ip (node n) = fst kb) (snd kb)) m ->
    exists m' taken,
      Reorganize_pass m empty_count alive_nodes = (m', empty_count, app alive_nodes taken) /\
      map (fun n => ip (node n)) taken = StdMap.keys m /\
      StdMap.keys m' = StdMap.keys m /\
      Forall (fun kb => length (snd kb) = s /\
                        Forall (fun n => ip (node n) = fst kb) (snd kb)) m'.
Proof.
  induction m as [| [k bucket] m IH]; intros ec al Hall; cbn [Reorganize_pass].
  - exists [], []. rewrite app_nil_r. repeat split; constructor.
  - apply Forall_cons in Hall as [[Hb Hk] Hall]. cbn [fst snd] in Hb, Hk.
    destruct (last bucket) as [back |] eqn:Hlast.
    + destruct (IH ec (push_back al back) Hall) as (m' & taken & -> & Hips & Hkeys & Hall').
      apply last_Some in Hlast as [front ->]. rewrite removelast_last.
      apply Forall_app in Hk as [Hfront Hback]. apply Forall_cons in Hback as [Hback _].
      exists ((k, front) :: m'), (back :: taken). unfold push_back. rewrite <- app_assoc.
      split; [reflexivity |]. cbn [map StdMap.keys fst]. unfold StdMap.keys in *.
      rewrite Hips, Hkeys, Hback. split; [reflexivity |]. split; [reflexivity |].
      constructor; [| exact Hall']. cbn [fst snd]. split; [| exact Hfront].
      rewrite length_app in Hb. cbn in Hb. lia.
    + apply last_None in Hlast as ->. discriminate.
Qed.

Lemma Reorganize_loop_round_robin (s : nat) :
  forall (m : StdMap.t (list NodeStatus)) (alive_nodes : list NodeStatus) (k : nat),
    (0 < length m)%nat -> Z.of_nat (length m) <= INT_MAX ->
    Forall (fun kb => length (snd kb) = s /\
                      Forall (fun n => ip (node n) = fst kb) (snd kb)) m ->
    exists out,
      Reorganize_loop (S s + k) m (Z.of_nat (length m)) 0 alive_nodes =
        Some (app alive_nodes out) /\
      map (fun n => ip (node n)) out = concat (replicate s (StdMap.keys m)).
Proof.
  induction s as [| s IH]; intros m al k Hlen Hmax Hall.
  - cbn [Nat.add Reorganize_loop].
    destruct (Z.eqb_spec 0 (Z.of_nat (length m))) as [He | _]; [lia |].
    assert (Hempty : Forall (fun kb => length (snd kb) = 0%nat) m).
    { eapply Forall_impl; [exact Hall |]. intros kb [Hl _]. exact Hl. }
    rewrite (Reorganize_pass_empty m 0 al Hempty) by lia.
    rewrite Z.add_0_l. exists []. rewrite app_nil_r. split; [| reflexivity].
    destruct k; cbn [Reorganize_loop]; rewrite Z.eqb_refl; reflexivity.
  - change (S (S s) + k)%nat with (S (S s + k)). cbn [Reorganize_loop].
    destruct (Z.eqb_spec 0 (Z.of_nat (length m))) as [He | _]; [lia |].
    destruct (Reorganize_pass_round s m 0 al Hall) as (m' & taken & Hp & Hips & Hkeys & Hall').
    rewrite Hp.
    assert (Hlen' : length m' = length m).
    { apply (f_equal length) in Hkeys. unfold StdMap.keys in Hkeys.
      rewrite !length_map in Hkeys. exact Hkeys. }
    destruct (IH m' (app al taken) k) as (out & Hout & Hmap); [lia | lia | exact Hall' |].
    rewrite Hlen' in Hout. exists (app taken out). rewrite app_assoc. split; [exact Hout |].
    rewrite map_app, Hips, Hmap, Hkeys. reflexivity.
Qed.

Lemma concat_replicate_lookup {A} (l : list A) (s : nat) :
  forall j : nat, (j < s * length l)%nat ->
    concat (replicate s l) !! j = l !! (j mod length l)%nat.
Proof.
  induction s as [| s IH]; intros j Hj; [lia |].
  cbn [replicate concat].
  destruct (Nat.lt_ge_cases j (length l)) as [Hlt | Hge].
  - rewrite lookup_app_l by exact Hlt. rewrite Nat.mod_small by exact Hlt. reflexivity.
  - rewrite lookup_app_r by exact Hge. rewrite IH by lia.
    replace j with ((j - length l) + 1 * length l)%nat at 2 by lia.
    rewrite Nat.Div0.mod_add. reflexivity.
Qed.

Lemma length_concat_replicate {A} (l : list A) (s : nat) :
  length (concat (replicate s l)) = (s * length l)%nat.
Proof.
  induction s as [| s IH]; [reflexivity |].
  cbn [replicate concat]. rewrite length_app, IH. lia.
Qed.

Lemma Reorganize_round_robin (s k : nat) (t_alive_nodes : list NodeStatus) :
  evenly_spread s t_alive_nodes ->
  t_alive_nodes <> [] ->
  Z.of_nat (length t_alive_nodes) <= INT_MAX ->
  exists out,
    Reorganize (S s + k) t_alive_nodes [] = Some out /\
    map (fun n => ip (node n)) out =
      concat (replicate s (StdMap.keys (buckets_of t_alive_nodes))).
Proof.
  intros Hs Hne Hmax. unfold Reorganize. fold (buckets_of t_alive_nodes).
  pose proof (length_buckets_of t_alive_nodes) as Hle.
  assert (Hpos : (0 < length (buckets_of t_alive_nodes))%nat).
  { destruct t_alive_nodes as [| n l]; [congruence |].
    pose proof (host_in_buckets (n :: l) n ltac:(left)) as Hin.
    destruct (buckets_of (n :: l)); [inversion Hin | cbn; lia]. }
  rewrite wrap32_in_range by (unfold is_int, INT_MIN, INT_MAX in *; lia).
  destruct (Reorganize_loop_round_robin s (buckets_of t_alive_nodes) [] k Hpos ltac:(lia))
    as (out & Hout & Hmap).
  - pose proof (buckets_of_uniform s _ Hs) as Hu.
    pose proof (buckets_of_hosts t_alive_nodes) as Hh.
    rewrite Forall_forall in Hu, Hh. apply Forall_forall. intros kb Hkb. split; auto.
  - exists out. split; [exact Hout | exact Hmap].
Qed.

Lemma mod_of_multiple (i : Z) (s h : nat) :
  0 <= i -> (0 < h)%nat -> (0 < s)%nat ->
  (Z.to_nat (i mod Z.of_nat (s * h)) mod h)%nat = Z.to_nat (i mod Z.of_nat h).
Proof.
  intros Hi Hh Hs. apply Nat2Z.inj.
  assert (Hn : 0 < Z.of_nat (s * h)) by nia.
  pose proof (Z.mod_pos_bound i (Z.of_nat (s * h)) Hn) as Hb1.
  pose proof (Z.mod_pos_bound i (Z.of_nat h) ltac:(lia)) as Hb2.
  rewrite Nat2Z.inj_mod, !Z2Nat.id by lia.
  apply Z.mod_mod_divide. exists (Z.of_nat s). lia.
Qed.

Lemma replica_hosts_distinct (out : list NodeStatus) (hosts : list string) (s : nat) (i : Z) :
  map (fun n => ip (node n)) out = concat (replicate s hosts) ->
  NoDup hosts -> (3 <= length hosts)%nat -> (0 < s)%nat ->
  Z.of_nat (length out) <= INT_MAX ->
  0 <= i < INT_MAX - 1 ->
  exists s1 s2,
    slaves (partition_at out (wrap32 (Z.of_nat (length out))) i) = [s1; s2] /\
    NoDup [ip (master (partition_at out (wrap32 (Z.of_nat (length out))) i)); ip s1; ip s2].
Proof.
  intros Hmap Hdup Hh Hs Hmax Hi.
  assert (Hlen : length out = (s * length hosts)%nat).
  { rewrite <- (length_map (fun n => ip (node n)) out), Hmap.
    apply length_concat_replicate. }
  set (n := Z.of_nat (length out)) in *.
  assert (Hnpos : 0 < n) by (subst n; nia).
  assert (Hn : wrap32 n = n)
    by (apply wrap32_in_range; unfold is_int, INT_MIN, INT_MAX in *; lia).
  assert (Hw1 : wrap32 (i + 1) = i + 1)
    by (apply wrap32_in_range; unfold is_int, INT_MIN, INT_MAX in *; lia).
  assert (Hw2 : wrap32 (i + 2) = i + 2)
    by (apply wrap32_in_range; unfold is_int, INT_MIN, INT_MAX in *; lia).
  unfold partition_at. cbn [slaves master]. rewrite Hn, Hw1, Hw2, !Z.rem_mod_nonneg by lia.
  do 2 eexists. split; [reflexivity |].
  assert (Hhost : forall j, 0 <= j ->
            hosts !! Z.to_nat (j mod Z.of_nat (length hosts)) =
              Some (ip (node (vector_at out (j mod n))))).
  { intros j Hj.
    assert (Hb : 0 <= j mod n < n) by (apply Z.mod_pos_bound; lia).
    pose proof (vector_at_lookup out (j mod n) Hb) as Hl.
    apply (f_equal (fmap (fun x => ip (node x)))) in Hl.
    rewrite <- list_lookup_fmap in Hl. cbn [fmap option_fmap option_map] in Hl.
    change (fmap (fun x => ip (node x)) out) with (map (fun x => ip (node x)) out) in Hl.
    rewrite Hmap, concat_replicate_lookup in Hl by (subst n; lia).
    subst n. rewrite Hlen in Hl. rewrite mod_of_multiple in Hl by lia.
    rewrite Hlen. exact Hl. }
  pose proof (Hhost i ltac:(lia)) as L0.
  pose proof (Hhost (i + 1) ltac:(lia)) as L1.
  pose proof (Hhost (i + 2) ltac:(lia)) as L2.
  set (h := Z.of_nat (length hosts)) in *.
  assert (B0 : 0 <= i mod h < h) by (apply Z.mod_pos_bound; lia).
  assert (B1 : 0 <= (i + 1) mod h < h) by (apply Z.mod_pos_bound; lia).
  assert (B2 : 0 <= (i + 2) mod h < h) by (apply Z.mod_pos_bound; lia).
  pose proof (mod_shift_ne i 1 h ltac:(lia)) as N1.
  pose proof (mod_shift_ne i 2 h ltac:(lia)) as N2.
  pose proof (mod_shift_ne (i + 1) 1 h ltac:(lia)) as N3.
  replace (i + 1 + 1) with (i + 2) in N3 by lia.
  repeat apply NoDup_cons_2; try apply NoDup_nil_2;
    rewrite ?elem_of_cons, ?elem_of_nil.
  - intros [Heq | [Heq | []]].
    + rewrite Heq in L0. pose proof (NoDup_lookup _ _ _ _ Hdup L0 L1). lia.
    + rewrite Heq in L0. pose proof (NoDup_lookup _ _ _ _ Hdup L0 L2). lia.
  - intros [Heq | []]. rewrite Heq in L1. pose proof (NoDup_lookup _ _ _ _ Hdup L1 L2). lia.
  - intros [].
Qed.

(** When the nodes that are UP are on at least three hosts, as many on each
    host as on every other, the first [Distribute] puts the master and the
    two slaves of every partition on three different hosts. *)
Theorem Distribute_replicas_on_distinct_hosts (st : ZPMetaServer) (s k : nat) (num : Z)
    (nodes : Nodes) (n1 n2 n3 : NodeStatus) :
  script (floyd_ st) = [] ->
  kv (floyd_ st) !! ZP_META_KEY_PN = None ->
  kv (floyd_ st) !! ZP_META_KEY_ND = Some (SerializedNodes nodes) ->
  evenly_spread s (GetAllAliveNode nodes) ->
  n1 ∈ GetAllAliveNode nodes -> n2 ∈ GetAllAliveNode nodes -> n3 ∈ GetAllAliveNode nodes ->
  ip (node n1) <> ip (node n2) -> ip (node n1) <> ip (node n3) ->
  ip (node n2) <> ip (node n3) ->
  Z.of_nat (length (GetAllAliveNode nodes)) <= INT_MAX ->
  0 <= num < INT_MAX ->
  exists st' T,
    Distribute (S s + k) num st = Returns OK st' /\
    kv (floyd_ st') !! ZP_META_KEY_MT = Some (SerializedPull T) /\
    Forall (fun p => exists s1 s2,
              slaves p = [s1; s2] /\ NoDup [ip (master p); ip s1; ip s2]) (info T).
Proof.
  intros Hs Hpn Hnd Heven H1 H2 H3 N12 N13 N23 Hmax Hnum.
  set (t := GetAllAliveNode nodes) in *.
  assert (Hne : t <> []) by (intros He; rewrite He in H1; inversion H1).
  destruct (Reorganize_round_robin s k t Heven Hne Hmax) as (out & Hre & Hmap).
  pose proof (Reorganize_output_size _ _ _ Hmax Hre Hne) as Hsize.
  destruct (Distribute_no_faults st (S s + k) num nodes out Hs Hpn Hnd Hne Hre) as [Hd Hmt].
  assert (Hdup : NoDup (StdMap.keys (buckets_of t)))
    by (apply sorted_keys_NoDup, buckets_of_sorted).
  assert (Hh : (3 <= length (StdMap.keys (buckets_of t)))%nat).
  { change 3%nat with (length [ip (node n1); ip (node n2); ip (node n3)]).
    apply submseteq_length, NoDup_submseteq.
    - repeat apply NoDup_cons_2; try apply NoDup_nil_2;
        rewrite ?elem_of_cons, ?elem_of_nil; intuition congruence.
    - intros x Hx. rewrite !elem_of_cons, elem_of_nil in Hx.
      destruct Hx as [-> | [-> | [-> | []]]]; apply host_in_buckets; assumption. }
  assert (Hpos : (0 < s)%nat).
  { rewrite <- (Heven n1 H1).
    assert (Hin : n1 ∈ nodes_on (ip (node n1)) t).
    { unfold nodes_on. apply list_elem_of_filter. split; [reflexivity | exact H1]. }
    destruct (nodes_on (ip (node n1)) t); [inversion Hin | cbn; lia]. }
  do 2 eexists. split; [exact Hd |]. split; [exact Hmt |].
  cbn [info]. apply Forall_lookup. intros j p Hj.
  pose proof (lookup_lt_Some _ _ _ Hj) as Hlt. rewrite length_Distribute_layout in Hlt.
  rewrite Distribute_layout_lookup in Hj by exact Hlt. simplify_eq.
  apply (replica_hosts_distinct out _ s _ Hmap Hdup Hh Hpos); lia.
Qed.

Lemma Distribute_replicas_on_distinct_hosts_witness :
  exists st' T,
    Distribute (S 1 + 1) 5 three_hosts = Returns OK st' /\
    kv (floyd_ st') !! ZP_META_KEY_MT = Some (SerializedPull T) /\
    Forall (fun p => exists s1 s2,
              slaves p = [s1; s2] /\ NoDup [ip (master p); ip s1; ip s2]) (info T).
Proof.
  apply (Distribute_replicas_on_distinct_hosts three_hosts 1 1 5 all_up
           (up host1) (up host2) (up host3)).
  - vm_compute. reflexivity.
  - vm_compute. reflexivity.
  - vm_compute. reflexivity.
  - change (GetAllAliveNode all_up) with [up host1; up host2; up host3].
    intros n Hn. rewrite !elem_of_cons, elem_of_nil in Hn.
    destruct Hn as [-> | [-> | [-> | []]]]; reflexivity.
  - left.
  - right. left.
  - right. right. left.
  - discriminate.
  - discriminate.
  - discriminate.
  - vm_compute. discriminate.
  - unfold INT_MAX. lia.
Defined.

(** ** The leader *)



(** A server that finds another server elected, and is not connected to it,
    drops the connection it has and connects to the command port of the
    leader, the port of the leader plus [kMetaPortShiftCmd]; it marks itself
    as not promoted and leaves the state of the meta data alone. When
    [Connect] succeeds the calls that find the same leader change nothing;
    when it fails nothing is cached. *)
Theorem IsLeader_follows_leader (kMetaPortShiftFY kMetaPortShiftCmd : Z)
    (answers answers' : list (option (string * Z))) (connect_ok connect_ok' : bool)
    (now now' : timeval) (l : Leader) (st : ZPMetaServer) (leader_ip : string) (leader_port : Z) :
  should_exit_ l = false ->
  wait_leader kMetaPortShiftFY answers = Some (leader_ip, leader_port) ->
  wait_leader kMetaPortShiftFY answers' = Some (leader_ip, leader_port) ->
  (leader_ip, leader_port) <> self l ->
  ~ (leader_ip_ l = leader_ip /\
     leader_cmd_port_ l = wrap32 (leader_port + kMetaPortShiftCmd)) ->
  exists l1,
    IsLeader kMetaPortShiftFY kMetaPortShiftCmd answers connect_ok now l st =
      Some (false, l1, st) /\
    leader_first_time_ l1 = true /\
    (if connect_ok then
       connected_to leader_ip (wrap32 (leader_port + kMetaPortShiftCmd)) l1 /\
       IsLeader kMetaPortShiftFY kMetaPortShiftCmd answers' connect_ok' now' l1 st =
         Some (false, l1, st)
     else disconnected l1).
Proof.
  intros Hexit Hw Hw' Hother Hnew. unfold self in Hother. unfold IsLeader.
  rewrite Hexit, Hw. cbv zeta.
  destruct ((leader_ip =? leader_ip_ l)%string &&
            (wrap32 (leader_port + kMetaPortShiftCmd) =? leader_cmd_port_ l)) eqn:Hcached.
  { exfalso. apply Hnew. apply andb_true_iff in Hcached as [Hi Hp].
    apply String.eqb_eq in Hi. apply Z.eqb_eq in Hp. split; congruence. }
  destruct ((leader_ip =? local_ip (options_ l))%string &&
            (leader_port =? local_port (options_ l))) eqn:Hself.
  { exfalso. apply Hother. apply andb_true_iff in Hself as [Hi Hp].
    apply String.eqb_eq in Hi. apply Z.eqb_eq in Hp. congruence. }
  destruct connect_ok.
  - eexists. split; [reflexivity |]. split; [reflexivity |]. split; [repeat split |].
    cbn [CleanLeader should_exit_ options_ leader_ip_ leader_cmd_port_ leader_first_time_].
    rewrite Hexit, Hw'. cbv zeta. rewrite String.eqb_refl, Z.eqb_refl. reflexivity.
  - eexists. split; [reflexivity |]. split; [reflexivity |]. repeat split.
Qed.

Lemma IsLeader_follows_leader_witness :
  exists l1,
    IsLeader 100 200 elects_other true noon started three_hosts =
      Some (false, l1, three_hosts) /\
    leader_first_time_ l1 = true /\
    (connected_to "10.0.0.2" (wrap32 (9000 + 200)) l1 /\
     IsLeader 100 200 [Some ("10.0.0.2", 9100)] false later l1 three_hosts =
       Some (false, l1, three_hosts)).
Proof.
  apply (IsLeader_follows_leader 100 200 elects_other [Some ("10.0.0.2", 9100)] true false
           noon later started three_hosts "10.0.0.2" 9000).
  - reflexivity.
  - vm_compute. reflexivity.
  - vm_compute. reflexivity.
  - discriminate.
  - intros [H _]. discriminate H.
Defined.

(** [RedirectToLeader] returns [OK] only over a connection on which both
    [Send] and [Recv] succeed, and then it changes nothing. After any other
    return there is no connection and, unless there was none before, no
    cached leader, so that every redirect returns
    [Corruption "no leader connection"] until [IsLeader] connects again. *)
Theorem RedirectToLeader_failure_drops_connection (send recv send' recv' : option string)
    (l l' : Leader) (s : Status) :
  RedirectToLeader send recv l = (s, l') ->
  (s = OK -> l' = l /\ leader_cli_ l <> None /\ send = None /\ recv = None) /\
  (s <> OK ->
     leader_cli_ l' = None /\
     (leader_cli_ l <> None -> disconnected l') /\
     RedirectToLeader send' recv' l' = (Corruption "no leader connection", l')).
Proof.
  intros H. unfold RedirectToLeader in H.
  destruct (leader_cli_ l) as [cli |] eqn:Hcli.
  - destruct send as [msg |]; [| destruct recv as [msg |]]; injection H as <- <-.
    + split; [discriminate |]. intros _. split; [reflexivity |].
      split; [intros _; repeat split | reflexivity].
    + split; [discriminate |]. intros _. split; [reflexivity |].
      split; [intros _; repeat split | reflexivity].
    + split; [| congruence]. intros _.
      split; [reflexivity |]. split; [discriminate |]. split; reflexivity.
  - injection H as <- <-. split; [discriminate |]. intros _.
    split; [first [exact Hcli | reflexivity] |]. split; [congruence |].
    unfold RedirectToLeader. rewrite ?Hcli. reflexivity.
Qed.

Lemma RedirectToLeader_failure_drops_connection_witness :
  (Corruption "timeout" = OK ->
   CleanLeader following = following /\ leader_cli_ following <> None /\
   Some "timeout" = None /\ (None : option string) = None) /\
  (Corruption "timeout" <> OK ->
     leader_cli_ (CleanLeader following) = None /\
     (leader_cli_ following <> None -> disconnected (CleanLeader following)) /\
     RedirectToLeader None None (CleanLeader following) =
       (Corruption "no leader connection", CleanLeader following)).
Proof.
  apply (RedirectToLeader_failure_drops_connection (Some "timeout") None None None
           following (CleanLeader following) (Corruption "timeout")).
  reflexivity.
Defined.

(** ** The query counters of a worker thread *)

Lemma thread_querynum_iter (n : nat) (t : ZPDataWorkerThread) :
  is_uint64 (thread_querynum_ t) ->
  thread_querynum_ (Nat.iter n PlusThreadQuerynum t) =
    wrapu64 (thread_querynum_ t + Z.of_nat n) /\
  last_thread_querynum_ (Nat.iter n PlusThreadQuerynum t) = last_thread_querynum_ t /\
  last_time_us_ (Nat.iter n PlusThreadQuerynum t) = last_time_us_ t.
Proof.
  intros Hq. unfold is_uint64 in Hq. induction n as [| n (IH1 & IH2 & IH3)].
  - cbn [Nat.iter]. rewrite Z.add_0_r. unfold wrapu64. rewrite Z.mod_small by lia.
    repeat split.
  - change (Nat.iter (S n) PlusThreadQuerynum t)
      with (PlusThreadQuerynum (Nat.iter n PlusThreadQuerynum t)).
    cbn [PlusThreadQuerynum thread_querynum_ last_thread_querynum_ last_time_us_].
    rewrite IH1, IH2, IH3. split; [| split; reflexivity].
    unfold wrapu64. rewrite Zplus_mod_idemp_l. f_equal. lia.
Qed.

(** The rate [ResetLastSecQuerynum] computes after [n] queries since the
    last reset is [n] * 1000000 / (elapsed microseconds + 1), also when the
    counter of queries has wrapped around in between; the reset remembers the
    counter and the time. When the clock reads one microsecond less than at
    the last reset the divisor is zero. *)
Theorem ResetLastSecQuerynum_rate (t : ZPDataWorkerThread) (n : nat) (cur_time_us : Z) :
  is_uint64 (thread_querynum_ t) ->
  last_thread_querynum_ t = thread_querynum_ t ->
  Z.of_nat n * 1000000 < 2 ^ 64 ->
  0 <= cur_time_us - last_time_us_ t < 2 ^ 64 - 1 ->
  (exists t',
     ResetLastSecQuerynum cur_time_us (Nat.iter n PlusThreadQuerynum t) = Some t' /\
     last_sec_thread_querynum t' =
       Z.of_nat n * 1000000 / (cur_time_us - last_time_us_ t + 1) /\
     thread_querynum t' = wrapu64 (thread_querynum_ t + Z.of_nat n) /\
     last_thread_querynum_ t' = thread_querynum t' /\
     last_time_us_ t' = cur_time_us) /\
  ResetLastSecQuerynum (last_time_us_ t - 1) (Nat.iter n PlusThreadQuerynum t) = None.
Proof.
  intros Hq Hlast Hn Htime.
  destruct (thread_querynum_iter n t Hq) as (H1 & H2 & H3).
  unfold ResetLastSecQuerynum. rewrite H1, H2, H3, Hlast. cbv zeta. split.
  - assert (Hd : wrapu64 (wrapu64 (cur_time_us - last_time_us_ t) + 1) =
                 cur_time_us - last_time_us_ t + 1).
    { unfold wrapu64. rewrite (Z.mod_small (cur_time_us - last_time_us_ t)) by lia.
      apply Z.mod_small. lia. }
    rewrite Hd. destruct (Z.eqb_spec (cur_time_us - last_time_us_ t + 1) 0) as [He | _]; [lia |].
    eexists. split; [reflexivity |].
    cbn [last_sec_thread_querynum thread_querynum last_sec_thread_querynum_ thread_querynum_
           last_thread_querynum_ last_time_us_].
    split; [| repeat split].
    assert (Hdiff : wrapu64 (wrapu64 (thread_querynum_ t + Z.of_nat n) - thread_querynum_ t) =
                    Z.of_nat n).
    { unfold wrapu64. rewrite Zminus_mod_idemp_l.
      replace (thread_querynum_ t + Z.of_nat n - thread_querynum_ t) with (Z.of_nat n) by lia.
      apply Z.mod_small. lia. }
    rewrite Hdiff. unfold wrapu64. rewrite Z.mod_small by lia. reflexivity.
  - replace (last_time_us_ t - 1 - last_time_us_ t) with (-1) by lia.
    reflexivity.
Qed.

Lemma ResetLastSecQuerynum_rate_witness :
  (exists t',
     ResetLastSecQuerynum 5999999 (Nat.iter 5 PlusThreadQuerynum busy_thread) = Some t' /\
     last_sec_thread_querynum t' = Z.of_nat 5 * 1000000 / (5999999 - last_time_us_ busy_thread + 1) /\
     thread_querynum t' = wrapu64 (thread_querynum_ busy_thread + Z.of_nat 5) /\
     last_thread_querynum_ t' = thread_querynum t' /\
     last_time_us_ t' = 5999999) /\
  ResetLastSecQuerynum (last_time_us_ busy_thread - 1) (Nat.iter 5 PlusThreadQuerynum busy_thread)
    = None.
Proof.
  apply (ResetLastSecQuerynum_rate busy_thread 5 5999999).
  - unfold is_uint64. cbn [busy_thread thread_querynum_]. lia.
  - reflexivity.
  - lia.
  - cbn [busy_thread last_time_us_]. lia.
Defined.

(** ** PartitionNums without a readable partition number *)

Lemma after_DirtyRead (key : string) (st : ZPMetaServer) :
  let st1 := after (floyd_DirtyRead key) st in
  script (floyd_ st1) = tl (script (floyd_ st)) /\
  kv (floyd_ st1) = kv (floyd_ st) /\ version_ st1 = version_ st.
Proof.
  unfold after, floyd_DirtyRead, Floyd_DirtyRead, next_outcome. cbn [kv].
  destruct (hd true (script (floyd_ st))); [destruct (kv (floyd_ st) !! key) |];
    cbn; auto.
Qed.

(** C10: [PartitionNums] returns 0 when the dirty read of [PN] fails and
    when the key is absent, and [Distribute] then passes its guard and goes on
    with the placement: when no later call of floyd fails, it lays out the
    table over the nodes that are up as a first call does, stores it with the
    next version and stores [num] under [PN], whatever was stored there. *)
Theorem PartitionNums_unreadable_is_zero (st : ZPMetaServer) :
  hd true (script (floyd_ st)) = false \/ kv (floyd_ st) !! ZP_META_KEY_PN = None ->
  let st1 := after (floyd_DirtyRead ZP_META_KEY_PN) st in
  PartitionNums st = Returns 0 st1 /\
  (forall fuel num, Distribute fuel num st = Distribute_nodes fuel num st1) /\
  forall (fuel : nat) (num : Z) (nodes : Nodes) (alive_nodes : list NodeStatus),
    tl (script (floyd_ st)) = [] ->
    kv (floyd_ st) !! ZP_META_KEY_ND = Some (SerializedNodes nodes) ->
    GetAllAliveNode nodes <> [] ->
    Z.of_nat (length (GetAllAliveNode nodes)) <= INT_MAX ->
    Reorganize fuel (GetAllAliveNode nodes) [] = Some alive_nodes ->
    0 <= num < INT_MAX ->
    exists st' T,
      Distribute fuel num st = Returns OK st' /\
      kv (floyd_ st') !! ZP_META_KEY_PN = Some (Str (to_string num)) /\
      kv (floyd_ st') !! ZP_META_KEY_MT = Some (SerializedPull T) /\
      version T = wrap64 (version_ st + 1) /\
      version_ st' = version T /\
      length (info T) = Z.to_nat num /\
      forall i, 0 <= i < num ->
        exists m s1 s2,
          alive_nodes !! Z.to_nat (i mod Z.of_nat (length alive_nodes)) = Some m /\
          alive_nodes !! Z.to_nat ((i + 1) mod Z.of_nat (length alive_nodes)) = Some s1 /\
          alive_nodes !! Z.to_nat ((i + 2) mod Z.of_nat (length alive_nodes)) = Some s2 /\
          info T !! Z.to_nat i =
            Some {| id := i; master := node m; slaves := [node s1; node s2] |} /\
          kv (floyd_ st') !! PartitionId2Key i =
            Some (SerializedReplicaset
                    {| rs_id := i; rs_node := [node m; node s1; node s2] |}).
Proof.
  intros Hread st1.
  assert (Hpn : PartitionNums st = Returns 0 st1).
  { subst st1. unfold PartitionNums, after. unfold_store.
    destruct (hd true (script (floyd_ st))); [| reflexivity].
    destruct Hread as [Hread | Hread]; [discriminate |].
    cbn [floyd_ kv]. rewrite Hread. reflexivity. }
  assert (Hdist : forall fuel num, Distribute fuel num st = Distribute_nodes fuel num st1).
  { intros fuel num. unfold Distribute. rewrite Hpn. reflexivity. }
  split; [exact Hpn |]. split; [exact Hdist |].
  intros fuel num nodes alive_nodes Htl Hnd Hne Hmax Hre Hnum.
  destruct (after_DirtyRead ZP_META_KEY_PN st) as (Hs1 & Hkv1 & Hv1). fold st1 in Hs1, Hkv1, Hv1.
  rewrite Htl in Hs1. rewrite <- Hkv1 in Hnd.
  pose proof (Reorganize_output_size _ _ _ Hmax Hre Hne) as Hlen.
  set (n := Z.of_nat (length alive_nodes)) in *.
  assert (Hn : wrap32 n = n)
    by (apply wrap32_in_range; unfold is_int, INT_MIN, INT_MAX in *; lia).
  destruct (placed_frame num alive_nodes st1 Hs1) as (_ & Hv & Hpn1 & Hmt & _).
  fold n in Hmt. rewrite Hv1 in Hmt, Hv.
  exists (placed num alive_nodes st1). eexists.
  split; [rewrite Hdist;
          apply (Distribute_nodes_no_faults fuel num nodes alive_nodes st1 Hs1 Hnd Hne Hre) |].
  split; [exact Hpn1 |]. split; [exact Hmt |]. cbn [version info].
  split; [reflexivity |]. split; [exact Hv |].
  split; [apply length_Distribute_layout |].
  intros i Hi.
  assert (H0 : 0 <= i mod n < n) by (apply Z.mod_pos_bound; lia).
  assert (H1 : 0 <= (i + 1) mod n < n) by (apply Z.mod_pos_bound; lia).
  assert (H2 : 0 <= (i + 2) mod n < n) by (apply Z.mod_pos_bound; lia).
  exists (vector_at alive_nodes (i mod n)), (vector_at alive_nodes ((i + 1) mod n)),
         (vector_at alive_nodes ((i + 2) mod n)).
  split; [apply vector_at_lookup; exact H0 |].
  split; [apply vector_at_lookup; exact H1 |].
  split; [apply vector_at_lookup; exact H2 |].
  assert (Hw1 : wrap32 (i + 1) = i + 1)
    by (apply wrap32_in_range; unfold is_int, INT_MIN, INT_MAX in *; lia).
  assert (Hw2 : wrap32 (i + 2) = i + 2)
    by (apply wrap32_in_range; unfold is_int, INT_MIN, INT_MAX in *; lia).
  subst n. split.
  - rewrite Distribute_layout_lookup by lia. rewrite Z2Nat.id, Z.add_0_l by lia.
    unfold partition_at. rewrite Hn, Hw1, Hw2, !Z.rem_mod_nonneg by lia. reflexivity.
  - unfold placed. cbn [stored with_floyd with_version floyd_ kv].
    rewrite lookup_insert_ne by (intros Heq; symmetry in Heq; exact (PartitionId2Key_not_PN i Heq)).
    rewrite lookup_insert_ne by (intros Heq; symmetry in Heq; exact (PartitionId2Key_not_MT i Heq)).
    rewrite Distribute_stored_lookup by (unfold INT_MAX in *; lia).
    unfold replicaset_at. rewrite Hn, Hw1, Hw2, !Z.rem_mod_nonneg by lia. reflexivity.
Qed.

Lemma PartitionNums_unreadable_is_zero_witness :
  kv (floyd_ PN_read_fails) !! ZP_META_KEY_PN = Some (Str "4") /\
  PartitionNums PN_read_fails =
    Returns 0 (after (floyd_DirtyRead ZP_META_KEY_PN) PN_read_fails) /\
  exists st' T,
    Distribute 3 2 PN_read_fails = Returns OK st' /\
    kv (floyd_ st') !! ZP_META_KEY_PN = Some (Str (to_string 2)) /\
    kv (floyd_ st') !! ZP_META_KEY_MT = Some (SerializedPull T) /\
    version T = wrap64 (version_ PN_read_fails + 1) /\
    version_ st' = version T /\
    length (info T) = Z.to_nat 2 /\
    forall i, 0 <= i < 2 ->
      exists m s1 s2,
        all_up !! Z.to_nat (i mod Z.of_nat (length all_up)) = Some m /\
        all_up !! Z.to_nat ((i + 1) mod Z.of_nat (length all_up)) = Some s1 /\
        all_up !! Z.to_nat ((i + 2) mod Z.of_nat (length all_up)) = Some s2 /\
        info T !! Z.to_nat i =
          Some {| id := i; master := node m; slaves := [node s1; node s2] |} /\
        kv (floyd_ st') !! PartitionId2Key i =
          Some (SerializedReplicaset
                  {| rs_id := i; rs_node := [node m; node s1; node s2] |}).
Proof.
  assert (Hread : hd true (script (floyd_ PN_read_fails)) = false \/
                  kv (floyd_ PN_read_fails) !! ZP_META_KEY_PN = None)
    by (left; reflexivity).
  pose proof (PartitionNums_unreadable_is_zero PN_read_fails Hread) as W.
  cbv zeta in W. destruct W as (W1 & _ & W3).
  split; [vm_compute; reflexivity |]. split; [exact W1 |].
  apply (W3 3%nat 2 all_up all_up).
  - reflexivity.
  - vm_compute. reflexivity.
  - discriminate.
  - vm_compute. discriminate.
  - vm_compute. reflexivity.
  - unfold INT_MAX. lia.
Defined.
